(** * Lottery bot: ticket store, draw coordinator and their glue

    A shallow embedding of the Telegram lottery bot (bot.py,
    handlers/start.py, utils/language.py, utils/logger.py,
    src/helpers/bot.py and src/helpers/config.py) together with the
    properties of its ticket life cycle, draw coordination, audit
    logging, translation lookup, keyboards and settings.

    Python values are modelled as follows: [int] as [Z], [str] as
    [string] (bytes of the UTF-8 text), [Optional[T]] as [option T],
    dictionaries as [gmap], SQL tables as lists of rows in insertion
    order.  Handlers run in a state-and-exception monad over the [World];
    every awaited call to the chat transport or to the database is
    recorded in the world's trace. *)

From Stdlib Require Import ZArith Ascii String DecimalString DecimalZ DecimalPos.
From stdpp Require Import gmap strings list sorting.

Open Scope string_scope.
Open Scope Z_scope.

(** ** Python primitives used by the bot *)

Module Py.

(** [str(n)] for an [int]. *)
Definition str_int (n : Z) : string := NilZero.string_of_int (Z.to_int n).

(** [s.startswith(p)]. *)
Fixpoint startswith (s p : string) {struct p} : bool :=
  match p with
  | EmptyString => true
  | String b p' =>
      match s with
      | EmptyString => false
      | String a s' => Ascii.eqb a b && startswith s' p'
      end
  end.

(** [s.split(":", 1)]: cut at the first colon, if there is one. *)
Fixpoint split_colon_once (s : string) : list string :=
  match s with
  | EmptyString => [EmptyString]
  | String c rest =>
      if Ascii.eqb c ":"%char then [EmptyString; rest]
      else match split_colon_once rest with
           | hd :: tl => String c hd :: tl
           | [] => [String c EmptyString]
           end
  end.

(** [s.lower()] on the ASCII letters; every language code the bot maps
    is ASCII. *)
Definition lower_ascii (c : ascii) : ascii :=
  let n := N_of_ascii c in
  if ((65 <=? n) && (n <=? 90))%N then ascii_of_N (n + 32) else c.

Fixpoint lower (s : string) : string :=
  match s with
  | EmptyString => EmptyString
  | String c rest => String (lower_ascii c) (lower rest)
  end.

(** [s.lstrip('@')]. *)
Fixpoint lstrip_at (s : string) : string :=
  match s with
  | String c rest => if Ascii.eqb c "@"%char then lstrip_at rest else s
  | EmptyString => EmptyString
  end.

(** Truthiness of an [Optional[str]]: [None] and the empty string are
    falsy. *)
Definition truthy_str (o : option string) : bool :=
  match o with
  | Some s => negb (String.eqb s "")
  | None => false
  end.

(** [a or b] on an optional string and a string. *)
Definition or_str (o : option string) (d : string) : string :=
  match o with
  | Some s => if String.eqb s "" then d else s
  | None => d
  end.

(** [s[:n]]. *)
Fixpoint take (n : nat) (s : string) : string :=
  match n, s with
  | S n', String c rest => String c (take n' rest)
  | _, _ => EmptyString
  end.

(** Python's ASCII whitespace. *)
Definition is_space (c : ascii) : bool :=
  let n := N_of_ascii c in
  ((n =? 32) || ((9 <=? n) && (n <=? 13)) || ((28 <=? n) && (n <=? 31)))%N.

Fixpoint lstrip (s : string) : string :=
  match s with
  | String c rest => if is_space c then lstrip rest else s
  | EmptyString => EmptyString
  end.

Fixpoint rstrip (s : string) : string :=
  match s with
  | String c rest =>
      match rstrip rest with
      | EmptyString => if is_space c then EmptyString else String c EmptyString
      | kept => String c kept
      end
  | EmptyString => EmptyString
  end.

(** [s.strip()], on ASCII whitespace. *)
Definition strip (s : string) : string := rstrip (lstrip s).

(** [sep.join(parts)]. *)
Fixpoint join (sep : string) (parts : list string) : string :=
  match parts with
  | [] => ""
  | [p] => p
  | p :: rest => p ++ sep ++ join sep rest
  end.

(** [str(xs)] for a list of [int]. *)
Definition str_int_list (xs : list Z) : string :=
  "[" ++ join ", " (List.map str_int xs) ++ "]".

End Py.

(** ** Exceptions and results *)

Inductive Exn : Type :=
| AttributeError      (* attribute access on [None] *)
| IndexError
| KeyError (k : string)
| ValueError
| Conflict            (* the draw lock is already held *)
| TransportError.     (* any failure raised by the chat transport *)

Inductive Res (A : Type) : Type :=
| Ok (a : A)
| Raise (e : Exn).
Arguments Ok {A} a.
Arguments Raise {A} e.

(** ** Data model *)

Module User.
Record t : Type := mk
  { id : Z;
    username : option string;
    language_code : option string }.
End User.

(** One row of the tickets table; [status] uses the two string tokens of
    the source, ["active"] and ["rejected"]. *)
Module Ticket.
Record t : Type := mk
  { ticket_number : Z;
    user_id : Z;
    username : option string;
    file_id : string;
    status : string;
    reason : option string }.

Definition with_status (s : string) (r : option string) (tk : t) : t :=
  mk (ticket_number tk) (user_id tk) (username tk) (file_id tk) s r.
End Ticket.

Module PhotoSize.
Record t : Type := mk { file_id : string; file_size : option Z }.
End PhotoSize.

Module Message.
Record t : Type := mk
  { chat_id : Z;
    from_user : option User.t;
    photo : list PhotoSize.t }.
End Message.

Module CallbackQuery.
Record t : Type := mk
  { from_user : option User.t;
    data : option string;
    chat_id : Z }.
End CallbackQuery.

(** config.py, [Settings]. *)
Module Settings.
Record t : Type := mk
  { bot_token : string;
    admin_ids : list Z;
    group_chat_id : Z;
    log_channel_id : option Z;
    channel_username : option string;
    updates_channel_username : option string }.
End Settings.

(** Keyboards of src/helpers/bot.py. *)
Inductive ButtonTarget : Type :=
| CallbackData (payload : string)
| Url (url : string).

Record InlineKeyboardButton : Type :=
  { button_text : string; button_target : ButtonTarget }.

Inductive Markup : Type :=
| ReplyKeyboardMarkup (keyboard : list (list string))
| InlineKeyboardMarkup (inline_keyboard : list (list InlineKeyboardButton)).

Record InlineQueryResultArticle : Type :=
  { article_id : string;
    article_title : string;
    article_description : string;
    article_message_text : string }.

Module InlineQuery.
Record t : Type := mk { from_user : User.t; query : string }.
End InlineQuery.

(** Calls to the chat transport. *)
Inductive Out : Type :=
| MessageAnswer (chat : Z) (text : string) (reply_markup : option Markup)
| MessageReply (chat : Z) (text : string) (reply_markup : option Markup)
| MessageAnswerPhoto (chat : Z) (file_id caption : string)
    (reply_markup : option Markup)
| CallbackAnswer (text : option string) (show_alert : bool)
| BotSendMessage (chat : Z) (text : string)
| EditReplyMarkup (chat : Z)
| InlineQueryAnswer (results : list InlineQueryResultArticle) (cache_time : Z).

(** Calls to the database module. *)
Inductive DbCall : Type :=
| GetNextTicketNumber
| AddTicket (n : Z)
| GetActiveTicketsByUser (u : Z)
| GetActiveTicketByNumber (n : Z)
| GetTicketByNumberAnyStatus (n : Z)
| SetTicketStatus (n : Z) (new_status : string) (reason : option string)
| GetRandomActiveTicket
| ArchiveLottery
| SetUserLanguage (u : Z) (language : string)
| GetUserLanguage (u : Z).

Inductive Event : Type :=
| Sent (o : Out)
| Query (q : DbCall).

(** Modelled from the spec: the persistent store behind
    src/database/db.py, which is not among the sources: the live tickets
    of the round, the archived ones, the last ticket number issued and
    the saved language of each user. *)
Module Db.
Record t : Type := mk
  { tickets : list Ticket.t;
    archived : list Ticket.t;
    last_ticket_number : Z;
    user_languages : gmap Z string }.
End Db.

Definition Translations : Type := gmap string (gmap string string).

(** utils/logger.py, [TelegramLogger]: the bot handle is the transport of
    the world, so the logger is its channel id. *)
Module TelegramLogger.
Record t : Type := mk { log_channel_id : option Z }.
End TelegramLogger.

(** Module-level globals of the process. *)
Module Memory.
Record t : Type := mk
  { draw_lock_locked : bool;
    _user_languages : gmap Z string;
    _translations : option Translations;
    telegram_logger : option TelegramLogger.t }.
End Memory.

Inductive FsmState : Type :=
| AdminView | AdminDelete | RejectReason | DeleteReason | WaitingForPhoto.

Module World.
Record t : Type := mk
  { db : Db.t;
    mem : Memory.t;
    fsm : gmap Z FsmState;
    rng : list nat;
    trace : list Event }.

Definition with_db (d : Db.t) (w : t) : t :=
  mk d (mem w) (fsm w) (rng w) (trace w).
Definition with_mem (m : Memory.t) (w : t) : t :=
  mk (db w) m (fsm w) (rng w) (trace w).
Definition with_fsm (f : gmap Z FsmState) (w : t) : t :=
  mk (db w) (mem w) f (rng w) (trace w).
Definition with_rng (r : list nat) (w : t) : t :=
  mk (db w) (mem w) (fsm w) r (trace w).
Definition with_trace (tr : list Event) (w : t) : t :=
  mk (db w) (mem w) (fsm w) (rng w) tr.
End World.

(** What the process cannot decide: the contents of data/language.json
    at load time, which transport calls fail, the clock, and Python's
    [str.format].  A read of the file has the three outcomes
    [load_translations] provides for; [main] loads the translations
    before any handler runs. *)
Inductive FileRead : Type :=
| FileJson (t : Translations)
| FileNotFoundError
| JSONDecodeError.

Module Env.
Record t : Type := mk
  { settings : Settings.t;
    language_file : FileRead;
    transport_raises : Out -> bool;
    now : string;
    format : string -> list (string * string) -> Res string }.
End Env.

(** ** The handler monad: state and exceptions *)

Definition M (A : Type) : Type := World.t -> Res A * World.t.

Definition ret {A} (a : A) : M A := fun w => (Ok a, w).

Definition raise {A} (e : Exn) : M A := fun w => (Raise e, w).

Definition bind {A B} (m : M A) (k : A -> M B) : M B :=
  fun w =>
    match m w with
    | (Ok a, w') => k a w'
    | (Raise e, w') => (Raise e, w')
    end.

(** [try: m except Exception as e: h e]. *)
Definition try_except {A} (m : M A) (h : Exn -> M A) : M A :=
  fun w =>
    match m w with
    | (Ok a, w') => (Ok a, w')
    | (Raise e, w') => h e w'
    end.

(** [try: m finally: f], as the exit of a [with] block runs. *)
Definition finally {A} (m : M A) (f : M unit) : M A :=
  fun w =>
    match m w with
    | (r, w') =>
        match f w' with
        | (Ok _, w'') => (r, w'')
        | (Raise e, w'') => (Raise e, w'')
        end
    end.

Notation "'let!' x := m 'in' k" := (bind m (fun x => k))
  (at level 10, x name, m at level 99, k at level 200).
Notation "m ;; k" := (bind m (fun _ => k))
  (at level 100, k at level 200, right associativity).

Definition get_world : M World.t := fun w => (Ok w, w).
Definition modify (f : World.t -> World.t) : M unit := fun w => (Ok tt, f w).

Definition emit (e : Event) : M unit :=
  modify (fun w => World.with_trace (World.trace w ++ [e]) w).

(** Attribute access on an optional object. *)
Definition attr {A B} (o : option A) (f : A -> B) : M B :=
  match o with
  | Some a => ret (f a)
  | None => raise AttributeError
  end.

(** [xs[i]]. *)
Definition index {A} (xs : list A) (i : nat) : M A :=
  match xs !! i with
  | Some x => ret x
  | None => raise IndexError
  end.

(** ** src/database/db.py *)

Module db.

Definition is_active (tk : Ticket.t) : bool :=
  String.eqb (Ticket.status tk) "active".

Definition has_number (n : Z) (tk : Ticket.t) : bool :=
  Ticket.ticket_number tk =? n.

Definition owned_by (u : Z) (tk : Ticket.t) : bool :=
  Ticket.user_id tk =? u.

Definition number_le (a b : Ticket.t) : Prop :=
  Ticket.ticket_number a <= Ticket.ticket_number b.

#[global] Instance number_le_dec a b : Decision (number_le a b).
Proof. unfold number_le. apply _. Defined.

#[global] Instance number_le_total : Total number_le.
Proof. intros a b. unfold number_le. lia. Qed.

#[global] Instance number_le_trans : Transitive number_le.
Proof. intros a b c. unfold number_le. lia. Qed.

(** Modelled from the spec: the database module src/database/db.py is
    not among the sources.  [next_ticket_number() -> integer] returns
    the next unused ticket number and advances the counter. *)
Definition next_ticket_number (d : Db.t) : Z * Db.t :=
  let n := Db.last_ticket_number d + 1 in
  (n, Db.mk (Db.tickets d) (Db.archived d) n (Db.user_languages d)).

(** Modelled from the spec: [add_ticket(number, owner_user_id,
    owner_display_name, photo_reference)] inserts a new ticket with
    status [active]. *)
Definition insert_ticket (n u : Z) (name : option string) (file : string)
    (d : Db.t) : Db.t :=
  Db.mk (Db.tickets d ++ [Ticket.mk n u name file "active" None])
        (Db.archived d) (Db.last_ticket_number d) (Db.user_languages d).

(** Modelled from the spec: [list_active_tickets_for_user(user_id)]
    returns all tickets owned by [user_id] with status [active], in
    ascending order of ticket number. *)
Definition active_tickets_of (u : Z) (d : Db.t) : list Ticket.t :=
  merge_sort number_le
    (List.filter (fun tk => owned_by u tk && is_active tk) (Db.tickets d)).

(** Modelled from the spec: [get_ticket_any_status(number)] fetches a
    ticket regardless of status. *)
Definition ticket_any_status (n : Z) (d : Db.t) : option Ticket.t :=
  List.find (has_number n) (Db.tickets d).

(** Modelled from the spec: [get_active_ticket(number)] fetches a single
    ticket only if its status is [active]; an absent ticket and an
    inactive one both give [NotFound]. *)
Definition active_ticket (n : Z) (d : Db.t) : option Ticket.t :=
  List.find (fun tk => has_number n tk && is_active tk) (Db.tickets d).

(** Modelled from the spec: [set_ticket_status(number, new_status,
    reason) -> success/NotFound] applies the forward-only transition and
    rejects, as a reported no-op, an attempt to move a ticket out of
    [rejected]. *)
Definition update_status (n : Z) (new_status : string)
    (reason : option string) (d : Db.t) : bool * Db.t :=
  match ticket_any_status n d with
  | None => (false, d)
  | Some tk =>
      if String.eqb (Ticket.status tk) "rejected"
         && negb (String.eqb new_status "rejected")
      then (false, d)
      else (true,
            Db.mk (List.map (fun row =>
                               if has_number n row
                               then Ticket.with_status new_status reason row
                               else row) (Db.tickets d))
                  (Db.archived d) (Db.last_ticket_number d)
                  (Db.user_languages d))
  end.

(** Modelled from the spec: [draw_random_active_ticket() -> Ticket or
    Empty] selects one ticket among those currently [active]; the random
    choice is the number [r]. *)
Definition random_active_ticket (r : nat) (d : Db.t) : option Ticket.t :=
  let actives := List.filter is_active (Db.tickets d) in
  actives !! (r `mod` length actives)%nat.

(** Modelled from the spec: [archive_round()] removes all tickets,
    active and rejected, from the live working set (here: moves them to
    cold storage) and preserves the global ticket-number counter. *)
Definition archive (d : Db.t) : Db.t :=
  Db.mk [] (Db.archived d ++ Db.tickets d) (Db.last_ticket_number d)
        (Db.user_languages d).

(** Modelled from the spec: the user language preference is a mapping
    from user id to a language key; this writes one entry. *)
Definition save_language (u : Z) (language : string) (d : Db.t) : Db.t :=
  Db.mk (Db.tickets d) (Db.archived d) (Db.last_ticket_number d)
        (<[u := language]> (Db.user_languages d)).

(** One awaited database call: it is recorded in the trace and acts on
    the store. *)
Definition call {A} (q : DbCall) (f : Db.t -> A * Db.t) : M A :=
  emit (Query q) ;;
  fun w => let '(a, d) := f (World.db w) in (Ok a, World.with_db d w).

(** Modelled from the spec: [get_next_ticket_number] as bot.py awaits it
    (the spec's [next_ticket_number]). *)
Definition get_next_ticket_number : M Z :=
  call GetNextTicketNumber next_ticket_number.

(** Modelled from the spec: [add_ticket] as bot.py awaits it. *)
Definition add_ticket (n u : Z) (name : option string) (file : string)
    : M unit :=
  call (AddTicket n) (fun d => (tt, insert_ticket n u name file d)).

(** Modelled from the spec: [get_active_tickets_by_user] as bot.py
    awaits it (the spec's [list_active_tickets_for_user]); the rows come
    back whole, the ticket number is their first column. *)
Definition get_active_tickets_by_user (u : Z) : M (list Ticket.t) :=
  call (GetActiveTicketsByUser u) (fun d => (active_tickets_of u d, d)).

(** Modelled from the spec: [get_active_ticket_by_number] as bot.py
    awaits it (the spec's [get_active_ticket]). *)
Definition get_active_ticket_by_number (n : Z) : M (option Ticket.t) :=
  call (GetActiveTicketByNumber n) (fun d => (active_ticket n d, d)).

(** Modelled from the spec: [get_ticket_by_number_any_status] as bot.py
    awaits it (the spec's [get_ticket_any_status]). *)
Definition get_ticket_by_number_any_status (n : Z) : M (option Ticket.t) :=
  call (GetTicketByNumberAnyStatus n) (fun d => (ticket_any_status n d, d)).

(** Modelled from the spec: [set_ticket_status] as bot.py awaits it. *)
Definition set_ticket_status (n : Z) (new_status : string)
    (reason : option string) : M bool :=
  call (SetTicketStatus n new_status reason) (update_status n new_status reason).

(** The selection itself, once the call has been issued: it consumes one
    random number. *)
Definition select_random_active_ticket : M (option Ticket.t) :=
  fun w =>
    let r := match World.rng w with r :: _ => r | [] => 0%nat end in
    (Ok (random_active_ticket r (World.db w)),
     World.with_rng (tail (World.rng w)) w).

(** Modelled from the spec: [get_random_active_ticket] as bot.py awaits
    it (the spec's [draw_random_active_ticket], without its lock, which
    the handler takes). *)
Definition get_random_active_ticket : M (option Ticket.t) :=
  emit (Query GetRandomActiveTicket) ;; select_random_active_ticket.

(** Modelled from the spec: [archive_lottery] as bot.py awaits it (the
    spec's [archive_round]). *)
Definition archive_lottery : M unit :=
  call ArchiveLottery (fun d => (tt, archive d)).

(** Modelled from the spec: [set_user_language] of the database module,
    as handlers/start.py awaits it. *)
Definition set_user_language (u : Z) (language : string) : M unit :=
  call (SetUserLanguage u language) (fun d => (tt, save_language u language d)).

(** Modelled from the spec: [get_user_language] of the database module,
    as handlers/start.py awaits it; [None] for a user without a saved
    preference. *)
Definition get_user_language (u : Z) : M (option string) :=
  call (GetUserLanguage u) (fun d => (Db.user_languages d !! u, d)).

End db.

(** ** src/commands/utils.py *)

Module utils.

(** Modelled from the spec: src/commands/utils.py is not among the
    sources.  Whether a caller is an administrator is a predicate over
    the user identifier, decided by the configured set of administrator
    identifiers. *)
Definition is_admin (user_id : Z) (admin_ids : list Z) : bool :=
  bool_decide (user_id ∈ admin_ids).

(** Modelled from the spec: the payload carries the ticket number as a
    decimal integer suffix, and a suffix that is not an integer is an
    error: the result is [None]. *)
Definition parse_int_safe (text : string) : option Z :=
  option_map Z.of_int (NilZero.int_of_string text).

(** Modelled from the spec: the draw lock is a single global
    mutual-exclusion flag, not a queue; entering the critical section is
    an all-or-nothing attempt, and a caller that finds the flag held is
    rejected synchronously instead of waiting. *)
Definition draw_lock_locked : M bool :=
  fun w => (Ok (Memory.draw_lock_locked (World.mem w)), w).

Definition set_draw_lock (b : bool) (w : World.t) : World.t :=
  let m := World.mem w in
  World.with_mem (Memory.mk b (Memory._user_languages m)
                    (Memory._translations m) (Memory.telegram_logger m)) w.

(** Modelled from the spec: [draw_lock.__aenter__], the non-blocking
    attempt to take the flag. *)
Definition draw_lock_aenter : M unit :=
  fun w =>
    if Memory.draw_lock_locked (World.mem w) then (Raise Conflict, w)
    else (Ok tt, set_draw_lock true w).

(** Modelled from the spec: [draw_lock.__aexit__], the release of the
    flag when the selection and its presentation are over. *)
Definition draw_lock_aexit : M unit :=
  fun w => (Ok tt, set_draw_lock false w).

End utils.

(** ** The chat transport *)

Section Transport.
Context (env : Env.t).

(** One awaited transport call: recorded in the trace, and it raises
    when the transport fails on it. *)
Definition send (o : Out) : M unit :=
  emit (Sent o) ;;
  if Env.transport_raises env o then raise TransportError else ret tt.

End Transport.

Definition nl : string := String (ascii_of_nat 10) EmptyString.

(** ** utils/language.py *)

Module language.

Definition LANGUAGE_MAPPING : list (string * string) :=
  [ ("en", "english"); ("ar", "arabic"); ("ru", "russian");
    ("es", "spanish"); ("zh", "chinese"); ("zh-cn", "chinese");
    ("zh-tw", "chinese") ].

Definition DEFAULT_LANGUAGE : string := "english".

(** [LANGUAGE_MAPPING[code]] with the [in] test before it. *)
Definition mapping_lookup (code : string) : option string :=
  snd <$> List.find (fun kv => String.eqb (fst kv) code) LANGUAGE_MAPPING.

Definition set_translations (t : Translations) (w : World.t) : World.t :=
  let m := World.mem w in
  World.with_mem (Memory.mk (Memory.draw_lock_locked m)
                    (Memory._user_languages m) (Some t)
                    (Memory.telegram_logger m)) w.

Definition fallback_not_found : Translations :=
  {[ "english" :=
       <[ "welcome" := "Welcome to Lottery Bot!" ]>
       (<[ "add_me" := "Add Me âž•" ]>
       (<[ "updates" := "Bot Updates ðŸ””" ]> ∅)) ]}.

Definition fallback_bad_json : Translations :=
  {[ "english" := {[ "welcome" := "Welcome to Lottery Bot!" ]} ]}.

Section WithEnv.
Context (env : Env.t).

(** [load_translations()]: the cached value, or the file, or one of the
    two minimal English tables when the file is missing or malformed. *)
Definition load_translations : M Translations :=
  fun w =>
    match Memory._translations (World.mem w) with
    | Some t => (Ok t, w)
    | None =>
        match Env.language_file env with
        | FileJson t => (Ok t, set_translations t w)
        | FileNotFoundError =>
            (Ok fallback_not_found, set_translations fallback_not_found w)
        | JSONDecodeError =>
            (Ok fallback_bad_json, set_translations fallback_bad_json w)
        end
    end.

(** [get_user_lang(language_code)]. *)
Definition get_user_lang (language_code : option string) : M string :=
  match language_code with
  | None => ret DEFAULT_LANGUAGE
  | Some code =>
      if String.eqb code "" then ret DEFAULT_LANGUAGE
      else
        match mapping_lookup (Py.lower code) with
        | Some detected_lang =>
            let! translations := load_translations in
            match translations !! detected_lang with
            | Some _ => ret detected_lang
            | None => ret DEFAULT_LANGUAGE
            end
        | None => ret DEFAULT_LANGUAGE
        end
  end.

(** [set_user_language(user_id, language)] of the in-memory table. *)
Definition set_user_language (user_id : Z) (lang : string) : M unit :=
  modify (fun w =>
    let m := World.mem w in
    World.with_mem (Memory.mk (Memory.draw_lock_locked m)
                      (<[user_id := lang]> (Memory._user_languages m))
                      (Memory._translations m)
                      (Memory.telegram_logger m)) w).

(** [get_user_language(user_id)] of the in-memory table. *)
Definition get_user_language (user_id : Z) : M string :=
  fun w =>
    (Ok (default DEFAULT_LANGUAGE
           (Memory._user_languages (World.mem w) !! user_id)), w).

(** [translations[lang][key]] guarded by the two [in] tests. *)
Definition entry (t : Translations) (lang key : string) : option string :=
  t !! lang ≫= fun table => table !! key.

(** [text.format] applied to the keyword arguments, inside its [try]:
    any exception gives the text unformatted. *)
Definition format_or_text (text : string) (kwargs : list (string * string))
    : M string :=
  try_except
    (fun w => (Env.format env text kwargs, w))
    (fun e => match e with
              | KeyError _ => ret text
              | _ => ret text
              end).

(** [get_text(user_id, key, kwargs)]; [kwargs] are the keyword arguments
    of the call, rendered as strings. *)
Definition get_text (user_id : Z) (key : string)
    (kwargs : list (string * string)) : M string :=
  let! user_lang := get_user_language user_id in
  let! translations := load_translations in
  match entry translations user_lang key with
  | Some text => format_or_text text kwargs
  | None =>
      match entry translations DEFAULT_LANGUAGE key with
      | Some text => format_or_text text kwargs
      | None => ret ("[Missing translation: " ++ key ++ "]")
      end
  end.

End WithEnv.
End language.

(** utils/language.py, [is_language_available(language)]. *)
Definition is_language_available (env : Env.t) (lang : string) : M bool :=
  let! translations := language.load_translations env in
  ret (bool_decide (is_Some (translations !! lang))).

(** ** utils/logger.py *)

Module logger.
Section WithEnv.
Context (env : Env.t).

(** [TelegramLogger.log_user_action].  The writes to Python's own
    [logging] module are not part of the model.  A caller that hands over
    [None] for the user makes [user.username] raise, inside the [try]. *)
Definition log_user_action (self : TelegramLogger.t) (user : option User.t)
    (action : string) (lang additional_info : option string) : M unit :=
  try_except
    (let timestamp := Env.now env in
     let! user := attr user (fun u => u) in
     let username :=
       match User.username user with
       | Some name => if String.eqb name "" then "No username" else "@" ++ name
       | None => "No username"
       end in
     let log_message :=
       "📊 <b>User Action Log</b>" ++ nl ++ nl ++
       "👤 <b>User:</b> " ++ username ++ " (" ++ Py.str_int (User.id user)
         ++ ")" ++ nl ++
       "🎯 <b>Action:</b> " ++ action ++ nl in
     let log_message :=
       if Py.truthy_str lang
       then log_message ++ "🌐 <b>Language:</b> " ++ Py.or_str lang "" ++ nl
       else log_message in
     let log_message :=
       if Py.truthy_str additional_info
       then log_message ++ "ℹ️ <b>Info:</b> "
              ++ Py.or_str additional_info "" ++ nl
       else log_message in
     let log_message := log_message ++ "⏰ <b>Time:</b> " ++ timestamp in
     match TelegramLogger.log_channel_id self with
     | Some channel =>
         if channel =? 0 then ret tt
         else try_except (send env (BotSendMessage channel log_message))
                         (fun _ => ret tt)
     | None => ret tt
     end)
    (fun _ => ret tt).

(** [TelegramLogger.log_admin_action]. *)
Definition log_admin_action (self : TelegramLogger.t) (user : option User.t)
    (action : string) (target reason : option string) : M unit :=
  let additional_info :=
    List.app
      (if Py.truthy_str target then ["Target: " ++ Py.or_str target ""]
       else [])
      (if Py.truthy_str reason then ["Reason: " ++ Py.or_str reason ""]
       else []) in
  log_user_action self user ("[ADMIN] " ++ action) None
    (match additional_info with
     | [] => None
     | _ => Some (Py.join " | " additional_info)
     end).

(** [TelegramLogger.log_system_event]. *)
Definition log_system_event (self : TelegramLogger.t) (event : string)
    (details : option string) : M unit :=
  try_except
    (let timestamp := Env.now env in
     let log_message :=
       "🤖 <b>System Event</b>" ++ nl ++ nl ++
       "📋 <b>Event:</b> " ++ event ++ nl in
     let log_message :=
       if Py.truthy_str details
       then log_message ++ "📝 <b>Details:</b> " ++ Py.or_str details "" ++ nl
       else log_message in
     let log_message := log_message ++ "⏰ <b>Time:</b> " ++ timestamp in
     match TelegramLogger.log_channel_id self with
     | Some channel =>
         if channel =? 0 then ret tt
         else try_except (send env (BotSendMessage channel log_message))
                         (fun _ => ret tt)
     | None => ret tt
     end)
    (fun _ => ret tt).

(** [get_logger()]. *)
Definition get_logger : M (option TelegramLogger.t) :=
  fun w => (Ok (Memory.telegram_logger (World.mem w)), w).

(** [init_logger(bot, log_channel_id)]. *)
Definition init_logger (log_channel_id : option Z) : M TelegramLogger.t :=
  fun w =>
    let m := World.mem w in
    let l := TelegramLogger.mk log_channel_id in
    (Ok l, World.with_mem (Memory.mk (Memory.draw_lock_locked m)
                             (Memory._user_languages m)
                             (Memory._translations m) (Some l)) w).

End WithEnv.
End logger.

(** [str(x)] for an optional string, as an f-string renders it. *)
Definition str_opt (o : option string) : string :=
  match o with
  | Some s => s
  | None => "None"
  end.

(** ** src/helpers/bot.py: keyboards *)

Module helpers.

Definition welcome_row (name : option string) (text : string)
    : list (list InlineKeyboardButton) :=
  match name with
  | Some n =>
      if String.eqb n "" then []
      else [[ {| button_text := text;
                 button_target := Url ("https://t.me/" ++ Py.lstrip_at n) |} ]]
  | None => []
  end.

Definition get_welcome_inline_keyboard
    (channel_username updates_channel_username : option string)
    (add_me_text updates_text : string) : Markup :=
  InlineKeyboardMarkup
    (List.app (welcome_row channel_username add_me_text)
              (welcome_row updates_channel_username updates_text)).

Definition user_menu (upload_text tickets_text back_text : string) : Markup :=
  ReplyKeyboardMarkup [[upload_text]; [tickets_text]; [back_text]].

Definition admin_menu (start_draw_text show_photo_text delete_ticket_text
    archive_text settings_text back_text : string) : Markup :=
  ReplyKeyboardMarkup
    [[start_draw_text]; [show_photo_text]; [delete_ticket_text];
     [archive_text]; [settings_text]; [back_text]].

Definition back_menu (back_text : string) : Markup :=
  ReplyKeyboardMarkup [[back_text]].

Definition lottery_inline_actions (ticket_number : Z)
    (confirm_text reject_text : string) : Markup :=
  InlineKeyboardMarkup
    [[ {| button_text := confirm_text;
          button_target :=
            CallbackData ("confirm_win:" ++ Py.str_int ticket_number) |};
       {| button_text := reject_text;
          button_target :=
            CallbackData ("reject_win:" ++ Py.str_int ticket_number) |} ]].

Definition ticket_button (ticket_num : Z) : InlineKeyboardButton :=
  {| button_text := "🎟 №" ++ Py.str_int ticket_num;
     button_target := CallbackData ("view_ticket:" ++ Py.str_int ticket_num) |}.

(** The buttons two to a row. *)
Fixpoint rows_of_two {A} (xs : list A) : list (list A) :=
  match xs with
  | a :: b :: rest => [a; b] :: rows_of_two rest
  | [a] => [[a]]
  | [] => []
  end.

Definition user_tickets_inline_keyboard (ticket_numbers : list Z) : Markup :=
  InlineKeyboardMarkup (rows_of_two (List.map ticket_button ticket_numbers)).

End helpers.

(** ** src/helpers/config.py: reading the settings *)

Module config.

(** The two exceptions the module raises, with their messages. *)
Inductive Error : Type :=
| ValueError (msg : string)
| RuntimeError (msg : string).

(** [value.split(",")]. *)
Fixpoint split_comma (s : string) : list string :=
  match s with
  | EmptyString => [EmptyString]
  | String c rest =>
      if Ascii.eqb c ","%char then EmptyString :: split_comma rest
      else match split_comma rest with
           | hd :: tl => String c hd :: tl
           | [] => [String c EmptyString]
           end
  end.

(** [os.getenv(key, default)], on the environment as the [load_dotenv]
    calls at the head of [load_settings] leave it. *)
Definition getenv (environ : gmap string string) (key dflt : string) : string :=
  default dflt (environ !! key).

(** [s or None]. *)
Definition or_none (s : string) : option string :=
  if String.eqb s "" then None else Some s.

Section WithInt.

(** Python's [int] on a [str]: [None] stands for its [ValueError]. *)
Context (int : string -> option Z).

(** The loop of [_parse_admin_ids] over the parts still to read, with
    the list built so far. *)
Fixpoint parse_parts (parts : list string) (result : list Z)
    : Error + list Z :=
  match parts with
  | [] => inr result
  | part :: rest =>
      let part := Py.strip part in
      if String.eqb part "" then parse_parts rest result
      else
        match int part with
        | Some n => parse_parts rest (result ++ [n])
        | None =>
            inl (ValueError "ADMIN_IDS должен быть списком чисел, разделённых запятыми")
        end
  end.

(** [_parse_admin_ids(value)]. *)
Definition _parse_admin_ids (value : string) : Error + list Z :=
  if String.eqb value "" then inr []
  else parse_parts (split_comma value) [].

(** [load_settings()], after the search for the .env file. *)
Definition load_settings (environ : gmap string string)
    : Error + Settings.t :=
  let bot_token :=
    let first := Py.strip (getenv environ "BOT_TOKEN" "") in
    if String.eqb first "" then Py.strip (getenv environ "TOKEN" "")
    else first in
  if String.eqb bot_token "" then
    inl (RuntimeError "BOT_TOKEN or TOKEN not specified in environment")
  else
    let group_chat_id_raw := Py.strip (getenv environ "GROUP_CHAT_ID" "") in
    if String.eqb group_chat_id_raw "" then
      inl (RuntimeError "GROUP_CHAT_ID not specified in environment")
    else
      match int group_chat_id_raw with
      | None => inl (RuntimeError "GROUP_CHAT_ID must be a number")
      | Some group_chat_id =>
          let admin_ids_raw := Py.strip (getenv environ "ADMIN_IDS" "") in
          match _parse_admin_ids admin_ids_raw with
          | inl e => inl e
          | inr [] =>
              inl (RuntimeError "ADMIN_IDS list is empty. Specify at least one administrator")
          | inr admin_ids =>
              let log_channel_id_raw :=
                Py.strip (getenv environ "LOG_CHANNEL_ID" "") in
              let log_channel_id :=
                if String.eqb log_channel_id_raw "" then None
                else int log_channel_id_raw in
              let channel_username :=
                or_none (Py.strip (getenv environ "CHANNEL_USERNAME" "")) in
              let updates_channel_username :=
                or_none
                  (Py.strip (getenv environ "UPDATES_CHANNEL_USERNAME" "")) in
              inr (Settings.mk bot_token admin_ids group_chat_id
                     log_channel_id channel_username updates_channel_username)
          end
      end.

End WithInt.
End config.

(** ** handlers/start.py and bot.py: the handlers *)

Module bot.
Section WithEnv.
Context (env : Env.t).

Abbreviation settings := (Env.settings env).
Abbreviation get_text := (language.get_text env).
Abbreviation send := (send env).

Definition state_clear (chat : Z) : M unit :=
  modify (fun w => World.with_fsm (delete chat (World.fsm w)) w).

Definition state_get_state (chat : Z) : M (option FsmState) :=
  fun w => (Ok (World.fsm w !! chat), w).

(** [str(e)]; the texts stand for Python's. *)
Definition exn_str (e : Exn) : string :=
  match e with
  | AttributeError => "'NoneType' object has no attribute 'id'"
  | IndexError => "list index out of range"
  | KeyError k => "'" ++ k ++ "'"
  | ValueError => "value error"
  | Conflict => "draw in progress"
  | TransportError => "transport error"
  end.

(** [if logger: await logger.log_user_action(...)]. *)
Definition log_user (lg : option TelegramLogger.t) (user : User.t)
    (action : string) (lang additional_info : option string) : M unit :=
  match lg with
  | Some l =>
      logger.log_user_action env l (Some user) action lang additional_info
  | None => ret tt
  end.

(** [if logger: await logger.log_admin_action(...)]. *)
Definition log_admin (lg : option TelegramLogger.t) (user : User.t)
    (action : string) (target reason : option string) : M unit :=
  match lg with
  | Some l => logger.log_admin_action env l (Some user) action target reason
  | None => ret tt
  end.

(** handlers/start.py, [handle_start_command].  Clearing the state and
    reading the logger come before the [try] here: neither raises, and
    the [except] branch reads the logger they bind. *)
Definition handle_start_command (message : Message.t) : M unit :=
  state_clear (Message.chat_id message) ;;
  match Message.from_user message with
  | None => ret tt
  | Some user =>
      let! lg := logger.get_logger in
      try_except
        (let! detected_language :=
           language.get_user_lang env (User.language_code user) in
         let! saved_language := db.get_user_language (User.id user) in
         let user_language := Py.or_str saved_language detected_language in
         (if negb (Py.truthy_str saved_language)
             || negb (String.eqb (Py.or_str saved_language "")
                                 detected_language)
          then db.set_user_language (User.id user) user_language
          else ret tt) ;;
         log_user lg user "/start" (Some user_language)
           (Some ("Detected: " ++ detected_language ++ ", Used: "
                    ++ user_language)) ;;
         let! welcome_text := get_text (User.id user) "welcome" [] in
         let! add_me_text := get_text (User.id user) "add_me" [] in
         let! updates_text := get_text (User.id user) "updates" [] in
         let inline_keyboard :=
           helpers.get_welcome_inline_keyboard
             (Settings.channel_username settings)
             (Settings.updates_channel_username settings)
             add_me_text updates_text in
         send (MessageReply (Message.chat_id message) welcome_text
                 (Some inline_keyboard)))
        (fun e =>
           (match lg with
            | Some l =>
                logger.log_system_event env l "Error in start command"
                  (Some ("User " ++ Py.str_int (User.id user) ++ ": "
                           ++ exn_str e))
            | None => ret tt
            end) ;;
           send (MessageReply (Message.chat_id message)
                   ("🎉 Welcome to the Lottery Bot!" ++ nl ++ nl ++
                    "Upload your photos to participate in exciting lotteries and win amazing prizes! 🏆")
                   None))
  end.

(** [max(message.photo, key=lambda p: p.file_size or 0)]: the first
    photo of the greatest size. *)
Definition size_of (p : PhotoSize.t) : Z :=
  match PhotoSize.file_size p with
  | Some n => n
  | None => 0
  end.

Fixpoint largest (best : PhotoSize.t) (rest : list PhotoSize.t)
    : PhotoSize.t :=
  match rest with
  | [] => best
  | p :: rest' =>
      if size_of best <? size_of p then largest p rest' else largest best rest'
  end.

(** bot.py, [handle_upload_photo]. *)
Definition handle_upload_photo (message : Message.t) : M unit :=
  try_except
    (match Message.from_user message with
     | None => ret tt
     | Some user =>
         let! current_state := state_get_state (Message.chat_id message) in
         match current_state with
         | Some WaitingForPhoto =>
             match Message.photo message with
             | [] =>
                 let! error_text :=
                   get_text (User.id user) "send_photo_only" [] in
                 let! back_text := get_text (User.id user) "back_to_menu" [] in
                 send (MessageAnswer (Message.chat_id message) error_text
                         (Some (helpers.back_menu back_text)))
             | p :: ps =>
                 let file_id := PhotoSize.file_id (largest p ps) in
                 let! ticket_number := db.get_next_ticket_number in
                 db.add_ticket ticket_number (User.id user)
                   (User.username user) file_id ;;
                 state_clear (Message.chat_id message) ;;
                 let! lg := logger.get_logger in
                 log_user lg user "photo_uploaded" None
                   (Some ("Ticket #" ++ Py.str_int ticket_number)) ;;
                 let! confirmation_text :=
                   get_text (User.id user) "photo_registered"
                     [("ticket_number", Py.str_int ticket_number)] in
                 let! upload_text := get_text (User.id user) "upload_photo" [] in
                 let! tickets_text := get_text (User.id user) "my_tickets" [] in
                 let! back_text := get_text (User.id user) "back_to_menu" [] in
                 send (MessageAnswer (Message.chat_id message)
                         confirmation_text
                         (Some (helpers.user_menu upload_text tickets_text
                                  back_text))) ;;
                 let! group_notification :=
                   get_text (User.id user) "user_got_ticket"
                     [("username",
                       Py.or_str (User.username user)
                         (Py.str_int (User.id user)));
                      ("ticket_number", Py.str_int ticket_number)] in
                 send (BotSendMessage (Settings.group_chat_id settings)
                         group_notification)
             end
         | _ => ret tt
         end
     end)
    (fun _ =>
       send (MessageAnswer (Message.chat_id message) "Error processing photo"
               None)).

(** bot.py, [handle_my_tickets]. *)
Definition handle_my_tickets (message : Message.t) : M unit :=
  try_except
    (match Message.from_user message with
     | None => ret tt
     | Some user =>
         let! lg := logger.get_logger in
         log_user lg user "view_my_tickets" None None ;;
         let! rows := db.get_active_tickets_by_user (User.id user) in
         match rows with
         | [] =>
             let! no_tickets_text := get_text (User.id user) "no_tickets" [] in
             send (MessageAnswer (Message.chat_id message) no_tickets_text None)
         | _ =>
             let ticket_numbers := List.map Ticket.ticket_number rows in
             let keyboard :=
               helpers.user_tickets_inline_keyboard ticket_numbers in
             let! tickets_text :=
               get_text (User.id user) "your_tickets"
                 [("count",
                   Py.str_int (Z.of_nat (length ticket_numbers)))] in
             send (MessageAnswer (Message.chat_id message) tickets_text
                     (Some keyboard))
         end
     end)
    (fun _ =>
       send (MessageAnswer (Message.chat_id message) "Error retrieving tickets"
               None)).

(** [is_admin(user.id, settings.admin_ids)]. *)
Definition is_admin_user (user : User.t) : bool :=
  utils.is_admin (User.id user) (Settings.admin_ids settings).

(** bot.py, [admin_start_draw], run without interruption.  When
    [message.from_user] is [None] the guard [not user or ...] holds and
    [get_text(user.id, ...)] raises inside the [try]. *)
Definition admin_start_draw (message : Message.t) : M unit :=
  let chat := Message.chat_id message in
  try_except
    (match Message.from_user message with
     | None => raise AttributeError
     | Some user =>
         if negb (is_admin_user user) then
           let! insufficient_text :=
             get_text (User.id user) "insufficient_rights" [] in
           send (MessageAnswer chat insufficient_text None)
         else
           let! locked := utils.draw_lock_locked in
           if locked then
             let! draw_progress_text :=
               get_text (User.id user) "draw_in_progress" [] in
             send (MessageAnswer chat draw_progress_text None)
           else
             let! lg := logger.get_logger in
             log_admin lg user "start_draw" None None ;;
             utils.draw_lock_aenter ;;
             finally
               (let! ticket := db.get_random_active_ticket in
                match ticket with
                | None =>
                    let! no_tickets_text :=
                      get_text (User.id user) "no_active_tickets" [] in
                    send (MessageAnswer chat no_tickets_text None)
                | Some tk =>
                    let! draw_text :=
                      get_text (User.id user) "draw_result"
                        [("ticket_number",
                          Py.str_int (Ticket.ticket_number tk));
                         ("username", str_opt (Ticket.username tk))] in
                    let! confirm_text :=
                      get_text (User.id user) "confirm_winner" [] in
                    let! reject_text :=
                      get_text (User.id user) "reject_ticket" [] in
                    send (MessageAnswerPhoto chat (Ticket.file_id tk) draw_text
                            (Some (helpers.lottery_inline_actions
                                     (Ticket.ticket_number tk)
                                     confirm_text reject_text)))
                end)
               utils.draw_lock_aexit
     end)
    (fun _ => send (MessageAnswer chat "Error starting draw" None)).

(** [callback.data] when it is non-empty and starts with [prefix]. *)
Definition data_with_prefix (callback : CallbackQuery.t) (prefix : string)
    : option string :=
  match CallbackQuery.data callback with
  | Some d =>
      if negb (String.eqb d "") && Py.startswith d prefix then Some d else None
  | None => None
  end.

(** bot.py, [admin_confirm_winner]. *)
Definition admin_confirm_winner (callback : CallbackQuery.t) : M unit :=
  try_except
    (match CallbackQuery.from_user callback with
     | None => raise AttributeError
     | Some user =>
         if negb (is_admin_user user) then
           let! no_rights_text := get_text (User.id user) "no_rights" [] in
           send (CallbackAnswer (Some no_rights_text) true)
         else
           match data_with_prefix callback "confirm_win:" with
           | None => ret tt
           | Some d =>
               let! suffix := index (Py.split_colon_once d) 1 in
               match utils.parse_int_safe suffix with
               | None =>
                   let! incorrect_number_text :=
                     get_text (User.id user) "incorrect_ticket_number" [] in
                   send (CallbackAnswer (Some incorrect_number_text) true)
               | Some num =>
                   let! ticket := db.get_ticket_by_number_any_status num in
                   match ticket with
                   | Some tk =>
                       if negb (String.eqb (Ticket.status tk) "active") then
                         let! unavailable_text :=
                           get_text (User.id user) "ticket_unavailable" [] in
                         send (CallbackAnswer (Some unavailable_text) true)
                       else
                         db.set_ticket_status num "rejected" None ;;
                         let! lg := logger.get_logger in
                         log_admin lg user "confirm_winner"
                           (Some ("Ticket #" ++ Py.str_int num))
                           (Some ("Winner: @" ++ str_opt (Ticket.username tk))) ;;
                         let! winner_text :=
                           get_text (User.id user) "winner_announced"
                             [("ticket_number", Py.str_int num);
                              ("username", str_opt (Ticket.username tk))] in
                         send (BotSendMessage (Settings.group_chat_id settings)
                                 winner_text) ;;
                         send (EditReplyMarkup (CallbackQuery.chat_id callback)) ;;
                         let! published_text :=
                           get_text (User.id user) "winner_published" [] in
                         send (CallbackAnswer (Some published_text) false)
                   | None =>
                       let! unavailable_text :=
                         get_text (User.id user) "ticket_unavailable" [] in
                       send (CallbackAnswer (Some unavailable_text) true)
                   end
               end
           end
     end)
    (fun _ => send (CallbackAnswer (Some "Error confirming winner") false)).

(** bot.py, [user_view_ticket_callback]. *)
Definition user_view_ticket_callback (callback : CallbackQuery.t) : M unit :=
  try_except
    (match CallbackQuery.from_user callback with
     | None => ret tt
     | Some user =>
         match data_with_prefix callback "view_ticket:" with
         | None =>
             let! incorrect_text :=
               get_text (User.id user) "incorrect_request" [] in
             send (CallbackAnswer (Some incorrect_text) true)
         | Some d =>
             let! suffix := index (Py.split_colon_once d) 1 in
             match utils.parse_int_safe suffix with
             | None =>
                 let! incorrect_number_text :=
                   get_text (User.id user) "incorrect_ticket_number" [] in
                 send (CallbackAnswer (Some incorrect_number_text) true)
             | Some num =>
                 let! ticket := db.get_active_ticket_by_number num in
                 match ticket with
                 | None =>
                     let! not_found_text :=
                       get_text (User.id user) "ticket_not_found" [] in
                     send (CallbackAnswer (Some not_found_text) true)
                 | Some tk =>
                     if negb (Ticket.user_id tk =? User.id user) then
                       let! no_access_text :=
                         get_text (User.id user) "no_access_ticket" [] in
                       send (CallbackAnswer (Some no_access_text) true)
                     else
                       let! lg := logger.get_logger in
                       log_user lg user "view_ticket" None
                         (Some ("Ticket #" ++ Py.str_int num)) ;;
                       let! ticket_text :=
                         get_text (User.id user) "your_ticket"
                           [("ticket_number", Py.str_int num)] in
                       send (MessageAnswerPhoto (CallbackQuery.chat_id callback)
                               (Ticket.file_id tk) ticket_text None) ;;
                       send (CallbackAnswer None false)
                 end
             end
         end
     end)
    (fun _ => send (CallbackAnswer (Some "Error viewing ticket") false)).

(** bot.py, [admin_archive]. *)
Definition admin_archive (message : Message.t) : M unit :=
  let chat := Message.chat_id message in
  try_except
    (match Message.from_user message with
     | None => raise AttributeError
     | Some user =>
         if negb (is_admin_user user) then
           let! insufficient_text :=
             get_text (User.id user) "insufficient_rights" [] in
           send (MessageAnswer chat insufficient_text None)
         else
           let! lg := logger.get_logger in
           log_admin lg user "archive_lottery" None None ;;
           db.archive_lottery ;;
           let! archived_text := get_text (User.id user) "lottery_archived" [] in
           send (BotSendMessage (Settings.group_chat_id settings) archived_text)
     end)
    (fun _ => send (MessageAnswer chat "Error archiving lottery" None)).

Definition state_set_state (chat : Z) (st : FsmState) : M unit :=
  modify (fun w => World.with_fsm (<[chat := st]> (World.fsm w)) w).

(** bot.py, [start_menu]. *)
Definition start_menu (message : Message.t) : M unit :=
  let chat := Message.chat_id message in
  try_except
    (match Message.from_user message with
     | None => ret tt
     | Some user =>
         let! lg := logger.get_logger in
         log_user lg user "menu_access" None None ;;
         let! saved := db.get_user_language (User.id user) in
         let! user_lang :=
           if Py.truthy_str saved then ret (Py.or_str saved "")
           else language.get_user_lang env (User.language_code user) in
         if is_admin_user user then
           let! menu_text := get_text (User.id user) "admin_main_menu" [] in
           let! start_draw_text := get_text (User.id user) "start_draw" [] in
           let! show_photo_text := get_text (User.id user) "show_photo" [] in
           let! delete_ticket_text :=
             get_text (User.id user) "delete_ticket" [] in
           let! archive_text := get_text (User.id user) "archive_lottery" [] in
           let! settings_text := get_text (User.id user) "check_settings" [] in
           let! back_text := get_text (User.id user) "back_to_menu" [] in
           send (MessageAnswer chat menu_text
                   (Some (helpers.admin_menu start_draw_text show_photo_text
                            delete_ticket_text archive_text settings_text
                            back_text)))
         else
           let! menu_text := get_text (User.id user) "main_menu" [] in
           let! upload_text := get_text (User.id user) "upload_photo" [] in
           let! tickets_text := get_text (User.id user) "my_tickets" [] in
           let! back_text := get_text (User.id user) "back_to_menu" [] in
           send (MessageAnswer chat menu_text
                   (Some (helpers.user_menu upload_text tickets_text back_text)))
     end)
    (fun _ =>
       send (MessageAnswer chat "Main Menu"
               (Some (helpers.user_menu "📸 Upload New Photo"
                        "🎟 View My Lottery Tickets" "⬅️ Back to Menu")))).

(** bot.py, [check_settings]. *)
Definition check_settings (message : Message.t) : M unit :=
  let chat := Message.chat_id message in
  try_except
    (match Message.from_user message with
     | None => raise AttributeError
     | Some user =>
         if negb (is_admin_user user) then
           let! insufficient_text :=
             get_text (User.id user) "insufficient_rights" [] in
           send (MessageAnswer chat insufficient_text None)
         else
           let! lg := logger.get_logger in
           log_admin lg user "check_settings" None None ;;
           let! settings_text :=
             get_text (User.id user) "settings_info"
               [("log_channel_id",
                 match Settings.log_channel_id settings with
                 | Some c => if c =? 0 then "Not set" else Py.str_int c
                 | None => "Not set"
                 end);
                ("admin_ids", Py.str_int_list (Settings.admin_ids settings));
                ("bot_token", Py.take 10 (Settings.bot_token settings))] in
           send (MessageAnswer chat settings_text None)
     end)
    (fun _ => send (MessageAnswer chat "Error checking settings" None)).

(** bot.py, [start_photo_upload]. *)
Definition start_photo_upload (message : Message.t) : M unit :=
  let chat := Message.chat_id message in
  try_except
    (match Message.from_user message with
     | None => ret tt
     | Some user =>
         let! lg := logger.get_logger in
         log_user lg user "start_photo_upload" None None ;;
         state_set_state chat WaitingForPhoto ;;
         let! instructions_text :=
           get_text (User.id user) "photo_upload_instructions" [] in
         let! back_text := get_text (User.id user) "back_to_menu" [] in
         send (MessageAnswer chat instructions_text
                 (Some (helpers.back_menu back_text)))
     end)
    (fun _ => send (MessageAnswer chat "Error starting photo upload" None)).

(** bot.py, [handle_inline_query]; its [except] branch only writes to
    Python's log. *)
Definition handle_inline_query (inline_query : InlineQuery.t) : M unit :=
  try_except
    (let user := InlineQuery.from_user inline_query in
     let query := Py.strip (InlineQuery.query inline_query) in
     let! lg := logger.get_logger in
     log_user lg user "inline_query" None
       (Some ("Query: '" ++ query ++ "'")) ;;
     let results :=
       [ {| article_id := "lottery_info";
            article_title := "ğŸ‰ Lottery Bot";
            article_description := "Join our exciting lottery! Upload photos to win prizes!";
            article_message_text := "ğŸ‰ Join our exciting lottery! Upload your photos to participate and win amazing prizes! ğŸ†" |} ] in
     let results :=
       if String.eqb query "" then results
       else
         List.app results
           [ {| article_id := "search_result";
                article_title := "ğŸ” Search: " ++ query;
                article_description := "Click to share this search";
                article_message_text :=
                  "ğŸ” Searching for: " ++ query ++ nl ++ nl ++ "Join our lottery bot for exciting prizes!" |} ] in
     send (InlineQueryAnswer results 300))
    (fun _ => ret tt).

End WithEnv.
End bot.

(** ** The draw handler between its suspension points

    [admin_start_draw] again, cut at its [await]s, so that several draw
    attempts can be interleaved the way the event loop interleaves them.
    A task is resumed when the call it awaits has completed and then runs
    up to its next [await]. *)

Module coordinator.

Inductive Pc : Type :=
| Start                       (* invoked, nothing run yet *)
| Replying (o : Out)          (* awaiting the refusal sent at line 308 or 313 *)
| Logging (user : User.t) (l : TelegramLogger.t)
                              (* awaiting [log_admin_action], line 319 *)
| Selecting (user : User.t)   (* lock held, awaiting the selection, line 322 *)
| Presenting (o : Out)        (* lock held, awaiting the answer of line 325
                                 or the photo of line 338 *)
| Failing                     (* in [except], awaiting the error reply *)
| Done (r : Res unit).

Record Task : Type := { task_message : Message.t; task_pc : Pc }.

Record System : Type := { world : World.t; tasks : list Task }.

(** The task holds the draw lock. *)
Definition holds_lock (pc : Pc) : bool :=
  match pc with
  | Selecting _ | Presenting _ => true
  | _ => false
  end.

(** How many tasks are inside the critical section. *)
Definition in_flight (ts : list Task) : nat :=
  length (List.filter (fun t => holds_lock (task_pc t)) ts).

(** An upper bound on the own steps a task still needs. *)
Definition rank (pc : Pc) : nat :=
  match pc with
  | Start => 5
  | Logging _ _ => 4
  | Selecting _ => 3
  | Presenting _ => 2
  | Replying _ => 2
  | Failing => 1
  | Done _ => 0
  end.

Section WithEnv.
Context (env : Env.t).

Abbreviation get_text := (language.get_text env).

Definition error_reply (message : Message.t) : Out :=
  MessageAnswer (Message.chat_id message) "Error starting draw" None.

(** Entering the [except] branch: the error reply is issued. *)
Definition failing (message : Message.t) (w : World.t) : Pc * World.t :=
  (Failing,
   World.with_trace (World.trace w ++ [Sent (error_reply message)]) w).

(** A piece of the [try] body up to the next [await]. *)
Definition segment (message : Message.t) (m : M Pc) (w : World.t)
    : Pc * World.t :=
  match m w with
  | (Ok pc, w') => (pc, w')
  | (Raise _, w') => failing message w'
  end.

(** The same inside the [async with]: an exception releases the lock on
    its way to the [except] branch. *)
Definition locked_segment (message : Message.t) (m : M Pc) (w : World.t)
    : Pc * World.t :=
  match m w with
  | (Ok pc, w') => (pc, w')
  | (Raise _, w') => failing message (utils.set_draw_lock false w')
  end.

(** Lines 321-322: take the lock and issue the selection. *)
Definition enter (user : User.t) : M Pc :=
  utils.draw_lock_aenter ;;
  emit (Query GetRandomActiveTicket) ;;
  ret (Selecting user).

Definition issue (o : Out) (k : Out -> Pc) : M Pc :=
  emit (Sent o) ;; ret (k o).

Definition resume (message : Message.t) (pc : Pc) : World.t -> Pc * World.t :=
  let chat := Message.chat_id message in
  match pc with
  | Start =>
      segment message
        (match Message.from_user message with
         | None => raise AttributeError
         | Some user =>
             if negb (bot.is_admin_user env user) then
               let! insufficient_text :=
                 get_text (User.id user) "insufficient_rights" [] in
               issue (MessageAnswer chat insufficient_text None) Replying
             else
               let! locked := utils.draw_lock_locked in
               if locked then
                 let! draw_progress_text :=
                   get_text (User.id user) "draw_in_progress" [] in
                 issue (MessageAnswer chat draw_progress_text None) Replying
               else
                 let! lg := logger.get_logger in
                 match lg with
                 | Some l => ret (Logging user l)
                 | None => enter user
                 end
         end)
  | Replying o =>
      fun w =>
        if Env.transport_raises env o then failing message w
        else (Done (Ok tt), w)
  | Logging user l =>
      segment message
        (logger.log_admin_action env l (Some user) "start_draw" None None ;;
         enter user)
  | Selecting user =>
      locked_segment message
        (let! ticket := db.select_random_active_ticket in
         match ticket with
         | None =>
             let! no_tickets_text :=
               get_text (User.id user) "no_active_tickets" [] in
             issue (MessageAnswer chat no_tickets_text None) Presenting
         | Some tk =>
             let! draw_text :=
               get_text (User.id user) "draw_result"
                 [("ticket_number", Py.str_int (Ticket.ticket_number tk));
                  ("username", str_opt (Ticket.username tk))] in
             let! confirm_text :=
               get_text (User.id user) "confirm_winner" [] in
             let! reject_text := get_text (User.id user) "reject_ticket" [] in
             issue (MessageAnswerPhoto chat (Ticket.file_id tk) draw_text
                      (Some (helpers.lottery_inline_actions
                               (Ticket.ticket_number tk)
                               confirm_text reject_text)))
                   Presenting
         end)
  | Presenting o =>
      fun w =>
        if Env.transport_raises env o
        then failing message (utils.set_draw_lock false w)
        else (Done (Ok tt), utils.set_draw_lock false w)
  | Failing =>
      fun w =>
        if Env.transport_raises env (error_reply message)
        then (Done (Raise TransportError), w)
        else (Done (Ok tt), w)
  | Done r => fun w => (Done r, w)
  end.

(** The event loop resumes task [i]. *)
Definition sys_step (i : nat) (s : System) : System :=
  match tasks s !! i with
  | Some t =>
      let '(pc, w) := resume (task_message t) (task_pc t) (world s) in
      {| world := w;
         tasks := <[i := {| task_message := task_message t; task_pc := pc |}]>
                    (tasks s) |}
  | None => s
  end.

(** One draw attempt per incoming message, none of them started. *)
Definition arrivals (w : World.t) (messages : list Message.t) : System :=
  {| world := w;
     tasks := List.map (fun m => {| task_message := m; task_pc := Start |})
                messages |}.

(** A single task resumed [n] times in a row. *)
Fixpoint run_alone (n : nat) (message : Message.t) (pc : Pc) (w : World.t)
    : Pc * World.t :=
  match n with
  | O => (pc, w)
  | S n' => let '(pc', w') := resume message pc w in run_alone n' message pc' w'
  end.

End WithEnv.
End coordinator.

(** ** Requests served one after the other *)

Inductive Request : Type :=
| ReqStart (m : Message.t)
| ReqUploadPhoto (m : Message.t)
| ReqMyTickets (m : Message.t)
| ReqStartDraw (m : Message.t)
| ReqConfirmWinner (c : CallbackQuery.t)
| ReqViewTicket (c : CallbackQuery.t)
| ReqArchive (m : Message.t)
| ReqMenu (m : Message.t)
| ReqCheckSettings (m : Message.t)
| ReqStartPhotoUpload (m : Message.t)
| ReqInlineQuery (q : InlineQuery.t).

Definition handle (env : Env.t) (r : Request) : M unit :=
  match r with
  | ReqStart m => bot.handle_start_command env m
  | ReqUploadPhoto m => bot.handle_upload_photo env m
  | ReqMyTickets m => bot.handle_my_tickets env m
  | ReqStartDraw m => bot.admin_start_draw env m
  | ReqConfirmWinner c => bot.admin_confirm_winner env c
  | ReqViewTicket c => bot.user_view_ticket_callback env c
  | ReqArchive m => bot.admin_archive env m
  | ReqMenu m => bot.start_menu env m
  | ReqCheckSettings m => bot.check_settings env m
  | ReqStartPhotoUpload m => bot.start_photo_upload env m
  | ReqInlineQuery q => bot.handle_inline_query env q
  end.

Definition serve (env : Env.t) (reqs : list Request) (w : World.t) : World.t :=
  fold_left (fun w r => snd (handle env r w)) reqs w.

(** What the event loop does next: it resumes a draw task, or serves
    another request (a whole draw included) between two pieces of the
    draw tasks. *)
Inductive Tick : Type :=
| Resume (i : nat)
| Serve (r : Request).

Definition tick (env : Env.t) (t : Tick) (s : coordinator.System)
    : coordinator.System :=
  match t with
  | Resume i => coordinator.sys_step env i s
  | Serve r =>
      {| coordinator.world := snd (handle env r (coordinator.world s));
         coordinator.tasks := coordinator.tasks s |}
  end.

Definition run_ticks (env : Env.t) (ticks : list Tick)
    (s : coordinator.System) : coordinator.System :=
  fold_left (fun s t => tick env t s) ticks s.

(** ** Notions used in the statements *)

(** The text [get_text] gives in world [w]. *)
Definition text_of (env : Env.t) (w : World.t) (user_id : Z) (key : string)
    (kwargs : list (string * string)) : string :=
  match fst (language.get_text env user_id key kwargs w) with
  | Ok s => s
  | Raise _ => ""
  end.

(** The translations in force in world [w]: the cached table, or what
    loading the file gives. *)
Definition translations_of (env : Env.t) (w : World.t) : Translations :=
  match Memory._translations (World.mem w) with
  | Some t => t
  | None =>
      match Env.language_file env with
      | FileJson t => t
      | FileNotFoundError => language.fallback_not_found
      | JSONDecodeError => language.fallback_bad_json
      end
  end.

(** The world once the translations are cached. *)
Definition loaded (env : Env.t) (w : World.t) : World.t :=
  language.set_translations (translations_of env w) w.

(** The text chosen by the fallback chain of [get_text], before it is
    formatted. *)
Definition chosen_text (env : Env.t) (w : World.t) (user_id : Z) (key : string)
    : option string :=
  let user_lang :=
    default language.DEFAULT_LANGUAGE
      (Memory._user_languages (World.mem w) !! user_id) in
  match language.entry (translations_of env w) user_lang key with
  | Some text => Some text
  | None => language.entry (translations_of env w) language.DEFAULT_LANGUAGE key
  end.

Definition rendered (env : Env.t) (w : World.t) (user_id : Z) (key : string)
    (kwargs : list (string * string)) : string :=
  match chosen_text env w user_id key with
  | Some text =>
      match Env.format env text kwargs with
      | Ok out => out
      | Raise _ => text
      end
  | None => "[Missing translation: " ++ key ++ "]"
  end.

(** World [w] with [events] appended to its trace and nothing else
    changed. *)
Definition extend (w : World.t) (events : list Event) : World.t :=
  World.with_trace (World.trace w ++ events) w.

(** The trace of an answer that ends a handler: when the transport fails
    on it, the [except] branch sends [fallback] after it. *)
Definition answered (env : Env.t) (o fallback : Out) : list Event :=
  if Env.transport_raises env o then [Sent o; Sent fallback] else [Sent o].

(** The rows as [set_ticket_status(n, "rejected", None)] leaves them. *)
Definition reject_rows (n : Z) (rows : list Ticket.t) : list Ticket.t :=
  List.map (fun row =>
              if db.has_number n row
              then Ticket.with_status "rejected" None row
              else row) rows.

(** The callback an inline button carries back. *)
Definition callback_of (user : User.t) (payload : string) (chat : Z)
    : CallbackQuery.t :=
  CallbackQuery.mk (Some user) (Some payload) chat.

(** The language [get_user_lang] detects from a locale hint in world
    [w]. *)
Definition detected_language (env : Env.t) (w : World.t)
    (language_code : option string) : string :=
  match fst (language.get_user_lang env language_code w) with
  | Ok s => s
  | Raise _ => ""
  end.

(** The draw lock of a world. *)
Definition lock_held (w : World.t) : bool :=
  Memory.draw_lock_locked (World.mem w).

(** The refusal a second caller gets. *)
Definition draw_in_progress_reply (env : Env.t) (w : World.t)
    (message : Message.t) (user : User.t) : Out :=
  MessageAnswer (Message.chat_id message)
    (text_of env w (User.id user) "draw_in_progress" []) None.

(** Every run of [m] takes the world to one related to it by [R]. *)
Definition keeps {A} (R : relation World.t) (m : M A) : Prop :=
  forall w, R w (snd (m w)).

(** The relations the handlers are followed with: preorders on worlds
    that look neither at the trace, nor at the conversation states, nor
    at the random numbers, nor at the cached translations. *)
Class Frame (R : relation World.t) : Prop :=
  { frame_refl : Reflexive R;
    frame_trans : Transitive R;
    frame_trace : forall w tr, R w (World.with_trace tr w);
    frame_fsm : forall w f, R w (World.with_fsm f w);
    frame_rng : forall w r, R w (World.with_rng r w);
    frame_translations : forall w t, R w (language.set_translations t w) }.

(** A relation on stores, read on worlds. *)
Definition on_db (Rd : relation Db.t) : relation World.t :=
  fun w w' => Rd (World.db w) (World.db w').

(** The draw lock is as it was. *)
Definition same_lock : relation World.t :=
  fun w w' => lock_held w' = lock_held w.

(** The tasks inside the critical section are as many as the lock says:
    one when it is held, none when it is free. *)
Definition accounted (s : coordinator.System) : Prop :=
  coordinator.in_flight (coordinator.tasks s)
  = Nat.b2n (lock_held (coordinator.world s)).

Definition is_digit (c : ascii) : bool :=
  let n := N_of_ascii c in ((48 <=? n) && (n <=? 57))%N.

Fixpoint all_digits (s : string) : bool :=
  match s with
  | EmptyString => true
  | String c rest => is_digit c && all_digits rest
  end.

(** A decimal integer: an optional minus sign and at least one digit. *)
Definition decimal_integer (s : string) : bool :=
  match s with
  | EmptyString => false
  | String c rest =>
      if Ascii.eqb c "-"%char
      then negb (String.eqb rest "") && all_digits rest
      else all_digits s
  end.

(** Every live row numbered [n] is rejected. *)
Definition out_of_play (n : Z) (d : Db.t) : Prop :=
  Forall (fun tk => Ticket.ticket_number tk = n -> Ticket.status tk = "rejected")
         (Db.tickets d).

(** The rows other than those numbered [n]. *)
Definition others (n : Z) (d : Db.t) : list Ticket.t :=
  List.filter (fun tk => negb (db.has_number n tk)) (Db.tickets d).

(** From [d] to [d'], a number already issued whose live rows are all
    rejected stays so. *)
Definition stays_out (n : Z) (d d' : Db.t) : Prop :=
  n <= Db.last_ticket_number d -> out_of_play n d ->
  n <= Db.last_ticket_number d' /\ out_of_play n d'.

(** The numbering invariant of the store: no two live rows share a
    number, and the counter is not behind any of them. *)
Definition well_numbered (d : Db.t) : Prop :=
  NoDup (List.map Ticket.ticket_number (Db.tickets d))
  /\ Forall (fun tk => Ticket.ticket_number tk <= Db.last_ticket_number d)
            (Db.tickets d).

(** From [d] to [d'] the numbering invariant is kept. *)
Definition stays_numbered (d d' : Db.t) : Prop :=
  well_numbered d -> well_numbered d'.

(** The store before the first ticket. *)
Definition empty_store : Db.t := Db.mk [] [] 0 ∅.

(** From [d] to [d'] the saved, non-empty language of user [u] stays. *)
Definition language_kept (u : Z) (d d' : Db.t) : Prop :=
  forall lang,
    Db.user_languages d !! u = Some lang -> lang <> "" ->
    Db.user_languages d' !! u = Some lang.

(** The ticket numbers a user sees as their own active tickets. *)
Definition list_active_tickets_for_user (u : Z) (d : Db.t) : list Z :=
  List.map Ticket.ticket_number (db.active_tickets_of u d).

(** Two parsed lists one after the other: the first error, or the
    numbers of both. *)
Definition both_ids (x y : config.Error + list Z) : config.Error + list Z :=
  match x, y with
  | inl e, _ => inl e
  | inr _, inl e => inl e
  | inr a, inr b => inr (a ++ b)%list
  end.

(** The parts of an [ADMIN_IDS] value that count: stripped, and not
    blank. *)
Definition id_parts (value : string) : list string :=
  List.filter (fun part => negb (String.eqb part ""))
    (List.map Py.strip (config.split_comma value)).

(** A text of digits, with or without a sign, has nothing to strip and
    nothing to split. *)
Definition plain_char (c : ascii) : bool := is_digit c || Ascii.eqb c "-".

Fixpoint plain (s : string) : bool :=
  match s with
  | EmptyString => true
  | String c rest => plain_char c && plain rest
  end.

(** The settings with another log channel. *)
Definition with_log_channel_id (c : option Z) (s : Settings.t) : Settings.t :=
  Settings.mk (Settings.bot_token s) (Settings.admin_ids s)
    (Settings.group_chat_id s) c (Settings.channel_username s)
    (Settings.updates_channel_username s).

(** The world with its trace emptied and its cached translations
    dropped: the part of the world that talking leaves alone. *)
Definition hushed (w : World.t) : World.t :=
  let m := World.mem w in
  World.mk (World.db w)
    (Memory.mk (Memory.draw_lock_locked m) (Memory._user_languages m) None
       (Memory.telegram_logger m))
    (World.fsm w) (World.rng w) [].

(** From [w] to [w'] nothing has changed but the trace and the cached
    translations. *)
Definition only_talked : relation World.t :=
  fun w w' => hushed w' = hushed w.

(** The conversation states are as they were. *)
Definition same_fsm : relation World.t :=
  fun w w' => World.fsm w' = World.fsm w.

(** The in-memory language table of utils/language.py is as it was. *)
Definition same_languages : relation World.t :=
  fun w w' =>
    Memory._user_languages (World.mem w')
    = Memory._user_languages (World.mem w).

(** The relations that talking respects: preorders on worlds that look
    neither at the trace nor at the cached translations. *)
Class Talk (R : relation World.t) : Prop :=
  { talk_refl : Reflexive R;
    talk_trans : Transitive R;
    talk_trace : forall w tr, R w (World.with_trace tr w);
    talk_translations : forall w t, R w (language.set_translations t w) }.

(** The environment with another bot token. *)
Definition with_bot_token (token : string) (env : Env.t) : Env.t :=
  let s := Env.settings env in
  Env.mk (Settings.mk token (Settings.admin_ids s) (Settings.group_chat_id s)
            (Settings.log_channel_id s) (Settings.channel_username s)
            (Settings.updates_channel_username s))
    (Env.language_file env) (Env.transport_raises env) (Env.now env)
    (Env.format env).

(** The reply each handler sends from its [except] branch;
    [handle_inline_query] sends none. *)
Definition last_resort (r : Request) : option Out :=
  match r with
  | ReqStart m =>
      Some (MessageReply (Message.chat_id m)
              ("🎉 Welcome to the Lottery Bot!" ++ nl ++ nl ++
               "Upload your photos to participate in exciting lotteries and win amazing prizes! 🏆")
              None)
  | ReqUploadPhoto m =>
      Some (MessageAnswer (Message.chat_id m) "Error processing photo" None)
  | ReqMyTickets m =>
      Some (MessageAnswer (Message.chat_id m) "Error retrieving tickets" None)
  | ReqStartDraw m =>
      Some (MessageAnswer (Message.chat_id m) "Error starting draw" None)
  | ReqConfirmWinner _ =>
      Some (CallbackAnswer (Some "Error confirming winner") false)
  | ReqViewTicket _ =>
      Some (CallbackAnswer (Some "Error viewing ticket") false)
  | ReqArchive m =>
      Some (MessageAnswer (Message.chat_id m) "Error archiving lottery" None)
  | ReqMenu m =>
      Some (MessageAnswer (Message.chat_id m) "Main Menu"
              (Some (helpers.user_menu "📸 Upload New Photo"
                       "🎟 View My Lottery Tickets" "⬅️ Back to Menu")))
  | ReqCheckSettings m =>
      Some (MessageAnswer (Message.chat_id m) "Error checking settings" None)
  | ReqStartPhotoUpload m =>
      Some (MessageAnswer (Message.chat_id m) "Error starting photo upload"
              None)
  | ReqInlineQuery _ => None
  end.

(** The ticket a photo message of [user] becomes in store [d]. *)
Definition ticket_for (d : Db.t) (user : User.t) (p : PhotoSize.t)
    (ps : list PhotoSize.t) : Ticket.t :=
  Ticket.mk (Db.last_ticket_number d + 1) (User.id user) (User.username user)
    (PhotoSize.file_id (bot.largest p ps)) "active" None.

(** The store once that ticket is issued. *)
Definition issued (d : Db.t) (user : User.t) (p : PhotoSize.t)
    (ps : list PhotoSize.t) : Db.t :=
  Db.mk (Db.tickets d ++ [ticket_for d user p ps]) (Db.archived d)
    (Db.last_ticket_number d + 1) (Db.user_languages d).

(** The requests that are part of the upload conversation. *)
Definition moves_conversation (r : Request) : bool :=
  match r with
  | ReqStart _ | ReqUploadPhoto _ | ReqStartPhotoUpload _ => true
  | _ => false
  end.

(** The requests whose handler writes to the store: a ticket, a status,
    the archive, a language. *)
Definition writes_store (r : Request) : bool :=
  match r with
  | ReqUploadPhoto _ | ReqConfirmWinner _ | ReqArchive _ | ReqStart _ => true
  | _ => false
  end.

(** The log channel a logger sends to: none when the channel is not
    set, and none when it is zero, which Python takes for false. *)
Definition log_channel (l : TelegramLogger.t) : option Z :=
  match TelegramLogger.log_channel_id l with
  | Some channel => if channel =? 0 then None else Some channel
  | None => None
  end.

(** What one audit call sends: one message to the log channel when there
    is one and the call has something to say, nothing otherwise. *)
Definition one_log_message (l : TelegramLogger.t) (speaks : bool)
    (events : list Event) : Prop :=
  match log_channel l with
  | Some channel =>
      if speaks then exists text, events = [Sent (BotSendMessage channel text)]
      else events = []
  | None => events = []
  end.

(** Run on store [d], [m] leaves the store as it is, and every call it
    adds to the trace satisfies [P]. *)
Definition says {A} (d : Db.t) (P : Event -> Prop) (m : M A) : Prop :=
  forall w,
    World.db w = d ->
    exists events,
      World.trace (snd (m w)) = (World.trace w ++ events)%list
      /\ Forall P events
      /\ World.db (snd (m w)) = d.

(** The event is not a photo, or it is the photo of an active ticket of
    user [u] in store [d]. *)
Definition own_photo (d : Db.t) (u : Z) (e : Event) : Prop :=
  match e with
  | Sent (MessageAnswerPhoto _ file _ _) =>
      exists tk,
        tk ∈ Db.tickets d
        /\ Ticket.user_id tk = u
        /\ Ticket.status tk = "active"
        /\ Ticket.file_id tk = file
  | _ => True
  end.

(** bot.py, [main]: the callback handlers in the order of their
    registration, each with the prefix of its filter
    [F.data.startswith(prefix)]. *)
Definition callback_handlers : list (string * (CallbackQuery.t -> Request)) :=
  [ ("confirm_win:", ReqConfirmWinner); ("view_ticket:", ReqViewTicket) ].

(** The handler a callback goes to: the first one whose filter passes,
    none when no filter does. *)
Definition route_callback (callback : CallbackQuery.t) : option Request :=
  match CallbackQuery.data callback with
  | Some data =>
      option_map (fun entry => snd entry callback)
        (List.find (fun entry => Py.startswith data (fst entry))
           callback_handlers)
  | None => None
  end.

(** The event is not a photo, or it is the photo of an active ticket of
    store [d] under the buttons that carry its number. *)
Definition drawn_photo (d : Db.t) (e : Event) : Prop :=
  match e with
  | Sent (MessageAnswerPhoto _ file _ markup) =>
      exists tk confirm_text reject_text,
        tk ∈ Db.tickets d
        /\ Ticket.status tk = "active"
        /\ Ticket.file_id tk = file
        /\ markup
           = Some (helpers.lottery_inline_actions (Ticket.ticket_number tk)
                     confirm_text reject_text)
  | _ => True
  end.

(** The language keys [get_user_lang] can give. *)
Definition language_keys : list string :=
  ["english"; "arabic"; "russian"; "spanish"; "chinese"].

(** What the audit call of a handler sends: one message to the log
    channel of the logger, nothing without a logger or a channel. *)
Definition audit_message (lg : option TelegramLogger.t)
    (events : list Event) : Prop :=
  match lg with
  | Some l => one_log_message l true events
  | None => events = []
  end.

(** [k] at-signs in a row. *)
Fixpoint at_signs (k : nat) : string :=
  match k with
  | O => ""
  | S k' => String "@"%char (at_signs k')
  end.

(** The channels that get a button: the names that are set and not
    empty, each with the text of its button, in the order given. *)
Definition named (channels : list (option string * string))
    : list (string * string) :=
  omap (fun channel =>
          match fst channel with
          | Some name =>
              if String.eqb name "" then None else Some (name, snd channel)
          | None => None
          end)
       channels.

(** ** Sample data for the examples *)

Module sample.

(** A formatter for the examples: it replaces [{name}] fields, raises
    [KeyError] for a name without argument and [ValueError] for an
    unbalanced brace. *)
Fixpoint format_from (kwargs : list (string * string)) (field : option string)
    (s : string) : Res string :=
  match s with
  | EmptyString =>
      match field with
      | None => Ok EmptyString
      | Some _ => Raise ValueError
      end
  | String c rest =>
      match field with
      | None =>
          if Ascii.eqb c "{"%char then format_from kwargs (Some EmptyString) rest
          else if Ascii.eqb c "}"%char then Raise ValueError
          else match format_from kwargs None rest with
               | Ok out => Ok (String c out)
               | Raise e => Raise e
               end
      | Some name =>
          if Ascii.eqb c "}"%char then
            match List.find (fun kv => String.eqb (fst kv) name) kwargs with
            | Some kv =>
                match format_from kwargs None rest with
                | Ok out => Ok (snd kv ++ out)
                | Raise e => Raise e
                end
            | None => Raise (KeyError name)
            end
          else format_from kwargs (Some (name ++ String c EmptyString)) rest
      end
  end.

Definition format (text : string) (kwargs : list (string * string))
    : Res string :=
  format_from kwargs None text.

Definition translations : Translations :=
  {[ "english" :=
       <[ "welcome" := "Welcome!" ]>
       (<[ "draw_in_progress" := "A draw is in progress" ]>
       (<[ "ticket_unavailable" := "Ticket unavailable" ]>
       (<[ "incorrect_ticket_number" := "Incorrect ticket number" ]>
       (<[ "photo_registered" := "Ticket #{ticket_number} registered" ]>
       (<[ "your_ticket" := "Your ticket {number}" ]> ∅)))));
     "russian" := {[ "welcome" := "Привет!" ]} ]}.

Definition settings : Settings.t :=
  Settings.mk "token" [1] (-100) (Some (-200)) None None.

(** The transport fails on every message to the log channel. *)
Definition env : Env.t :=
  Env.mk settings (FileJson translations)
    (fun o => match o with
              | BotSendMessage chat _ => chat =? -200
              | _ => false
              end)
    "2024-01-01 00:00:00" format.

Definition admin : User.t := User.mk 1 (Some "root") (Some "en").
Definition alice : User.t := User.mk 7 (Some "alice") (Some "ru").
Definition bob : User.t := User.mk 8 None None.

Definition store : Db.t :=
  Db.mk [ Ticket.mk 2 8 None "file-b" "active" None;
          Ticket.mk 1 7 (Some "alice") "file-a" "active" None;
          Ticket.mk 3 7 (Some "alice") "file-c" "rejected" (Some "blurred");
          Ticket.mk 4 7 (Some "alice") "file-d" "active" None ]
        [] 4 {[ 7 := "russian" ]}.

Definition memory : Memory.t :=
  Memory.mk false ∅ (Some translations) (Some (TelegramLogger.mk (Some (-200)))).

Definition world : World.t := World.mk store memory ∅ [1%nat] [].

Definition confirm (u : User.t) (payload : string) : CallbackQuery.t :=
  CallbackQuery.mk (Some u) (Some payload) (User.id u).

Definition message (u : User.t) : Message.t :=
  Message.mk (User.id u) (Some u) [].

Definition photo_message (u : User.t) : Message.t :=
  Message.mk (User.id u) (Some u)
    [PhotoSize.mk "small" (Some 10); PhotoSize.mk "large" (Some 90);
     PhotoSize.mk "other" None].

End sample.

(** ** Sample data for the settings *)

Module fixture.

(** An [int] for the examples: decimal digits after an optional minus
    sign. *)
Definition int (s : string) : option Z :=
  option_map Z.of_int (NilZero.int_of_string s).

Definition environ : gmap string string :=
  {[ "BOT_TOKEN" := "  ";
     "TOKEN" := " 123456:ABC-DEF ";
     "GROUP_CHAT_ID" := "-100";
     "ADMIN_IDS" := "1, 2,,3 ";
     "LOG_CHANNEL_ID" := "log";
     "CHANNEL_USERNAME" := " " ]}.

(** The sample world with the chat of [sample.bob] waiting for a
    photo. *)
Definition waiting : World.t :=
  World.with_fsm {[ 8 := WaitingForPhoto ]} sample.world.

(** A message that carries no sender. *)
Definition channel_post : Message.t := Message.mk 7 None [].

End fixture.
(* ================================================================= *)
(** * Properties *)

(** ** The worlds a step leaves behind *)

Section Frames.
Context (env : Env.t).

Lemma loaded_db w : World.db (loaded env w) = World.db w.
Proof. reflexivity. Qed.

Lemma loaded_trace w : World.trace (loaded env w) = World.trace w.
Proof. reflexivity. Qed.

Lemma loaded_lock w :
  Memory.draw_lock_locked (World.mem (loaded env w))
  = Memory.draw_lock_locked (World.mem w).
Proof. reflexivity. Qed.

Lemma loaded_logger w :
  Memory.telegram_logger (World.mem (loaded env w))
  = Memory.telegram_logger (World.mem w).
Proof. reflexivity. Qed.

Lemma loaded_languages w :
  Memory._user_languages (World.mem (loaded env w))
  = Memory._user_languages (World.mem w).
Proof. reflexivity. Qed.

Lemma loaded_translations w :
  translations_of env (loaded env w) = translations_of env w.
Proof. reflexivity. Qed.

Lemma loaded_cached w t :
  Memory._translations (World.mem w) = Some t -> loaded env w = w.
Proof.
  unfold loaded, translations_of.
  destruct w as [d [lk ul tr lg] f r tc]; simpl; intros ->.
  reflexivity.
Qed.

Lemma loaded_idem w : loaded env (loaded env w) = loaded env w.
Proof. reflexivity. Qed.

Lemma load_translations_run w :
  language.load_translations env w = (Ok (translations_of env w), loaded env w).
Proof.
  unfold language.load_translations.
  destruct (Memory._translations (World.mem w)) as [t|] eqn:Hc.
  - rewrite (loaded_cached w t Hc). unfold translations_of.
    rewrite Hc. reflexivity.
  - unfold loaded, translations_of. rewrite Hc.
    destruct (Env.language_file env); reflexivity.
Qed.

Lemma format_or_text_run text kwargs w :
  language.format_or_text env text kwargs w
  = (Ok match Env.format env text kwargs with
        | Ok out => out
        | Raise _ => text
        end, w).
Proof.
  unfold language.format_or_text, try_except.
  destruct (Env.format env text kwargs) as [out|e]; [reflexivity|].
  destruct e; reflexivity.
Qed.

Lemma get_text_rendered user_id key kwargs w :
  language.get_text env user_id key kwargs w
  = (Ok (rendered env w user_id key kwargs), loaded env w).
Proof.
  unfold language.get_text, bind, language.get_user_language.
  rewrite load_translations_run.
  unfold rendered, chosen_text.
  destruct (language.entry (translations_of env w) _ key) as [text|].
  - apply format_or_text_run.
  - destruct (language.entry (translations_of env w) _ key) as [text|].
    + apply format_or_text_run.
    + reflexivity.
Qed.

Lemma get_text_run user_id key kwargs w :
  language.get_text env user_id key kwargs w
  = (Ok (text_of env w user_id key kwargs), loaded env w).
Proof.
  unfold text_of. rewrite get_text_rendered. reflexivity.
Qed.


End Frames.

(** ** Audit logging *)

Section Audit.
Context (env : Env.t).

Lemma extend_nil w : extend w [] = w.
Proof.
  unfold extend. destruct w as [d m f r tc]; simpl.
  unfold World.with_trace; simpl. rewrite app_nil_r. reflexivity.
Qed.

Lemma extend_extend w a b : extend (extend w a) b = extend w (a ++ b).
Proof.
  unfold extend, World.with_trace; simpl. rewrite app_assoc. reflexivity.
Qed.

Lemma emit_run e w : emit e w = (Ok tt, extend w [e]).
Proof. reflexivity. Qed.

Lemma send_run o w :
  send env o w
  = (if Env.transport_raises env o then Raise TransportError else Ok tt,
     extend w [Sent o]).
Proof.
  unfold send, bind. rewrite emit_run.
  destruct (Env.transport_raises env o); reflexivity.
Qed.

(** A send inside its own [try]/[except Exception]. *)
Lemma guarded_send_run o w :
  try_except (send env o) (fun _ => ret tt) w = (Ok tt, extend w [Sent o]).
Proof.
  unfold try_except. rewrite send_run.
  destruct (Env.transport_raises env o); reflexivity.
Qed.

Lemma log_user_action_run l user action lang info w :
  exists events,
    logger.log_user_action env l user action lang info w
    = (Ok tt, extend w events).
Proof.
  unfold logger.log_user_action.
  destruct user as [user|]; [|exists []; rewrite extend_nil; reflexivity].
  unfold bind, attr, ret.
  destruct (TelegramLogger.log_channel_id l) as [channel|].
  - destruct (channel =? 0).
    + exists []. rewrite extend_nil. reflexivity.
    + eexists. unfold try_except at 1. rewrite guarded_send_run. reflexivity.
  - exists []. rewrite extend_nil. reflexivity.
Qed.

Lemma log_admin_action_run l user action target reason w :
  exists events,
    logger.log_admin_action env l user action target reason w
    = (Ok tt, extend w events).
Proof. unfold logger.log_admin_action. apply log_user_action_run. Qed.

Lemma log_system_event_run l event details w :
  exists events,
    logger.log_system_event env l event details w = (Ok tt, extend w events).
Proof.
  unfold logger.log_system_event.
  destruct (TelegramLogger.log_channel_id l) as [channel|].
  - destruct (channel =? 0).
    + exists []. rewrite extend_nil. reflexivity.
    + eexists. unfold try_except at 1. rewrite guarded_send_run. reflexivity.
  - exists []. rewrite extend_nil. reflexivity.
Qed.

End Audit.

(** C8.  Audit logging is best-effort: whatever the transport does with
    the message for the log channel, and even when no user is handed
    over, [log_user_action], [log_admin_action] and [log_system_event]
    return normally, and the world after them differs from the world
    before only by the calls recorded in the trace. *)
Theorem audit_is_best_effort (env : Env.t) (l : TelegramLogger.t)
    (user : option User.t) (action event : string)
    (lang info target reason details : option string) (w : World.t) :
  (exists events,
      logger.log_user_action env l user action lang info w
      = (Ok tt, extend w events))
  /\ (exists events,
         logger.log_admin_action env l user action target reason w
         = (Ok tt, extend w events))
  /\ (exists events,
         logger.log_system_event env l event details w
         = (Ok tt, extend w events)).
Proof.
  split; [apply log_user_action_run|].
  split; [apply log_admin_action_run | apply log_system_event_run].
Qed.

(** C10.  [get_text] is total and follows a fixed fallback chain: it
    returns the text of the key in the user's language, else in English,
    formatted with the named parameters, or that text unformatted when
    formatting raises; and the literal "[Missing translation: key]" when
    neither table has the key. *)
Theorem get_text_total_with_fallback (env : Env.t) (w : World.t)
    (user_id : Z) (key : string) (kwargs : list (string * string)) :
  let user_lang :=
    default "english" (Memory._user_languages (World.mem w) !! user_id) in
  let t := translations_of env w in
  exists s w',
    language.get_text env user_id key kwargs w = (Ok s, w')
    /\ s = match language.entry t user_lang key with
           | Some text =>
               match Env.format env text kwargs with
               | Ok out => out
               | Raise _ => text
               end
           | None =>
               match language.entry t "english" key with
               | Some text =>
                   match Env.format env text kwargs with
                   | Ok out => out
                   | Raise _ => text
                   end
               | None => "[Missing translation: " ++ key ++ "]"
               end
           end.
Proof.
  intros user_lang t.
  exists (rendered env w user_id key kwargs), (loaded env w).
  split; [apply get_text_rendered|].
  subst user_lang t. unfold rendered, chosen_text.
  change language.DEFAULT_LANGUAGE with "english".
  destruct (language.entry _ _ key); [reflexivity|].
  destruct (language.entry _ "english" key); reflexivity.
Qed.

(** ** Callback payloads *)

Lemma uint_of_char_digit c o d :
  uint_of_char c o = Some d ->
  is_digit c = true /\ exists d', o = Some d'.
Proof.
  destruct o as [d'|]; [|discriminate].
  intros H. split; [|eauto].
  destruct c as [[|] [|] [|] [|] [|] [|] [|] [|]];
    simpl in H; try discriminate; reflexivity.
Qed.

Lemma digit_uint_of_char c d :
  is_digit c = true -> exists d', uint_of_char c (Some d) = Some d'.
Proof.
  destruct c as [[|] [|] [|] [|] [|] [|] [|] [|]];
    simpl; try discriminate; eauto.
Qed.

Lemma uint_of_string_digits s d :
  NilEmpty.uint_of_string s = Some d -> all_digits s = true.
Proof.
  revert d. induction s as [|c s IH]; simpl; intros d H; [reflexivity|].
  apply uint_of_char_digit in H as [Hc [d' Hd']].
  rewrite Hc. simpl. eauto.
Qed.

Lemma digits_uint_of_string s :
  all_digits s = true -> exists d, NilEmpty.uint_of_string s = Some d.
Proof.
  induction s as [|c s IH]; simpl; intros H; [eauto|].
  apply andb_prop in H as [Hc Hs].
  destruct (IH Hs) as [d ->]. apply digit_uint_of_char, Hc.
Qed.

(** The parser accepts exactly the decimal integers. *)
Lemma parse_int_safe_decimal s :
  decimal_integer s = true <-> exists n, utils.parse_int_safe s = Some n.
Proof.
  unfold utils.parse_int_safe, decimal_integer, NilZero.int_of_string.
  destruct s as [|c s]; [split; [discriminate|intros [n [=]]]|].
  destruct (Ascii.eqb c "-") eqn:Hc.
  - unfold NilZero.uint_of_string.
    destruct s as [|c' s]; [split; [discriminate|intros [n [=]]]|].
    change (String.eqb (String c' s) "") with false. simpl negb.
    rewrite andb_true_l. split.
    + intros H. apply digits_uint_of_string in H as [d ->]. simpl. eauto.
    + intros [n H].
      destruct (NilEmpty.uint_of_string (String c' s)) as [d|] eqn:Hd;
        [|discriminate].
      eapply uint_of_string_digits, Hd.
  - unfold NilZero.uint_of_string. split.
    + intros H. apply digits_uint_of_string in H as [d ->]. simpl. eauto.
    + intros [n H].
      destruct (NilEmpty.uint_of_string (String c s)) as [d|] eqn:Hd;
        [|discriminate].
      eapply uint_of_string_digits, Hd.
Qed.

Lemma parse_int_safe_not_decimal s :
  decimal_integer s = false -> utils.parse_int_safe s = None.
Proof.
  intros H. destruct (utils.parse_int_safe s) as [n|] eqn:Hp; [|reflexivity].
  assert (decimal_integer s = true) by (apply parse_int_safe_decimal; eauto).
  congruence.
Qed.

(** What the keyboards print, the parser reads back. *)
Lemma parse_int_safe_str_int n : utils.parse_int_safe (Py.str_int n) = Some n.
Proof.
  unfold utils.parse_int_safe, Py.str_int.
  rewrite NilZero.isi.
  - simpl. f_equal. apply DecimalZ.of_to.
  - destruct n; simpl; [discriminate| |discriminate].
    intros [= H]. exact (DecimalPos.Unsigned.to_uint_nonnil _ H).
  - destruct n; simpl; [discriminate|discriminate|].
    intros [= H]. exact (DecimalPos.Unsigned.to_uint_nonnil _ H).
Qed.

Lemma split_confirm suffix :
  Py.split_colon_once ("confirm_win:" ++ suffix) = ["confirm_win"; suffix].
Proof. reflexivity. Qed.

Lemma split_view suffix :
  Py.split_colon_once ("view_ticket:" ++ suffix) = ["view_ticket"; suffix].
Proof. reflexivity. Qed.

Section Callbacks.
Context (env : Env.t).

Lemma data_confirm u suffix chat :
  bot.data_with_prefix
    (CallbackQuery.mk u (Some ("confirm_win:" ++ suffix)) chat) "confirm_win:"
  = Some ("confirm_win:" ++ suffix).
Proof. reflexivity. Qed.

Lemma data_view u suffix chat :
  bot.data_with_prefix
    (CallbackQuery.mk u (Some ("view_ticket:" ++ suffix)) chat) "view_ticket:"
  = Some ("view_ticket:" ++ suffix).
Proof. reflexivity. Qed.

End Callbacks.

Section Confirm.
Context (env : Env.t).

(** A handler that ends by sending [o], inside the [try] whose [except]
    branch sends [fallback]. *)
Lemma final_answer_run o fallback w :
  exists r,
    try_except (send env o) (fun _ => send env fallback) w
    = (r, extend w (answered env o fallback)).
Proof.
  unfold try_except, answered. rewrite send_run.
  destruct (Env.transport_raises env o).
  - rewrite send_run, extend_extend. eauto.
  - eauto.
Qed.

Lemma text_then_answer_run uid key kwargs (mk : string -> Out) fallback w :
  exists r,
    try_except
      (let! text := language.get_text env uid key kwargs in send env (mk text))
      (fun _ => send env fallback) w
    = (r, extend (loaded env w)
            (answered env (mk (text_of env w uid key kwargs)) fallback)).
Proof.
  destruct (final_answer_run (mk (text_of env w uid key kwargs)) fallback
              (loaded env w)) as [r Hr].
  exists r. rewrite <- Hr.
  unfold try_except, bind. rewrite get_text_run. reflexivity.
Qed.

(** The guard of [admin_confirm_winner]: whoever is not an administrator
    is answered with the no-rights text, before the payload is read. *)
Lemma confirm_refuses_others user data chat w :
  bot.is_admin_user env user = false ->
  exists r w',
    bot.admin_confirm_winner env (CallbackQuery.mk (Some user) data chat) w
    = (r, w')
    /\ World.db w' = World.db w
    /\ World.trace w'
       = (World.trace w
          ++ answered env
               (CallbackAnswer
                  (Some (text_of env w (User.id user) "no_rights" [])) true)
               (CallbackAnswer (Some "Error confirming winner") false))%list.
Proof.
  intros Hother. unfold bot.admin_confirm_winner.
  cbn [CallbackQuery.from_user]. rewrite Hother. cbn [negb].
  destruct (text_then_answer_run (User.id user) "no_rights" []
              (fun t => CallbackAnswer (Some t) true)
              (CallbackAnswer (Some "Error confirming winner") false) w)
    as [r Hr].
  exists r. eexists. split; [exact Hr|]. split; reflexivity.
Qed.

End Confirm.

(** C6.  A callback payload [action:suffix] whose suffix is not a
    decimal integer is treated as an error by the handler that receives
    it: the confirm-winner handler, for an administrator, and the
    view-ticket handler answer with the incorrect-ticket-number text,
    make no call to the database and leave the store as it was.  (The
    confirm-winner handler lets nobody else past its guard: another
    caller is answered with the no-rights text, also without any call
    to the database.) *)
Theorem malformed_ticket_number_is_refused (env : Env.t) (w : World.t)
    (user : User.t) (suffix : string) (chat : Z) :
  decimal_integer suffix = false ->
  let invalid :=
    CallbackAnswer
      (Some (text_of env w (User.id user) "incorrect_ticket_number" [])) true in
  let no_rights :=
    CallbackAnswer (Some (text_of env w (User.id user) "no_rights" [])) true in
  (bot.is_admin_user env user = true ->
   exists r w',
     bot.admin_confirm_winner env
       (CallbackQuery.mk (Some user) (Some ("confirm_win:" ++ suffix)) chat) w
     = (r, w')
     /\ World.db w' = World.db w
     /\ World.trace w'
        = (World.trace w
           ++ answered env invalid
                (CallbackAnswer (Some "Error confirming winner") false))%list)
  /\ (bot.is_admin_user env user = false ->
      exists r w',
        bot.admin_confirm_winner env
          (CallbackQuery.mk (Some user) (Some ("confirm_win:" ++ suffix)) chat) w
        = (r, w')
        /\ World.db w' = World.db w
        /\ World.trace w'
           = (World.trace w
              ++ answered env no_rights
                   (CallbackAnswer (Some "Error confirming winner") false))%list)
  /\ (exists r w',
        bot.user_view_ticket_callback env
          (CallbackQuery.mk (Some user) (Some ("view_ticket:" ++ suffix)) chat) w
        = (r, w')
        /\ World.db w' = World.db w
        /\ World.trace w'
           = (World.trace w
              ++ answered env invalid
                   (CallbackAnswer (Some "Error viewing ticket") false))%list).
Proof.
  intros Hsuffix invalid no_rights.
  apply parse_int_safe_not_decimal in Hsuffix.
  split; [|split; [apply confirm_refuses_others|]].
  - intros Hadmin.
    unfold bot.admin_confirm_winner.
    cbn [CallbackQuery.from_user]. rewrite Hadmin. cbn [negb].
    rewrite data_confirm, split_confirm.
    cbn [index lookup list_lookup]. 
    destruct (text_then_answer_run env (User.id user) "incorrect_ticket_number"
                [] (fun t => CallbackAnswer (Some t) true)
                (CallbackAnswer (Some "Error confirming winner") false) w)
      as [r Hr].
    exists r, (extend (loaded env w)
                 (answered env invalid
                    (CallbackAnswer (Some "Error confirming winner") false))).
    split; [|split; reflexivity].
    etransitivity; [|exact Hr].
    unfold try_except, bind, index. simpl.
    rewrite Hsuffix. reflexivity.
  - unfold bot.user_view_ticket_callback.
    cbn [CallbackQuery.from_user].
    rewrite data_view, split_view.
    destruct (text_then_answer_run env (User.id user) "incorrect_ticket_number"
                [] (fun t => CallbackAnswer (Some t) true)
                (CallbackAnswer (Some "Error viewing ticket") false) w)
      as [r Hr].
    exists r, (extend (loaded env w)
                 (answered env invalid
                    (CallbackAnswer (Some "Error viewing ticket") false))).
    split; [|split; reflexivity].
    etransitivity; [|exact Hr].
    unfold try_except, bind, index. simpl.
    rewrite Hsuffix. reflexivity.
Qed.

(** ** What the steps of a handler leave alone *)

#[global] Existing Instance frame_refl.
#[global] Existing Instance frame_trans.

#[global] Instance on_db_frame (Rd : relation Db.t)
    `{!Reflexive Rd} `{!Transitive Rd} : Frame (on_db Rd).
Proof.
  split; unfold on_db.
  - intros w. reflexivity.
  - intros w1 w2 w3 H12 H23. etransitivity; eassumption.
  - intros w tr. reflexivity.
  - intros w f. reflexivity.
  - intros w r. reflexivity.
  - intros w t. reflexivity.
Qed.

#[global] Instance same_lock_frame : Frame same_lock.
Proof.
  split; unfold same_lock.
  - intros w. reflexivity.
  - intros w1 w2 w3 H12 H23. congruence.
  - intros w tr. reflexivity.
  - intros w f. reflexivity.
  - intros w r. reflexivity.
  - intros w t. reflexivity.
Qed.

Section Keeps.
Context (env : Env.t) (R : relation World.t) `{!Frame R}.

Lemma keeps_ret {A} (a : A) : keeps R (ret a).
Proof. intros w. reflexivity. Qed.

Lemma keeps_raise {A} e : keeps R (@raise A e).
Proof. intros w. reflexivity. Qed.

Lemma keeps_bind {A B} (m : M A) (k : A -> M B) :
  keeps R m -> (forall a, keeps R (k a)) -> keeps R (bind m k).
Proof.
  intros Hm Hk w. unfold bind. specialize (Hm w).
  destruct (m w) as [[a|e] w1]; simpl in *; [|exact Hm].
  etransitivity; [exact Hm | apply Hk].
Qed.

Lemma keeps_try_except {A} (m : M A) (h : Exn -> M A) :
  keeps R m -> (forall e, keeps R (h e)) -> keeps R (try_except m h).
Proof.
  intros Hm Hh w. unfold try_except. specialize (Hm w).
  destruct (m w) as [[a|e] w1]; simpl in *; [exact Hm|].
  etransitivity; [exact Hm | apply Hh].
Qed.

Lemma keeps_finally {A} (m : M A) (f : M unit) :
  keeps R m -> keeps R f -> keeps R (finally m f).
Proof.
  intros Hm Hf w. unfold finally. specialize (Hm w).
  destruct (m w) as [r w1]. specialize (Hf w1).
  destruct (f w1) as [[[]|e] w2]; simpl in *; etransitivity; eauto.
Qed.

(** A step that only adds to the trace. *)
Lemma keeps_extend {A} (m : M A) :
  (forall w, exists events, snd (m w) = extend w events) -> keeps R m.
Proof. intros H w. destruct (H w) as [events ->]. apply frame_trace. Qed.

Lemma keeps_loaded w : R w (loaded env w).
Proof. apply frame_translations. Qed.

Lemma keeps_emit e : keeps R (emit e).
Proof. intros w. apply frame_trace. Qed.

Lemma keeps_send o : keeps R (send env o).
Proof. intros w. rewrite send_run. apply frame_trace. Qed.

Lemma keeps_get_text uid key kwargs :
  keeps R (language.get_text env uid key kwargs).
Proof. intros w. rewrite get_text_run. apply keeps_loaded. Qed.

Lemma keeps_get_user_lang code : keeps R (language.get_user_lang env code).
Proof.
  intros w. unfold language.get_user_lang.
  destruct code as [code|]; [|reflexivity].
  destruct (String.eqb code ""); [reflexivity|].
  destruct (language.mapping_lookup _); [|reflexivity].
  unfold bind. rewrite load_translations_run.
  destruct (_ !! _); apply keeps_loaded.
Qed.

Lemma keeps_get_logger : keeps R logger.get_logger.
Proof. intros w. reflexivity. Qed.

Lemma keeps_log_user lg user action lang info :
  keeps R (bot.log_user env lg user action lang info).
Proof.
  destruct lg as [l|]; [|apply keeps_ret]. apply keeps_extend.
  intros w. unfold bot.log_user.
  destruct (log_user_action_run env l (Some user) action lang info w)
    as [events ->]. eauto.
Qed.

Lemma keeps_log_admin lg user action target reason :
  keeps R (bot.log_admin env lg user action target reason).
Proof.
  destruct lg as [l|]; [|apply keeps_ret]. apply keeps_extend.
  intros w. unfold bot.log_admin.
  destruct (log_admin_action_run env l (Some user) action target reason w)
    as [events ->]. eauto.
Qed.

Lemma keeps_log_system l event details :
  keeps R (logger.log_system_event env l event details).
Proof.
  apply keeps_extend. intros w.
  destruct (log_system_event_run env l event details w) as [events ->]. eauto.
Qed.

Lemma keeps_state_clear chat : keeps R (bot.state_clear chat).
Proof. intros w. apply frame_fsm. Qed.

Lemma keeps_state_set_state chat st : keeps R (bot.state_set_state chat st).
Proof. intros w. apply frame_fsm. Qed.

Lemma keeps_state_get_state chat : keeps R (bot.state_get_state chat).
Proof. intros w. reflexivity. Qed.

Lemma keeps_index {A} (xs : list A) i : keeps R (index xs i).
Proof. intros w. unfold index. destruct (_ !! _); reflexivity. Qed.

Lemma keeps_lock_locked : keeps R utils.draw_lock_locked.
Proof. intros w. reflexivity. Qed.

Lemma keeps_select_random : keeps R db.select_random_active_ticket.
Proof. intros w. apply frame_rng. Qed.

End Keeps.

Lemma call_run {A} q (f : Db.t -> A * Db.t) w :
  db.call q f w
  = (Ok (fst (f (World.db w))),
     World.with_db (snd (f (World.db w))) (extend w [Query q])).
Proof.
  unfold db.call, bind. rewrite emit_run.
  change (World.db (extend w [Query q])) with (World.db w).
  destruct (f (World.db w)); reflexivity.
Qed.

(** The store: the lock does not touch it, a database call changes it as
    the call says. *)
Section KeepsStore.
Context (Rd : relation Db.t) `{!Reflexive Rd} `{!Transitive Rd}.

Lemma keeps_lock_aenter : keeps (on_db Rd) utils.draw_lock_aenter.
Proof.
  intros w. unfold utils.draw_lock_aenter, on_db.
  destruct (Memory.draw_lock_locked _); reflexivity.
Qed.

Lemma keeps_lock_aexit : keeps (on_db Rd) utils.draw_lock_aexit.
Proof. intros w. unfold on_db. reflexivity. Qed.

Lemma keeps_call {A} q (f : Db.t -> A * Db.t) :
  (forall d, Rd d (snd (f d))) -> keeps (on_db Rd) (db.call q f).
Proof. intros H w. rewrite call_run. apply H. Qed.

(** A query reads the store and leaves it alone. *)
Lemma keeps_query {A} q (f : Db.t -> A) :
  keeps (on_db Rd) (db.call q (fun d => (f d, d))).
Proof. apply keeps_call. intros d. reflexivity. Qed.

Lemma keeps_get_random : keeps (on_db Rd) db.get_random_active_ticket.
Proof. intros w. unfold on_db. reflexivity. Qed.

Lemma keeps_get_active_tickets_by_user u :
  keeps (on_db Rd) (db.get_active_tickets_by_user u).
Proof. apply keeps_query. Qed.

Lemma keeps_get_active_ticket_by_number m :
  keeps (on_db Rd) (db.get_active_ticket_by_number m).
Proof. apply keeps_query. Qed.

Lemma keeps_get_ticket_by_number_any_status m :
  keeps (on_db Rd) (db.get_ticket_by_number_any_status m).
Proof. apply keeps_query. Qed.

Lemma keeps_get_user_language u : keeps (on_db Rd) (db.get_user_language u).
Proof. apply keeps_query. Qed.

End KeepsStore.

(** The lock: no database call touches it. *)
Section KeepsLock.

Lemma lock_call {A} q (f : Db.t -> A * Db.t) : keeps same_lock (db.call q f).
Proof. intros w. rewrite call_run. reflexivity. Qed.

Lemma lock_get_next_ticket_number : keeps same_lock db.get_next_ticket_number.
Proof. apply lock_call. Qed.

Lemma lock_add_ticket n u name file :
  keeps same_lock (db.add_ticket n u name file).
Proof. apply lock_call. Qed.

Lemma lock_get_active_tickets_by_user u :
  keeps same_lock (db.get_active_tickets_by_user u).
Proof. apply lock_call. Qed.

Lemma lock_get_active_ticket_by_number n :
  keeps same_lock (db.get_active_ticket_by_number n).
Proof. apply lock_call. Qed.

Lemma lock_get_ticket_by_number_any_status n :
  keeps same_lock (db.get_ticket_by_number_any_status n).
Proof. apply lock_call. Qed.

Lemma lock_set_ticket_status n new_status reason :
  keeps same_lock (db.set_ticket_status n new_status reason).
Proof. apply lock_call. Qed.

Lemma lock_archive_lottery : keeps same_lock db.archive_lottery.
Proof. apply lock_call. Qed.

Lemma lock_set_user_language u lang :
  keeps same_lock (db.set_user_language u lang).
Proof. apply lock_call. Qed.

Lemma lock_get_user_language u : keeps same_lock (db.get_user_language u).
Proof. apply lock_call. Qed.

End KeepsLock.

Create HintDb keeps.

#[local] Hint Resolve keeps_ret keeps_raise keeps_emit keeps_send keeps_get_text
  keeps_get_user_lang keeps_get_logger keeps_log_user keeps_log_admin
  keeps_log_system keeps_state_clear keeps_state_set_state
  keeps_state_get_state keeps_index keeps_lock_locked keeps_select_random
  keeps_lock_aenter keeps_lock_aexit keeps_get_random
  keeps_get_active_tickets_by_user keeps_get_active_ticket_by_number
  keeps_get_ticket_by_number_any_status keeps_get_user_language
  lock_get_next_ticket_number lock_add_ticket lock_get_active_tickets_by_user
  lock_get_active_ticket_by_number lock_get_ticket_by_number_any_status
  lock_set_ticket_status lock_archive_lottery lock_set_user_language
  lock_get_user_language
  : keeps.

(** Walk down a handler: binds, [try]s and branches; the leaves are left
    to the hints. *)
Ltac keeps_walk :=
  cbv zeta;
  repeat
    match goal with
    | |- Frame _ => apply _
    | |- Reflexive _ => apply _
    | |- Transitive _ => apply _
    | |- forall _ : _, keeps _ _ => intro
    | |- keeps _ (bind _ _) => apply keeps_bind
    | |- keeps _ (try_except _ _) => apply keeps_try_except
    | |- keeps _ (finally _ _) => apply keeps_finally
    | |- keeps _ (match ?x with _ => _ end) => destruct x
    end;
  eauto with keeps typeclass_instances.

(** ** Confirming a winner *)

Section ConfirmWinner.
Context (env : Env.t).

Lemma text_of_mem w1 w2 uid key kwargs :
  World.mem w1 = World.mem w2 ->
  text_of env w1 uid key kwargs = text_of env w2 uid key kwargs.
Proof.
  intros H. unfold text_of. rewrite !get_text_rendered. simpl.
  unfold rendered, chosen_text, translations_of. rewrite H. reflexivity.
Qed.

(** The handler of an administrator up to the parsed number. *)
Lemma confirm_parsed user n chat w :
  bot.is_admin_user env user = true ->
  bot.admin_confirm_winner env
    (callback_of user ("confirm_win:" ++ Py.str_int n) chat) w
  = try_except
      (let! ticket := db.get_ticket_by_number_any_status n in
       match ticket with
       | Some tk =>
           if negb (String.eqb (Ticket.status tk) "active") then
             let! unavailable_text :=
               language.get_text env (User.id user) "ticket_unavailable" [] in
             send env (CallbackAnswer (Some unavailable_text) true)
           else
             db.set_ticket_status n "rejected" None ;;
             let! lg := logger.get_logger in
             bot.log_admin env lg user "confirm_winner"
               (Some ("Ticket #" ++ Py.str_int n))
               (Some ("Winner: @" ++ str_opt (Ticket.username tk))) ;;
             let! winner_text :=
               language.get_text env (User.id user) "winner_announced"
                 [("ticket_number", Py.str_int n);
                  ("username", str_opt (Ticket.username tk))] in
             send env (BotSendMessage (Settings.group_chat_id (Env.settings env))
                         winner_text) ;;
             send env (EditReplyMarkup chat) ;;
             let! published_text :=
               language.get_text env (User.id user) "winner_published" [] in
             send env (CallbackAnswer (Some published_text) false)
       | None =>
           let! unavailable_text :=
             language.get_text env (User.id user) "ticket_unavailable" [] in
           send env (CallbackAnswer (Some unavailable_text) true)
       end)
      (fun _ => send env (CallbackAnswer (Some "Error confirming winner") false))
      w.
Proof.
  intros Hadmin. unfold bot.admin_confirm_winner, callback_of.
  cbn [CallbackQuery.from_user CallbackQuery.chat_id].
  rewrite Hadmin. cbn [negb].
  rewrite data_confirm, split_confirm.
  unfold index. simpl lookup.
  cbv beta iota delta [bind ret try_except].
  rewrite parse_int_safe_str_int. reflexivity.
Qed.

End ConfirmWinner.

(** C5.  Confirming a winner with a stale ticket number is safe: when
    ticket [n] does not exist or is not active, the administrator's
    confirmation looks the ticket up, answers that it is unavailable and
    changes nothing in the store, so repeating it changes nothing
    either.  (Nobody else gets past the guard of the handler: another
    caller is answered with the no-rights text, and the store is not
    even read.) *)
Theorem stale_confirmation_is_harmless (env : Env.t) (w : World.t)
    (user : User.t) (n chat : Z) :
  match db.ticket_any_status n (World.db w) with
  | Some tk => Ticket.status tk <> "active"
  | None => True
  end ->
  (bot.is_admin_user env user = true ->
   exists r w',
     bot.admin_confirm_winner env
       (callback_of user ("confirm_win:" ++ Py.str_int n) chat) w
     = (r, w')
     /\ World.db w' = World.db w
     /\ World.trace w'
        = (World.trace w
           ++ Query (GetTicketByNumberAnyStatus n)
              :: answered env
                   (CallbackAnswer
                      (Some (text_of env w (User.id user)
                               "ticket_unavailable" []))
                      true)
                   (CallbackAnswer (Some "Error confirming winner") false))%list)
  /\ (bot.is_admin_user env user = false ->
      exists r w',
        bot.admin_confirm_winner env
          (callback_of user ("confirm_win:" ++ Py.str_int n) chat) w
        = (r, w')
        /\ World.db w' = World.db w
        /\ World.trace w'
           = (World.trace w
              ++ answered env
                   (CallbackAnswer
                      (Some (text_of env w (User.id user) "no_rights" [])) true)
                   (CallbackAnswer (Some "Error confirming winner") false))%list).
Proof.
  intros Hstale. split; [|apply confirm_refuses_others].
  intros Hadmin.
  rewrite (confirm_parsed env user n chat w Hadmin).
  set (w1 := World.with_db (World.db w)
               (extend w [Query (GetTicketByNumberAnyStatus n)])).
  destruct (text_then_answer_run env (User.id user) "ticket_unavailable" []
              (fun t => CallbackAnswer (Some t) true)
              (CallbackAnswer (Some "Error confirming winner") false) w1)
    as [r Hr].
  exists r. eexists. split; [|split].
  - etransitivity; [|exact Hr].
    unfold try_except, bind, db.get_ticket_by_number_any_status.
    rewrite call_run. cbn [fst snd]. fold w1.
    destruct (db.ticket_any_status n (World.db w)) as [tk|]; [|reflexivity].
    destruct (String.eqb_spec (Ticket.status tk) "active") as [E|_];
      [contradiction|reflexivity].
  - reflexivity.
  - rewrite (text_of_mem env w1 w) by reflexivity.
    simpl. rewrite <- app_assoc. reflexivity.
Qed.

Section Rejecting.

Lemma reject_rows_out_of_play n rows :
  Forall (fun tk => Ticket.ticket_number tk = n -> Ticket.status tk = "rejected")
         (reject_rows n rows).
Proof.
  unfold reject_rows. apply Forall_forall. intros tk Hin.
  apply list_elem_of_fmap in Hin as [row [-> _]].
  unfold db.has_number. destruct (Z.eqb_spec (Ticket.ticket_number row) n).
  - reflexivity.
  - contradiction.
Qed.

Lemma reject_rows_others n rows :
  List.filter (fun tk => negb (db.has_number n tk)) (reject_rows n rows)
  = List.filter (fun tk => negb (db.has_number n tk)) rows.
Proof.
  unfold reject_rows.
  induction rows as [|row rows IH]; [reflexivity|]. simpl.
  destruct (db.has_number n row) eqn:Hn.
  - unfold db.has_number in *. simpl. rewrite Hn. simpl. exact IH.
  - rewrite Hn. simpl. f_equal. exact IH.
Qed.

Lemma active_rows_not_rejected (P : Ticket.t -> bool) rows tk :
  tk ∈ List.filter db.is_active rows -> Ticket.status tk = "active".
Proof.
  intros Hin. apply list_elem_of_In, filter_In in Hin as [_ H].
  unfold db.is_active in H. apply String.eqb_eq, H.
Qed.

(** No draw selects a number whose live rows are all rejected. *)
Lemma out_of_play_never_drawn n d rnd tk :
  out_of_play n d ->
  db.random_active_ticket rnd d = Some tk ->
  Ticket.ticket_number tk <> n.
Proof.
  unfold out_of_play, db.random_active_ticket. intros Hout Hpick Hn.
  apply list_elem_of_lookup_2 in Hpick.
  pose proof (active_rows_not_rejected db.is_active _ _ Hpick) as Hact.
  apply list_elem_of_In, filter_In in Hpick as [Hin _].
  rewrite Forall_forall in Hout.
  apply list_elem_of_In in Hin.
  specialize (Hout tk Hin Hn). congruence.
Qed.

Lemma update_status_reject n d tk :
  db.ticket_any_status n d = Some tk ->
  db.update_status n "rejected" None d
  = (true, Db.mk (reject_rows n (Db.tickets d)) (Db.archived d)
             (Db.last_ticket_number d) (Db.user_languages d)).
Proof.
  intros H. unfold db.update_status. rewrite H.
  rewrite andb_false_r. reflexivity.
Qed.

End Rejecting.

(** C2.  When an administrator confirms the active ticket [n] as winner,
    the rows numbered [n] get the status [rejected], every other row and
    the rest of the store stay as they were, and no later draw selects
    [n]. *)
Theorem confirmed_winner_is_rejected (env : Env.t) (w : World.t)
    (user : User.t) (n chat : Z) (tk : Ticket.t) :
  bot.is_admin_user env user = true ->
  db.ticket_any_status n (World.db w) = Some tk ->
  Ticket.status tk = "active" ->
  exists r w',
    bot.admin_confirm_winner env
      (callback_of user ("confirm_win:" ++ Py.str_int n) chat) w
    = (r, w')
    /\ World.db w'
       = Db.mk (reject_rows n (Db.tickets (World.db w)))
               (Db.archived (World.db w))
               (Db.last_ticket_number (World.db w))
               (Db.user_languages (World.db w))
    /\ out_of_play n (World.db w')
    /\ others n (World.db w') = others n (World.db w)
    /\ (forall rnd drawn,
           db.random_active_ticket rnd (World.db w') = Some drawn ->
           Ticket.ticket_number drawn <> n).
Proof.
  intros Hadmin Hfound Hactive.
  assert (Hrun : exists r w',
             bot.admin_confirm_winner env
               (callback_of user ("confirm_win:" ++ Py.str_int n) chat) w
             = (r, w')
             /\ World.db w'
                = Db.mk (reject_rows n (Db.tickets (World.db w)))
                        (Db.archived (World.db w))
                        (Db.last_ticket_number (World.db w))
                        (Db.user_languages (World.db w))).
  { rewrite (confirm_parsed env user n chat w Hadmin).
    unfold try_except.
    unfold bind at 1. unfold db.get_ticket_by_number_any_status.
    rewrite call_run. cbn [fst snd]. rewrite Hfound, Hactive.
    cbn [String.eqb negb].
    change (Ascii.eqb _ _) with true. cbn [negb].
    unfold bind at 1. unfold db.set_ticket_status. rewrite call_run.
    cbn [fst]. 
    match goal with
    | |- context [bind ?m ?k ?w0] =>
        assert (Hk : keeps (on_db eq) (bind m k)) by keeps_walk;
        specialize (Hk w0); destruct (bind m k w0) as [[[]|e] w3]
    end.
    - eexists _, _. split; [reflexivity|].
      cbn [snd] in Hk. rewrite <- Hk. simpl.
      rewrite (update_status_reject n _ tk Hfound). reflexivity.
    - rewrite send_run. eexists _, _. split; [reflexivity|].
      cbn [snd] in Hk. change (World.db (extend w3 _)) with (World.db w3).
      rewrite <- Hk. simpl.
      rewrite (update_status_reject n _ tk Hfound). reflexivity. }
  destruct Hrun as (r & w' & Hrun & Hdb).
  exists r, w'. split; [exact Hrun|]. split; [exact Hdb|].
  assert (Hout : out_of_play n (World.db w')).
  { rewrite Hdb. apply reject_rows_out_of_play. }
  split; [exact Hout|]. split.
  - rewrite Hdb. apply reject_rows_others.
  - intros rnd drawn Hpick. eapply out_of_play_never_drawn; eauto.
Qed.

(** ** Listing and archiving *)

Section Listing.

Lemma map_is_fmap {A B} (f : A -> B) (l : list A) : List.map f l = f <$> l.
Proof. reflexivity. Qed.

Lemma listing_sorted u d : Sorted Z.le (list_active_tickets_for_user u d).
Proof.
  unfold list_active_tickets_for_user, db.active_tickets_of.
  rewrite map_is_fmap.
  apply (Sorted_fmap _ db.number_le Z.le).
  - intros a b H. exact H.
  - apply Sorted_merge_sort. apply _.
Qed.

Lemma listing_permutation u d :
  list_active_tickets_for_user u d
  ≡ₚ List.map Ticket.ticket_number
       (List.filter (fun tk => db.owned_by u tk && db.is_active tk)
                    (Db.tickets d)).
Proof.
  unfold list_active_tickets_for_user, db.active_tickets_of.
  apply Permutation_map, merge_sort_Permutation.
Qed.

Lemma owned_active_spec u tk :
  db.owned_by u tk && db.is_active tk = true
  <-> Ticket.user_id tk = u /\ Ticket.status tk = "active".
Proof.
  unfold db.owned_by, db.is_active.
  rewrite andb_true_iff, Z.eqb_eq, String.eqb_eq. reflexivity.
Qed.

Lemma listing_elem_of u d n :
  n ∈ list_active_tickets_for_user u d
  <-> exists tk, tk ∈ Db.tickets d /\ Ticket.ticket_number tk = n
                 /\ Ticket.user_id tk = u /\ Ticket.status tk = "active".
Proof.
  rewrite (listing_permutation u d). rewrite map_is_fmap, list_elem_of_fmap.
  split.
  - intros [tk [-> Hin]].
    apply list_elem_of_In, filter_In in Hin as [Hin Hp].
    apply owned_active_spec in Hp. exists tk.
    split; [apply list_elem_of_In, Hin|tauto].
  - intros (tk & Hin & Hn & Hu & Hs). exists tk. split; [congruence|].
    apply list_elem_of_In, filter_In. split; [apply list_elem_of_In, Hin|].
    apply owned_active_spec. tauto.
Qed.

Lemma listing_empty u d :
  (forall tk, tk ∈ Db.tickets d -> Ticket.user_id tk = u ->
              Ticket.status tk <> "active") ->
  list_active_tickets_for_user u d = [].
Proof.
  intros Hnone.
  destruct (list_active_tickets_for_user u d) as [|n rest] eqn:E;
    [reflexivity|exfalso].
  assert (Hin : n ∈ list_active_tickets_for_user u d)
    by (rewrite E; apply list_elem_of_here).
  apply listing_elem_of in Hin as (tk & Hin & _ & Hu & Hs).
  exact (Hnone tk Hin Hu Hs).
Qed.

End Listing.

Section MyTickets.
Context (env : Env.t).

Lemma log_user_run lg user action lang info w :
  exists events,
    bot.log_user env lg user action lang info w = (Ok tt, extend w events).
Proof.
  destruct lg as [l|]; simpl.
  - apply log_user_action_run.
  - exists []. rewrite extend_nil. reflexivity.
Qed.

(** After its audit call, which sends [logged], [handle_my_tickets]
    asks the store once and shows the listing: the no-tickets text when
    it is empty, otherwise one button per number, in the order of the
    listing. *)
Lemma my_tickets_shows_listing message user w logged :
  Message.from_user message = Some user ->
  bot.log_user env (Memory.telegram_logger (World.mem w)) user
    "view_my_tickets" None None w
  = (Ok tt, extend w logged) ->
  let uid := User.id user in
  let chat := Message.chat_id message in
  let numbers := list_active_tickets_for_user uid (World.db w) in
  let shown :=
    match numbers with
    | [] => MessageAnswer chat (text_of env w uid "no_tickets" []) None
    | _ =>
        MessageAnswer chat
          (text_of env w uid "your_tickets"
             [("count", Py.str_int (Z.of_nat (length numbers)))])
          (Some (helpers.user_tickets_inline_keyboard numbers))
    end in
  exists r w',
    bot.handle_my_tickets env message w = (r, w')
    /\ World.db w' = World.db w
    /\ World.trace w'
       = (World.trace w ++ logged
          ++ Query (GetActiveTicketsByUser uid)
             :: answered env shown
                  (MessageAnswer chat "Error retrieving tickets" None))%list.
Proof.
  intros Huser Hlog uid chat numbers shown.
  unfold bot.handle_my_tickets. rewrite Huser.
  set (w2 := World.with_db (World.db w)
               (extend (extend w logged) [Query (GetActiveTicketsByUser uid)])).
  assert (Htail : exists r,
             try_except
               (let! rows := db.get_active_tickets_by_user uid in
                match rows with
                | [] =>
                    let! no_tickets_text :=
                      language.get_text env uid "no_tickets" [] in
                    send env (MessageAnswer chat no_tickets_text None)
                | _ =>
                    let ticket_numbers := List.map Ticket.ticket_number rows in
                    let keyboard :=
                      helpers.user_tickets_inline_keyboard ticket_numbers in
                    let! tickets_text :=
                      language.get_text env uid "your_tickets"
                        [("count",
                          Py.str_int (Z.of_nat (length ticket_numbers)))] in
                    send env (MessageAnswer chat tickets_text (Some keyboard))
                end)
               (fun _ =>
                  send env (MessageAnswer chat "Error retrieving tickets" None))
               (extend w logged)
             = (r, extend (loaded env w2)
                     (answered env shown
                        (MessageAnswer chat "Error retrieving tickets" None)))).
  { unfold try_except at 1. unfold bind at 1.
    unfold db.get_active_tickets_by_user. rewrite call_run. cbn [fst snd].
    change (World.db (extend w logged)) with (World.db w). fold w2.
    subst shown numbers. unfold list_active_tickets_for_user.
    destruct (db.active_tickets_of uid (World.db w)) as [|row rows] eqn:Hrows.
    - destruct (text_then_answer_run env uid "no_tickets" []
                  (fun t => MessageAnswer chat t None)
                  (MessageAnswer chat "Error retrieving tickets" None) w2)
        as [r Hr].
      exists r. rewrite (text_of_mem env w2 w) in Hr by reflexivity.
      exact Hr.
    - set (numbers := List.map Ticket.ticket_number (row :: rows)).
      destruct (text_then_answer_run env uid "your_tickets"
                  [("count", Py.str_int (Z.of_nat (length numbers)))]
                  (fun t => MessageAnswer chat t
                              (Some (helpers.user_tickets_inline_keyboard
                                       numbers)))
                  (MessageAnswer chat "Error retrieving tickets" None) w2)
        as [r Hr].
      exists r. rewrite (text_of_mem env w2 w) in Hr by reflexivity.
      exact Hr. }
  destruct Htail as [r Htail].
  exists r. eexists. split; [|split].
  - etransitivity; [|exact Htail].
    unfold try_except. unfold bind at 1. unfold logger.get_logger.
    unfold bind at 1. rewrite Hlog. reflexivity.
  - reflexivity.
  - simpl. rewrite <- !app_assoc. reflexivity.
Qed.

End MyTickets.

(** C7.  [list_active_tickets_for_user(user_id)] returns the numbers of
    exactly the tickets owned by [user_id] whose status is [active], in
    ascending order, and the empty sequence when there is none. *)
Theorem active_tickets_listing (d : Db.t) (user_id : Z) :
  Sorted Z.le (list_active_tickets_for_user user_id d)
  /\ list_active_tickets_for_user user_id d
     ≡ₚ List.map Ticket.ticket_number
          (List.filter (fun tk => db.owned_by user_id tk && db.is_active tk)
                       (Db.tickets d))
  /\ (forall n,
         n ∈ list_active_tickets_for_user user_id d
         <-> exists tk, tk ∈ Db.tickets d /\ Ticket.ticket_number tk = n
                        /\ Ticket.user_id tk = user_id
                        /\ Ticket.status tk = "active")
  /\ ((forall tk, tk ∈ Db.tickets d -> Ticket.user_id tk = user_id ->
                  Ticket.status tk <> "active") ->
      list_active_tickets_for_user user_id d = []).
Proof.
  split; [apply listing_sorted|].
  split; [apply listing_permutation|].
  split; [apply listing_elem_of|apply listing_empty].
Qed.

Section Archiving.
Context (env : Env.t).

Lemma archive_listing d u : list_active_tickets_for_user u (db.archive d) = [].
Proof. reflexivity. Qed.

Lemma admin_archive_run message user w :
  Message.from_user message = Some user ->
  bot.is_admin_user env user = true ->
  exists r w',
    bot.admin_archive env message w = (r, w')
    /\ World.db w' = db.archive (World.db w).
Proof.
  intros Huser Hadmin. unfold bot.admin_archive.
  rewrite Huser, Hadmin. cbn [negb].
  unfold try_except. unfold bind at 1. unfold logger.get_logger.
  unfold bind at 1.
  assert (Hlog : exists events,
             bot.log_admin env (Memory.telegram_logger (World.mem w)) user
               "archive_lottery" None None w = (Ok tt, extend w events)).
  { destruct (Memory.telegram_logger (World.mem w)) as [l|]; simpl.
    - apply log_admin_action_run.
    - exists []. rewrite extend_nil. reflexivity. }
  destruct Hlog as [events ->].
  unfold bind at 1. unfold db.archive_lottery. rewrite call_run. cbn [fst snd].
  match goal with
  | |- context [bind ?m ?k ?w0] =>
      assert (Hk : keeps (on_db eq) (bind m k)) by keeps_walk;
      specialize (Hk w0); destruct (bind m k w0) as [[[]|e] w3]
  end.
  - eexists _, _. split; [reflexivity|]. cbn [snd] in Hk. rewrite <- Hk.
    reflexivity.
  - rewrite send_run. eexists _, _. split; [reflexivity|].
    cbn [snd] in Hk. change (World.db (extend w3 _)) with (World.db w3).
    rewrite <- Hk. reflexivity.
Qed.

End Archiving.

(** C3.  Archiving the round, as the administrator's archive command
    does, removes every ticket, active or rejected, from the live set
    and keeps the counter: afterwards no user has an active ticket, the
    tickets are in the archive, and the next ticket number is one more
    than the last number issued before. *)
Theorem archive_empties_round_keeps_counter (env : Env.t) (w : World.t)
    (message : Message.t) (user : User.t) :
  Message.from_user message = Some user ->
  bot.is_admin_user env user = true ->
  exists r w',
    bot.admin_archive env message w = (r, w')
    /\ World.db w' = db.archive (World.db w)
    /\ Db.tickets (World.db w') = []
    /\ Db.archived (World.db w')
       = (Db.archived (World.db w) ++ Db.tickets (World.db w))%list
    /\ (forall u, list_active_tickets_for_user u (World.db w') = [])
    /\ fst (db.next_ticket_number (World.db w'))
       = Db.last_ticket_number (World.db w) + 1.
Proof.
  intros Huser Hadmin.
  destruct (admin_archive_run env message user w Huser Hadmin)
    as (r & w' & Hrun & Hdb).
  exists r, w'. rewrite Hdb. repeat split; try reflexivity. exact Hrun.
Qed.

(** ** The language preference *)

Section StartCommand.
Context (env : Env.t).

Lemma mapping_lookup_nonempty code lang :
  language.mapping_lookup code = Some lang -> lang <> "".
Proof.
  unfold language.mapping_lookup. intros H.
  apply fmap_Some in H as [kv [Hfind ->]].
  apply find_some in Hfind as [Hin _].
  unfold language.LANGUAGE_MAPPING in Hin. simpl in Hin.
  repeat (destruct Hin as [<-|Hin]; [discriminate|]).
  contradiction.
Qed.

Lemma get_user_lang_run code w :
  exists w1,
    language.get_user_lang env code w = (Ok (detected_language env w code), w1)
    /\ World.db w1 = World.db w
    /\ detected_language env w code <> "".
Proof.
  unfold detected_language, language.get_user_lang.
  destruct code as [code|]; [|exists w; repeat split; discriminate].
  destruct (String.eqb code ""); [exists w; repeat split; discriminate|].
  destruct (language.mapping_lookup (Py.lower code)) as [lang|] eqn:Hmap;
    [|exists w; repeat split; discriminate].
  unfold bind. rewrite load_translations_run.
  destruct (translations_of env w !! lang).
  - exists (loaded env w). repeat split.
    eapply mapping_lookup_nonempty, Hmap.
  - exists (loaded env w). repeat split. discriminate.
Qed.

Lemma detected_language_mem w1 w2 code :
  World.mem w1 = World.mem w2 ->
  detected_language env w1 code = detected_language env w2 code.
Proof.
  intros H. unfold detected_language, language.get_user_lang.
  destruct code as [code|]; [|reflexivity].
  destruct (String.eqb code ""); [reflexivity|].
  destruct (language.mapping_lookup (Py.lower code)); [|reflexivity].
  unfold bind. rewrite !load_translations_run.
  unfold translations_of. rewrite H.
  destruct (_ !! _); reflexivity.
Qed.

Lemma save_language_same u lang d :
  Db.user_languages d !! u = Some lang -> db.save_language u lang d = d.
Proof.
  intros H. unfold db.save_language. rewrite insert_id by exact H.
  destruct d; reflexivity.
Qed.

(** What follows the decision about the saved language. *)
Lemma start_tail_keeps (R : relation World.t) `{!Frame R}
    lg user language info chat (settings : Settings.t) :
  keeps R
    (bot.log_user env lg user "/start" language info ;;
     let! welcome_text := language.get_text env (User.id user) "welcome" [] in
     let! add_me_text := language.get_text env (User.id user) "add_me" [] in
     let! updates_text := language.get_text env (User.id user) "updates" [] in
     send env (MessageReply chat welcome_text
                 (Some (helpers.get_welcome_inline_keyboard
                          (Settings.channel_username settings)
                          (Settings.updates_channel_username settings)
                          add_me_text updates_text)))).
Proof. keeps_walk. Qed.

Lemma start_except_keeps (R : relation World.t) `{!Frame R}
    (lg : option TelegramLogger.t) event details o :
  keeps R
    ((match lg with
      | Some l => logger.log_system_event env l event details
      | None => ret tt
      end) ;;
     send env o).
Proof. keeps_walk. Qed.

(** The store after [/start] is the store after the decision about the
    saved language. *)
Lemma handle_start_store message user w :
  Message.from_user message = Some user ->
  exists r w',
    bot.handle_start_command env message w = (r, w')
    /\ World.db w'
       = let saved := Db.user_languages (World.db w) !! User.id user in
         let detected := detected_language env w (User.language_code user) in
         if negb (Py.truthy_str saved)
            || negb (String.eqb (Py.or_str saved "") detected)
         then db.save_language (User.id user) (Py.or_str saved detected)
                (World.db w)
         else World.db w.
Proof.
  intros Huser. unfold bot.handle_start_command. rewrite Huser.
  unfold bind at 1. unfold bot.state_clear, modify.
  unfold bind at 1. unfold logger.get_logger.
  set (w0 := World.with_fsm _ w).
  set (lg := Memory.telegram_logger (World.mem w0)).
  unfold try_except. unfold bind at 1.
  destruct (get_user_lang_run (User.language_code user) w0)
    as (w1 & -> & Hdb1 & _).
  rewrite (detected_language_mem w0 w) by reflexivity.
  set (detected := detected_language env w (User.language_code user)).
  unfold bind at 1. unfold db.get_user_language. rewrite call_run.
  cbn [fst snd]. rewrite Hdb1. change (World.db w0) with (World.db w).
  set (saved := Db.user_languages (World.db w) !! User.id user).
  set (w2 := World.with_db (World.db w) _).
  unfold bind at 1.
  set (decision := negb (Py.truthy_str saved)
                   || negb (String.eqb (Py.or_str saved "") detected)).
  assert (Hstep : exists w3,
             (if decision
              then db.set_user_language (User.id user)
                     (Py.or_str saved detected)
              else ret tt) w2 = (Ok tt, w3)
             /\ World.db w3
                = if decision
                  then db.save_language (User.id user)
                         (Py.or_str saved detected) (World.db w)
                  else World.db w).
  { destruct decision.
    - unfold db.set_user_language. rewrite call_run. eexists. split; reflexivity.
    - exists w2. split; reflexivity. }
  destruct Hstep as (w3 & -> & Hdb3).
  match goal with
  | |- context [let (_, _) := ?rest w3 in _] =>
      assert (Hk : keeps (on_db eq) rest) by apply (start_tail_keeps (on_db eq));
      specialize (Hk w3); destruct (rest w3) as [[[]|e] w4]
  end.
  - eexists _, _. split; [reflexivity|]. cbn [snd] in Hk.
    rewrite <- Hk. exact Hdb3.
  - match goal with
    | |- context [bind ?m ?k w4] =>
        assert (Hh : keeps (on_db eq) (bind m k)) by apply (start_except_keeps (on_db eq));
        specialize (Hh w4); destruct (bind m k w4) as [r5 w5]
    end.
    eexists _, _. split; [reflexivity|]. cbn [snd] in Hk, Hh.
    rewrite <- Hh, <- Hk. exact Hdb3.
Qed.

End StartCommand.

Section LanguageKept.
Context (env : Env.t) (u : Z).

#[global] Instance language_kept_refl : Reflexive (language_kept u).
Proof. intros d lang H _. exact H. Qed.

#[global] Instance language_kept_trans : Transitive (language_kept u).
Proof. intros d1 d2 d3 H12 H23 lang H Hne. exact (H23 lang (H12 lang H Hne) Hne). Qed.

(** A step that does not write the language table. *)
Lemma kept_call {A} q (f : Db.t -> A * Db.t) :
  (forall d, Db.user_languages (snd (f d)) = Db.user_languages d) ->
  keeps (on_db (language_kept u)) (db.call q f).
Proof.
  intros H. apply keeps_call. intros d lang Hsaved _. rewrite H. exact Hsaved.
Qed.

Lemma kept_get_next_ticket_number :
  keeps (on_db (language_kept u)) db.get_next_ticket_number.
Proof. apply kept_call. reflexivity. Qed.

Lemma kept_add_ticket n v name file :
  keeps (on_db (language_kept u)) (db.add_ticket n v name file).
Proof. apply kept_call. reflexivity. Qed.

Lemma kept_set_ticket_status n new_status reason :
  keeps (on_db (language_kept u)) (db.set_ticket_status n new_status reason).
Proof.
  apply kept_call. intros d. unfold db.update_status.
  destruct (db.ticket_any_status n d); [|reflexivity].
  destruct (_ && _); reflexivity.
Qed.

Lemma kept_archive_lottery : keeps (on_db (language_kept u)) db.archive_lottery.
Proof. apply kept_call. reflexivity. Qed.

(** [/start] writes the table only for its own user, and a saved
    language only over itself. *)
Lemma kept_start message :
  keeps (on_db (language_kept u)) (bot.handle_start_command env message).
Proof.
  intros w. unfold on_db.
  destruct (Message.from_user message) as [user|] eqn:Huser.
  - destruct (handle_start_store env message user w Huser)
      as (r & w' & -> & Hdb).
    cbn [snd]. rewrite Hdb. cbn zeta.
    destruct (_ || _); [|reflexivity].
    intros lang Hsaved Hne. simpl.
    destruct (decide (User.id user = u)) as [->|Hother].
    + rewrite Hsaved. unfold Py.or_str.
      destruct (String.eqb_spec lang ""); [contradiction|].
      apply lookup_insert_eq.
    + rewrite lookup_insert_ne by exact Hother. exact Hsaved.
  - unfold bot.handle_start_command. rewrite Huser. reflexivity.
Qed.

End LanguageKept.

#[local] Hint Resolve kept_get_next_ticket_number kept_add_ticket
  kept_set_ticket_status kept_archive_lottery : keeps.

(** Whatever requests the bot serves, a saved language stays: only
    [/start] writes the table, and only for a user without one. *)
Lemma saved_language_survives_requests env u lang reqs w :
  Db.user_languages (World.db w) !! u = Some lang ->
  lang <> "" ->
  Db.user_languages (World.db (serve env reqs w)) !! u = Some lang.
Proof.
  revert w. induction reqs as [|r reqs IH]; intros w Hsaved Hne;
    [exact Hsaved|].
  simpl. apply IH; [|exact Hne].
  assert (Hr : keeps (on_db (language_kept u)) (handle env r)).
  { destruct r; unfold handle; try apply kept_start;
      unfold bot.handle_upload_photo, bot.handle_my_tickets,
        bot.admin_start_draw, bot.admin_confirm_winner,
        bot.user_view_ticket_callback, bot.admin_archive, bot.start_menu,
        bot.check_settings, bot.start_photo_upload, bot.handle_inline_query;
      keeps_walk. }
  exact (Hr w lang Hsaved Hne).
Qed.

(** C9.  The language preference is set automatically at most once: for
    a user with a saved preference (a language key, so not the empty
    string), [/start] with any locale hint leaves the store, and so the
    saved preference, as it was; for a user without one, [/start] saves
    the language detected from the hint, which is never the empty
    string. *)
Theorem saved_language_survives_start (env : Env.t) (w : World.t)
    (message : Message.t) (user : User.t) :
  Message.from_user message = Some user ->
  exists r w',
    bot.handle_start_command env message w = (r, w')
    /\ (forall lang,
           Db.user_languages (World.db w) !! User.id user = Some lang ->
           lang <> "" ->
           World.db w' = World.db w
           /\ Db.user_languages (World.db w') !! User.id user = Some lang)
    /\ (Db.user_languages (World.db w) !! User.id user = None ->
        Db.user_languages (World.db w') !! User.id user
        = Some (detected_language env w (User.language_code user))
        /\ detected_language env w (User.language_code user) <> "").
Proof.
  intros Huser.
  destruct (handle_start_store env message user w Huser)
    as (r & w' & Hrun & Hdb).
  exists r, w'. split; [exact Hrun|]. split.
  - intros lang Hsaved Hne. rewrite Hsaved in Hdb. cbn zeta in Hdb.
    assert (Hor : forall d, Py.or_str (Some lang) d = lang).
    { intros d. unfold Py.or_str.
      destruct (String.eqb_spec lang ""); [contradiction|reflexivity]. }
    assert (Htruthy : Py.truthy_str (Some lang) = true).
    { unfold Py.truthy_str.
      destruct (String.eqb_spec lang ""); [contradiction|reflexivity]. }
    rewrite Htruthy, !Hor in Hdb. cbn [negb orb] in Hdb.
    assert (Hsame : World.db w' = World.db w).
    { destruct (negb _) in Hdb; [|exact Hdb].
      rewrite Hdb. apply save_language_same, Hsaved. }
    split; [exact Hsame|]. rewrite Hsame. exact Hsaved.
  - intros Hnone. rewrite Hnone in Hdb. cbn in Hdb. rewrite Hdb. split.
    + cbn. apply lookup_insert_eq.
    + destruct (get_user_lang_run env (User.language_code user) w)
        as (_ & _ & _ & Hne). exact Hne.
Qed.

(** ** Forward-only status *)

Section ForwardOnly.
Context (env : Env.t) (n : Z).

#[global] Instance stays_out_refl : Reflexive (stays_out n).
Proof. intros d H1 H2. split; assumption. Qed.

#[global] Instance stays_out_trans : Transitive (stays_out n).
Proof.
  intros d1 d2 d3 H12 H23 Hle Hout.
  destruct (H12 Hle Hout) as [Hle2 Hout2]. exact (H23 Hle2 Hout2).
Qed.

Lemma stays_out_next d : stays_out n d (snd (db.next_ticket_number d)).
Proof. intros Hle Hout. simpl. split; [lia|exact Hout]. Qed.

Lemma stays_out_update m new_status reason d :
  stays_out n d (snd (db.update_status m new_status reason d)).
Proof.
  intros Hle Hout. unfold db.update_status.
  destruct (db.ticket_any_status m d) as [tk|] eqn:Hfound;
    [|split; assumption].
  destruct (String.eqb (Ticket.status tk) "rejected"
            && negb (String.eqb new_status "rejected")) eqn:Hguard;
    [split; assumption|].
  simpl. split; [exact Hle|].
  unfold out_of_play in *. simpl.
  apply Forall_forall. intros row Hin.
  apply list_elem_of_fmap in Hin as [row0 [-> Hin0]].
  rewrite Forall_forall in Hout.
  destruct (db.has_number m row0) eqn:Hm; [|exact (Hout row0 Hin0)].
  simpl. intros Hn.
  apply List.find_some in Hfound as [Hin Hm'].
  unfold db.has_number in Hm, Hm'. apply Z.eqb_eq in Hm, Hm'.
  assert (Hfirst : Ticket.status tk = "rejected").
  { apply Hout; [apply list_elem_of_In, Hin|congruence]. }
  rewrite Hfirst in Hguard. simpl in Hguard.
  apply negb_false_iff, String.eqb_eq in Hguard. exact Hguard.
Qed.

Lemma stays_out_archive d : stays_out n d (db.archive d).
Proof. intros Hle _. split; [exact Hle|]. apply Forall_nil_2. Qed.

Lemma stays_out_save_language u lang d :
  stays_out n d (db.save_language u lang d).
Proof. intros Hle Hout. split; assumption. Qed.

(** A new ticket takes the next number, which is not [n]. *)
Lemma stays_out_issue u name file d :
  stays_out n d
    (db.insert_ticket (fst (db.next_ticket_number d)) u name file
       (snd (db.next_ticket_number d))).
Proof.
  intros Hle Hout. simpl. split; [lia|].
  unfold out_of_play in *. simpl. apply Forall_app. split; [exact Hout|].
  apply Forall_singleton. simpl. lia.
Qed.

Lemma keeps_set_ticket_status m new_status reason :
  keeps (on_db (stays_out n)) (db.set_ticket_status m new_status reason).
Proof. apply keeps_call. intros d. apply stays_out_update. Qed.

Lemma keeps_archive_lottery : keeps (on_db (stays_out n)) db.archive_lottery.
Proof. apply keeps_call. intros d. apply stays_out_archive. Qed.

Lemma keeps_set_user_language u lang :
  keeps (on_db (stays_out n)) (db.set_user_language u lang).
Proof. apply keeps_call. intros d. apply stays_out_save_language. Qed.

Lemma keeps_issue_ticket {A} u name file (k : Z -> M A) :
  (forall m, keeps (on_db (stays_out n)) (k m)) ->
  keeps (on_db (stays_out n))
    (let! ticket_number := db.get_next_ticket_number in
     db.add_ticket ticket_number u name file ;; k ticket_number).
Proof.
  intros Hk w. unfold bind at 1. unfold db.get_next_ticket_number.
  rewrite call_run. unfold bind at 1. unfold db.add_ticket. rewrite call_run.
  cbn [fst snd].
  match goal with
  | |- context [k ?m ?w0] => specialize (Hk m w0); destruct (k m w0) as [r w1]
  end.
  cbn [snd] in *. etransitivity; [|exact Hk].
  apply stays_out_issue.
Qed.

End ForwardOnly.

Section Numbering.

#[global] Instance stays_numbered_refl : Reflexive stays_numbered.
Proof. intros d H. exact H. Qed.

#[global] Instance stays_numbered_trans : Transitive stays_numbered.
Proof. intros d1 d2 d3 H12 H23 H. exact (H23 (H12 H)). Qed.

Lemma numbered_update m new_status reason d :
  stays_numbered d (snd (db.update_status m new_status reason d)).
Proof.
  intros [Hnodup Hle]. unfold db.update_status.
  destruct (db.ticket_any_status m d) as [tk|]; [|split; assumption].
  destruct (_ && _); [split; assumption|].
  split; simpl.
  - rewrite List.map_map.
    erewrite List.map_ext; [exact Hnodup|].
    intros row. destruct (db.has_number m row); reflexivity.
  - rewrite Forall_forall in *. intros row Hin.
    apply list_elem_of_fmap in Hin as [row0 [-> Hin0]].
    specialize (Hle row0 Hin0).
    destruct (db.has_number m row0); exact Hle.
Qed.

Lemma numbered_archive d : stays_numbered d (db.archive d).
Proof. intros _. split; [apply NoDup_nil_2|apply Forall_nil_2]. Qed.

Lemma numbered_save_language u lang d :
  stays_numbered d (db.save_language u lang d).
Proof. intros H. exact H. Qed.

Lemma numbered_issue u name file d :
  stays_numbered d
    (db.insert_ticket (fst (db.next_ticket_number d)) u name file
       (snd (db.next_ticket_number d))).
Proof.
  intros [Hnodup Hle]. split; simpl.
  - rewrite List.map_app. simpl. apply NoDup_app. split; [exact Hnodup|].
    split; [|apply NoDup_singleton].
    intros k Hk Hnew. apply list_elem_of_singleton in Hnew. subst k.
    apply list_elem_of_fmap in Hk as [row [Hrow Hin]].
    rewrite Forall_forall in Hle. specialize (Hle row Hin). lia.
  - apply Forall_app. split.
    + eapply Forall_impl; [exact Hle|]. intros row H. simpl in H. lia.
    + apply Forall_singleton. simpl. lia.
Qed.

Lemma numbered_set_ticket_status m new_status reason :
  keeps (on_db stays_numbered) (db.set_ticket_status m new_status reason).
Proof. apply keeps_call. intros d. apply numbered_update. Qed.

Lemma numbered_archive_lottery : keeps (on_db stays_numbered) db.archive_lottery.
Proof. apply keeps_call. intros d. apply numbered_archive. Qed.

Lemma numbered_set_user_language u lang :
  keeps (on_db stays_numbered) (db.set_user_language u lang).
Proof. apply keeps_call. intros d. apply numbered_save_language. Qed.

Lemma numbered_issue_ticket {A} u name file (k : Z -> M A) :
  (forall m, keeps (on_db stays_numbered) (k m)) ->
  keeps (on_db stays_numbered)
    (let! ticket_number := db.get_next_ticket_number in
     db.add_ticket ticket_number u name file ;; k ticket_number).
Proof.
  intros Hk w. unfold bind at 1. unfold db.get_next_ticket_number.
  rewrite call_run. unfold bind at 1. unfold db.add_ticket. rewrite call_run.
  cbn [fst snd].
  match goal with
  | |- context [k ?m ?w0] => specialize (Hk m w0); destruct (k m w0) as [r w1]
  end.
  unfold on_db in *. cbn [snd] in *. etransitivity; [|exact Hk].
  apply numbered_issue.
Qed.

End Numbering.

#[local] Hint Resolve numbered_set_ticket_status numbered_archive_lottery
  numbered_set_user_language : keeps.


#[local] Hint Resolve keeps_set_ticket_status keeps_archive_lottery
  keeps_set_user_language : keeps.

Ltac stays_walk :=
  cbv zeta;
  repeat
    match goal with
    | |- Frame _ => apply _
    | |- Reflexive _ => apply _
    | |- Transitive _ => apply _
    | |- forall _ : _, keeps _ _ => intro
    | |- keeps _ (bind db.get_next_ticket_number _) =>
        first [apply keeps_issue_ticket | apply numbered_issue_ticket]
    | |- keeps _ (bind _ _) => apply keeps_bind
    | |- keeps _ (try_except _ _) => apply keeps_try_except
    | |- keeps _ (finally _ _) => apply keeps_finally
    | |- keeps _ (match ?x with _ => _ end) => destruct x
    end;
  eauto with keeps typeclass_instances.

Ltac all_handlers tac :=
  unfold bot.handle_start_command, bot.handle_upload_photo,
    bot.handle_my_tickets, bot.admin_start_draw, bot.admin_confirm_winner,
    bot.user_view_ticket_callback, bot.admin_archive, bot.start_menu,
    bot.check_settings, bot.start_photo_upload, bot.handle_inline_query;
  tac.

(** Every handler keeps out of play what is out of play. *)
Lemma handle_stays_out env n r : keeps (on_db (stays_out n)) (handle env r).
Proof. destruct r; unfold handle; all_handlers stays_walk. Qed.

Lemma serve_stays_out env n reqs w :
  stays_out n (World.db w) (World.db (serve env reqs w)).
Proof.
  revert w. induction reqs as [|r reqs IH]; intros w; [reflexivity|].
  simpl. etransitivity; [apply (handle_stays_out env n r w)|apply IH].
Qed.

(** Every handler keeps the numbering invariant. *)
Lemma handle_stays_numbered env r : keeps (on_db stays_numbered) (handle env r).
Proof. destruct r; unfold handle; all_handlers stays_walk. Qed.

Lemma serve_stays_numbered env reqs w :
  stays_numbered (World.db w) (World.db (serve env reqs w)).
Proof.
  revert w. induction reqs as [|r reqs IH]; intros w; [reflexivity|].
  simpl. etransitivity; [apply (handle_stays_numbered env r w)|apply IH].
Qed.

Lemma empty_store_well_numbered : well_numbered empty_store.
Proof. split; [apply NoDup_nil_2|apply Forall_nil_2]. Qed.

(** Every store the bot reaches from the empty one is well numbered. *)
Lemma reachable_well_numbered env reqs w :
  World.db w = empty_store -> well_numbered (World.db (serve env reqs w)).
Proof.
  intros H. apply serve_stays_numbered. rewrite H.
  apply empty_store_well_numbered.
Qed.

(** In a well-numbered store the row found under a number is the only
    row with that number. *)
Lemma well_numbered_found d n tk :
  well_numbered d ->
  db.ticket_any_status n d = Some tk ->
  n <= Db.last_ticket_number d
  /\ Forall (fun row => Ticket.ticket_number row = n -> row = tk) (Db.tickets d).
Proof.
  intros [Hnodup Hle] Hfound. unfold db.ticket_any_status in Hfound.
  apply List.find_some in Hfound as [Hin Hn].
  unfold db.has_number in Hn. apply Z.eqb_eq in Hn.
  rewrite Forall_forall in Hle. split.
  - rewrite <- Hn. apply Hle, list_elem_of_In, Hin.
  - apply Forall_forall. intros row Hrow Hrown.
    apply list_elem_of_In in Hrow.
    revert Hnodup Hin Hrow. generalize (Db.tickets d). intros rows.
    induction rows as [|r0 rows IH]; [intros _ []|].
    simpl. intros Hnodup Htk Hrow.
    apply NoDup_cons in Hnodup as [Hfresh Hnodup].
    destruct Htk as [->|Htk], Hrow as [->|Hrow]; auto.
    + exfalso. apply Hfresh. rewrite Hn, <- Hrown.
      apply list_elem_of_In, in_map, Hrow.
    + exfalso. apply Hfresh. rewrite Hrown, <- Hn.
      apply list_elem_of_In, in_map, Htk.
Qed.

Lemma well_numbered_out_of_play d n tk :
  well_numbered d ->
  db.ticket_any_status n d = Some tk ->
  Ticket.status tk = "rejected" ->
  out_of_play n d.
Proof.
  intros Hwf Hfound Hrej.
  destruct (well_numbered_found d n tk Hwf Hfound) as [_ Hunique].
  unfold out_of_play. eapply Forall_impl; [exact Hunique|].
  intros row Hrow Hn. rewrite (Hrow Hn). exact Hrej.
Qed.

(** C4.  Ticket status is forward-only.  In a well-numbered store (as
    every store reached from the empty one is), asking to give a rejected
    ticket any other status, [active] in particular, is reported as a
    failure and leaves the store as it was; and whatever requests the bot
    serves afterwards, the ticket is never active again: its rows stay
    rejected until the round is archived, no new ticket takes its number,
    and no draw selects it. *)
Theorem status_is_forward_only (env : Env.t) (w : World.t) (n : Z)
    (tk : Ticket.t) (reqs : list Request) :
  well_numbered (World.db w) ->
  db.ticket_any_status n (World.db w) = Some tk ->
  Ticket.status tk = "rejected" ->
  (forall new_status reason,
      new_status <> "rejected" ->
      db.update_status n new_status reason (World.db w) = (false, World.db w))
  /\ db.update_status n "active" None (World.db w) = (false, World.db w)
  /\ out_of_play n (World.db (serve env reqs w))
  /\ db.active_ticket n (World.db (serve env reqs w)) = None
  /\ (forall rnd drawn,
         db.random_active_ticket rnd (World.db (serve env reqs w)) = Some drawn ->
         Ticket.ticket_number drawn <> n).
Proof.
  intros Hwf Hfound Hrejected.
  destruct (well_numbered_found _ n tk Hwf Hfound) as [Hle _].
  pose proof (well_numbered_out_of_play _ n tk Hwf Hfound Hrejected) as Hout.
  assert (Hguard : forall new_status reason,
             new_status <> "rejected" ->
             db.update_status n new_status reason (World.db w)
             = (false, World.db w)).
  { intros new_status reason Hnew. unfold db.update_status.
    rewrite Hfound, Hrejected.
    destruct (String.eqb_spec new_status "rejected"); [contradiction|].
    reflexivity. }
  split; [exact Hguard|].
  split; [apply Hguard; discriminate|].
  destruct (serve_stays_out env n reqs w Hle Hout) as [_ Hout'].
  split; [exact Hout'|]. split.
  - unfold db.active_ticket.
    destruct (List.find _ _) as [row|] eqn:Hrow; [exfalso|reflexivity].
    apply List.find_some in Hrow as [Hin Hrow].
    apply andb_prop in Hrow as [Hn Hact].
    unfold out_of_play in Hout'. rewrite Forall_forall in Hout'.
    apply list_elem_of_In in Hin. specialize (Hout' row Hin).
    unfold db.has_number in Hn. apply Z.eqb_eq in Hn.
    unfold db.is_active in Hact. apply String.eqb_eq in Hact.
    rewrite (Hout' Hn) in Hact. discriminate.
  - intros rnd drawn. apply out_of_play_never_drawn, Hout'.
Qed.

(** ** The draw coordinator *)

Section Coordinator.
Context (env : Env.t).

Import coordinator.

Lemma enter_run user w :
  enter user w
  = if lock_held w then (Raise Conflict, w)
    else (Ok (Selecting user),
          extend (utils.set_draw_lock true w) [Query GetRandomActiveTicket]).
Proof.
  unfold enter, bind, utils.draw_lock_aenter, lock_held.
  destruct (Memory.draw_lock_locked (World.mem w)); reflexivity.
Qed.

Lemma issue_text_run message uid key kwargs (mk : string -> Out) k w :
  segment message
    (let! text := language.get_text env uid key kwargs in issue (mk text) k) w
  = (k (mk (text_of env w uid key kwargs)),
     extend (loaded env w) [Sent (mk (text_of env w uid key kwargs))]).
Proof.
  unfold segment, bind, issue. rewrite get_text_run. reflexivity.
Qed.

(** The first piece: the guards and, without a logger, the entry. *)
Lemma resume_start message w :
  resume env message Start w
  = match Message.from_user message with
    | None => failing message w
    | Some user =>
        if negb (bot.is_admin_user env user) then
          let o := MessageAnswer (Message.chat_id message)
                     (text_of env w (User.id user) "insufficient_rights" [])
                     None in
          (Replying o, extend (loaded env w) [Sent o])
        else if lock_held w then
          (Replying (draw_in_progress_reply env w message user),
           extend (loaded env w)
             [Sent (draw_in_progress_reply env w message user)])
        else
          match Memory.telegram_logger (World.mem w) with
          | Some l => (Logging user l, w)
          | None =>
              (Selecting user,
               extend (utils.set_draw_lock true w)
                 [Query GetRandomActiveTicket])
          end
    end.
Proof.
  unfold resume.
  destruct (Message.from_user message) as [user|]; [|reflexivity].
  destruct (negb (bot.is_admin_user env user)).
  - apply (issue_text_run message (User.id user) "insufficient_rights" []
             (fun t => MessageAnswer (Message.chat_id message) t None)).
  - destruct (lock_held w) eqn:Hlock.
    + unfold segment. unfold bind at 1. unfold utils.draw_lock_locked.
      unfold lock_held in Hlock. rewrite Hlock.
      apply (issue_text_run message (User.id user) "draw_in_progress" []
               (fun t => MessageAnswer (Message.chat_id message) t None)).
    + unfold segment. unfold bind at 1. unfold utils.draw_lock_locked.
      pose proof Hlock as Hlock'. unfold lock_held in Hlock'. rewrite Hlock'.
      unfold bind at 1. unfold logger.get_logger.
      destruct (Memory.telegram_logger (World.mem w)); [reflexivity|].
      rewrite enter_run, Hlock. reflexivity.
Qed.

(** The piece after the audit log: the entry, which fails when another
    task took the lock in the meantime. *)
Lemma resume_logging message user l w :
  exists events,
    resume env message (Logging user l) w
    = if lock_held w then failing message (extend w events)
      else (Selecting user,
            extend (utils.set_draw_lock true (extend w events))
              [Query GetRandomActiveTicket]).
Proof.
  destruct (log_admin_action_run env l (Some user) "start_draw" None None w)
    as [events Hlog].
  exists events. unfold resume, segment. unfold bind at 1. rewrite Hlog.
  rewrite enter_run. change (lock_held (extend w events)) with (lock_held w).
  destruct (lock_held w); reflexivity.
Qed.

(** The piece inside the lock: the selection and the issue of its
    presentation. *)
Lemma resume_selecting message user w :
  exists o w1,
    resume env message (Selecting user) w = (Presenting o, w1)
    /\ lock_held w1 = lock_held w
    /\ World.db w1 = World.db w.
Proof.
  unfold resume, locked_segment. unfold bind at 1.
  unfold db.select_random_active_ticket.
  destruct (db.random_active_ticket _ (World.db w)) as [tk|].
  - unfold bind, issue. rewrite !get_text_run.
    eexists _, _. split; [reflexivity|]. split; reflexivity.
  - unfold bind, issue. rewrite !get_text_run.
    eexists _, _. split; [reflexivity|]. split; reflexivity.
Qed.

Lemma resume_presenting message o w :
  resume env message (Presenting o) w
  = if Env.transport_raises env o
    then failing message (utils.set_draw_lock false w)
    else (Done (Ok tt), utils.set_draw_lock false w).
Proof. reflexivity. Qed.

End Coordinator.

Section SingleFlight.
Context (env : Env.t).

Import coordinator.

(** The lock and the tasks inside the critical section are accounted for
    by every piece: a task enters only through a free lock, which it
    takes, and leaves by releasing it. *)
Lemma resume_accounts message pc w :
  (holds_lock pc = true -> lock_held w = true) ->
  (Nat.b2n (holds_lock (fst (resume env message pc w)))
   + Nat.b2n (lock_held w)
   = Nat.b2n (holds_lock pc)
     + Nat.b2n (lock_held (snd (resume env message pc w))))%nat.
Proof.
  intros Hheld. destruct pc as [|o|user l|user|o| |r].
  - rewrite resume_start.
    destruct (Message.from_user message) as [user|]; [|reflexivity].
    destruct (negb _); [reflexivity|].
    destruct (lock_held w) eqn:Hlock; unfold lock_held in *.
    + simpl. rewrite Hlock. reflexivity.
    + destruct (Memory.telegram_logger _); simpl; rewrite ?Hlock; reflexivity.
  - simpl. destruct (Env.transport_raises env o); reflexivity.
  - destruct (resume_logging env message user l w) as [events ->].
    destruct (lock_held w) eqn:Hlock; unfold lock_held in *;
      simpl; rewrite ?Hlock; reflexivity.
  - destruct (resume_selecting env message user w) as (o & w1 & -> & Hl & _).
    simpl. rewrite Hl. reflexivity.
  - rewrite resume_presenting, (Hheld eq_refl).
    destruct (Env.transport_raises env o); reflexivity.
  - simpl. destruct (Env.transport_raises env _); reflexivity.
  - reflexivity.
Qed.

(** Every piece brings its task closer to the end. *)
Lemma resume_rank message pc w :
  (forall r, pc <> Done r) ->
  (rank (fst (resume env message pc w)) < rank pc)%nat.
Proof.
  intros Hpending. destruct pc as [|o|user l|user|o| |r].
  - rewrite resume_start.
    destruct (Message.from_user message) as [user|]; [|simpl; lia].
    destruct (negb _); [simpl; lia|].
    destruct (lock_held w); [simpl; lia|].
    destruct (Memory.telegram_logger _); simpl; lia.
  - simpl. destruct (Env.transport_raises env o); simpl; lia.
  - destruct (resume_logging env message user l w) as [events ->].
    destruct (lock_held w); simpl; lia.
  - destruct (resume_selecting env message user w) as (o & w1 & -> & _).
    simpl. lia.
  - rewrite resume_presenting.
    destruct (Env.transport_raises env o); simpl; lia.
  - simpl. destruct (Env.transport_raises env _); simpl; lia.
  - exfalso. exact (Hpending r eq_refl).
Qed.

Lemma in_flight_cons t ts :
  in_flight (t :: ts) = (Nat.b2n (holds_lock (task_pc t)) + in_flight ts)%nat.
Proof.
  unfold in_flight. simpl. destruct (holds_lock (task_pc t)); reflexivity.
Qed.

Lemma in_flight_insert ts i t t' :
  ts !! i = Some t ->
  (in_flight (<[i := t']> ts) + Nat.b2n (holds_lock (task_pc t))
   = in_flight ts + Nat.b2n (holds_lock (task_pc t')))%nat.
Proof.
  revert i. induction ts as [|t0 ts IH]; intros i Hi; [discriminate|].
  destruct i as [|i]; simpl in Hi.
  - injection Hi as ->. simpl. rewrite !in_flight_cons. lia.
  - simpl. rewrite !in_flight_cons. specialize (IH i Hi). lia.
Qed.

Lemma in_flight_holder ts i t :
  ts !! i = Some t -> holds_lock (task_pc t) = true -> (1 <= in_flight ts)%nat.
Proof.
  revert i. induction ts as [|t0 ts IH]; intros i Hi Hholds; [discriminate|].
  rewrite in_flight_cons. destruct i as [|i]; simpl in Hi.
  - injection Hi as ->. rewrite Hholds. simpl. lia.
  - specialize (IH i Hi Hholds). lia.
Qed.

Lemma sys_step_accounted i s : accounted s -> accounted (sys_step env i s).
Proof.
  unfold accounted, sys_step. intros Hacc.
  destruct (tasks s !! i) as [t|] eqn:Hi; [|exact Hacc].
  pose proof (resume_accounts (task_message t) (task_pc t) (world s)) as Hstep.
  destruct (resume env (task_message t) (task_pc t) (world s)) as [pc' w'].
  simpl in *.
  pose proof (in_flight_insert (tasks s) i t
                {| task_message := task_message t; task_pc := pc' |} Hi) as Hins.
  simpl in Hins.
  assert (Hheld : holds_lock (task_pc t) = true -> lock_held (world s) = true).
  { intros Hholds. pose proof (in_flight_holder _ _ _ Hi Hholds) as Hpos.
    rewrite Hacc in Hpos. destruct (lock_held (world s)); [reflexivity|].
    simpl in Hpos. lia. }
  specialize (Hstep Hheld). lia.
Qed.

Lemma arrivals_accounted w messages :
  lock_held w = false -> accounted (arrivals w messages).
Proof.
  unfold accounted, arrivals. simpl. intros ->. simpl.
  induction messages as [|m ms IH]; [reflexivity|].
  simpl. rewrite in_flight_cons. simpl. exact IH.
Qed.

End SingleFlight.

Section Gate.
Context (env : Env.t).

Import coordinator.

Lemma sys_step_lookup i s t :
  tasks s !! i = Some t ->
  sys_step env i s
  = {| world := snd (resume env (task_message t) (task_pc t) (world s));
       tasks := <[i := {| task_message := task_message t;
                          task_pc := fst (resume env (task_message t)
                                            (task_pc t) (world s)) |}]>
                  (tasks s) |}.
Proof.
  intros Hi. unfold sys_step. rewrite Hi.
  destruct (resume env _ _ _); reflexivity.
Qed.

(** A caller who arrives while the lock is held is refused in its first
    piece, and that piece touches neither the lock nor the store. *)
Lemma gate_refuses i s t user :
  tasks s !! i = Some t ->
  task_pc t = Start ->
  Message.from_user (task_message t) = Some user ->
  bot.is_admin_user env user = true ->
  lock_held (world s) = true ->
  let refusal := draw_in_progress_reply env (world s) (task_message t) user in
  tasks (sys_step env i s) !! i
  = Some {| task_message := task_message t; task_pc := Replying refusal |}
  /\ World.trace (world (sys_step env i s))
     = (World.trace (world s) ++ [Sent refusal])%list
  /\ World.db (world (sys_step env i s)) = World.db (world s)
  /\ lock_held (world (sys_step env i s)) = true
  /\ in_flight (tasks (sys_step env i s)) = in_flight (tasks s).
Proof.
  intros Hi Hpc Huser Hadmin Hlock refusal.
  rewrite (sys_step_lookup i s t Hi). rewrite Hpc, resume_start.
  rewrite Huser, Hadmin, Hlock. cbn [negb fst snd world tasks].
  fold refusal. split.
  - apply list_lookup_insert_eq. eapply lookup_lt_Some, Hi.
  - split; [reflexivity|]. split; [reflexivity|]. split; [exact Hlock|].
    pose proof (in_flight_insert (tasks s) i t
                  {| task_message := task_message t;
                     task_pc := Replying refusal |} Hi) as Hins.
    rewrite Hpc in Hins. simpl in Hins. lia.
Qed.

Lemma sys_step_progress i s t :
  tasks s !! i = Some t ->
  (forall r, task_pc t <> Done r) ->
  exists t',
    tasks (sys_step env i s) !! i = Some t'
    /\ task_message t' = task_message t
    /\ (rank (task_pc t') < rank (task_pc t))%nat.
Proof.
  intros Hi Hpending. rewrite (sys_step_lookup i s t Hi).
  eexists. split.
  - cbn [tasks]. apply list_lookup_insert_eq. eapply lookup_lt_Some, Hi.
  - split; [reflexivity|]. cbn [task_pc]. apply resume_rank, Hpending.
Qed.

End Gate.

(** ** The cut handler is the handler *)

Section Agreement.
Context (env : Env.t).

Import coordinator.

Ltac crunch :=
  repeat
    (cbv beta iota zeta
         delta [bind ret raise try_except finally send emit modify issue enter
                segment locked_segment failing error_reply
                utils.draw_lock_locked utils.draw_lock_aenter
                utils.draw_lock_aexit logger.get_logger bot.log_admin
                db.get_random_active_ticket db.select_random_active_ticket
                fst snd];
     rewrite ?get_text_run;
     try match goal with
         | |- context [if Env.transport_raises env ?o then _ else _] =>
             destruct (Env.transport_raises env o) eqn:?
         end).

(** Resumed five times in a row, with nothing in between, a draw task
    does what [admin_start_draw] does. *)
Lemma run_alone_agrees message w :
  exists r w',
    bot.admin_start_draw env message w = (r, w')
    /\ run_alone env 5 message Start w = (Done r, w').
Proof.
  unfold bot.admin_start_draw, run_alone, resume.
  destruct (Message.from_user message) as [user|].
  2:{ crunch; eexists _, _; split; reflexivity. }
  destruct (bot.is_admin_user env user); cbn [negb].
  2:{ crunch; eexists _, _; split; reflexivity. }
  destruct (Memory.draw_lock_locked (World.mem w)) eqn:Hlock.
  { crunch; rewrite Hlock; crunch; eexists _, _; split; reflexivity. }
  destruct (Memory.telegram_logger (World.mem w)) as [l|] eqn:Hlg.
  - destruct (log_admin_action_run env l (Some user) "start_draw" None None w)
      as [events Hlog].
    crunch; rewrite Hlock, Hlg; crunch; rewrite Hlog; crunch;
      change (Memory.draw_lock_locked (World.mem (extend w events)))
        with (Memory.draw_lock_locked (World.mem w));
      rewrite Hlock; crunch;
      destruct (db.random_active_ticket _ _); crunch;
      eexists _, _; split; reflexivity.
  - crunch; rewrite Hlock, Hlg; crunch; rewrite Hlock; crunch;
      destruct (db.random_active_ticket _ _); crunch;
      eexists _, _; split; reflexivity.
Qed.

(** Run without interruption, a draw leaves the lock as it found it. *)
Lemma admin_start_draw_same_lock message :
  keeps same_lock (bot.admin_start_draw env message).
Proof.
  intros w. unfold same_lock, lock_held, bot.admin_start_draw.
  destruct (Message.from_user message) as [user|].
  2:{ crunch; reflexivity. }
  destruct (bot.is_admin_user env user); cbn [negb].
  2:{ crunch; reflexivity. }
  destruct (Memory.draw_lock_locked (World.mem w)) eqn:Hlock.
  { crunch; rewrite Hlock; crunch; simpl; rewrite Hlock; reflexivity. }
  destruct (Memory.telegram_logger (World.mem w)) as [l|] eqn:Hlg.
  - destruct (log_admin_action_run env l (Some user) "start_draw" None None w)
      as [events Hlog].
    crunch; rewrite Hlock, Hlg; crunch; rewrite Hlog; crunch;
      change (Memory.draw_lock_locked (World.mem (extend w events)))
        with (Memory.draw_lock_locked (World.mem w));
      rewrite Hlock; crunch;
      destruct (db.random_active_ticket _ _); crunch; reflexivity.
  - crunch; rewrite Hlock, Hlg; crunch; rewrite Hlock; crunch;
      destruct (db.random_active_ticket _ _); crunch; reflexivity.
Qed.

End Agreement.

(** No request served as a whole changes the lock. *)
Lemma handle_same_lock env r : keeps same_lock (handle env r).
Proof.
  destruct r; unfold handle.
  - unfold bot.handle_start_command. keeps_walk.
  - unfold bot.handle_upload_photo. keeps_walk.
  - unfold bot.handle_my_tickets. keeps_walk.
  - apply admin_start_draw_same_lock.
  - unfold bot.admin_confirm_winner. keeps_walk.
  - unfold bot.user_view_ticket_callback. keeps_walk.
  - unfold bot.admin_archive. keeps_walk.
  - unfold bot.start_menu. keeps_walk.
  - unfold bot.check_settings. keeps_walk.
  - unfold bot.start_photo_upload. keeps_walk.
  - unfold bot.handle_inline_query. keeps_walk.
Qed.

Lemma tick_accounted env t s : accounted s -> accounted (tick env t s).
Proof.
  destruct t as [i|r]; [apply sys_step_accounted|].
  unfold accounted, tick. simpl. intros ->.
  f_equal. symmetry. apply (handle_same_lock env r).
Qed.

Lemma run_ticks_accounted env ticks s :
  accounted s -> accounted (run_ticks env ticks s).
Proof.
  revert s. induction ticks as [|t ticks IH]; intros s Hacc; [exact Hacc|].
  simpl. apply IH, tick_accounted, Hacc.
Qed.


(** What holds of the draw lock under every interleaving of any number
    of draw attempts, started with the lock free, with one another and
    with the other requests the bot serves: at most one task is inside
    the critical section, and one is exactly when the lock is held; an
    administrator's attempt that starts while the lock is held is
    refused in its first piece with the draw-in-progress text, without
    touching the lock or the store; and no attempt ever waits: each time
    the event loop resumes a task that has not finished, the task moves
    on, so it ends within five resumptions.  An attempt that passed the
    test of the lock before the lock was taken is outside the refusal
    clause: [racing_draw_gets_the_error_text] shows what it is told. *)
Theorem draw_is_single_flight (env : Env.t) (w0 : World.t)
    (messages : list Message.t) (ticks : list Tick) :
  lock_held w0 = false ->
  let s := run_ticks env ticks (coordinator.arrivals w0 messages) in
  (coordinator.in_flight (coordinator.tasks s) <= 1)%nat
  /\ (lock_held (coordinator.world s) = true
      <-> coordinator.in_flight (coordinator.tasks s) = 1%nat)
  /\ (forall i t user,
         coordinator.tasks s !! i = Some t ->
         coordinator.task_pc t = coordinator.Start ->
         Message.from_user (coordinator.task_message t) = Some user ->
         bot.is_admin_user env user = true ->
         lock_held (coordinator.world s) = true ->
         let s' := coordinator.sys_step env i s in
         let refusal :=
           draw_in_progress_reply env (coordinator.world s)
             (coordinator.task_message t) user in
         coordinator.tasks s' !! i
         = Some {| coordinator.task_message := coordinator.task_message t;
                   coordinator.task_pc := coordinator.Replying refusal |}
         /\ World.trace (coordinator.world s')
            = (World.trace (coordinator.world s) ++ [Sent refusal])%list
         /\ World.db (coordinator.world s') = World.db (coordinator.world s)
         /\ lock_held (coordinator.world s') = true
         /\ coordinator.in_flight (coordinator.tasks s')
            = coordinator.in_flight (coordinator.tasks s))
  /\ (forall i t,
         coordinator.tasks s !! i = Some t ->
         (forall r, coordinator.task_pc t <> coordinator.Done r) ->
         exists t',
           coordinator.tasks (coordinator.sys_step env i s) !! i = Some t'
           /\ coordinator.task_message t' = coordinator.task_message t
           /\ (coordinator.rank (coordinator.task_pc t')
               < coordinator.rank (coordinator.task_pc t))%nat).
Proof.
  intros Hfree s.
  assert (Hacc : accounted s).
  { apply run_ticks_accounted, arrivals_accounted, Hfree. }
  unfold accounted in Hacc.
  split; [rewrite Hacc; destruct (lock_held (coordinator.world s)); simpl; lia|].
  split.
  - rewrite Hacc.
    destruct (lock_held (coordinator.world s)); simpl; split; congruence.
  - split.
    + intros i t user. apply gate_refuses.
    + intros i t. apply sys_step_progress.
Qed.

(** ** The theorems at work on the sample data *)

(** C1.  The draw-in-progress answer has a gap.  An administrator asks
    for a draw twice, and the second handler starts while the first one
    awaits its audit message (line 319): the lock is not taken yet, so
    both pass the test of line 311.  The first one then takes the lock
    and draws ticket 1; the second one fails at the entry of line 321
    and is answered with the error text of the [except] branch.  The
    draw-in-progress text, which the translations have, is never sent:
    the trace below is all that the two handlers send or ask. *)
Theorem racing_draw_gets_the_error_text :
  let draws := [sample.message sample.admin; sample.message sample.admin] in
  let after ticks :=
    run_ticks sample.env ticks (coordinator.arrivals sample.world draws) in
  let pcs s := List.map coordinator.task_pc (coordinator.tasks s) in
  let audit :=
    Sent (BotSendMessage (-200)
            ("📊 <b>User Action Log</b>" ++ nl ++ nl
             ++ "👤 <b>User:</b> @root (1)" ++ nl
             ++ "🎯 <b>Action:</b> [ADMIN] start_draw" ++ nl
             ++ "⏰ <b>Time:</b> 2024-01-01 00:00:00")) in
  let s2 := after [Resume 0; Resume 1] in
  let s4 := after [Resume 0; Resume 1; Resume 0; Resume 1] in
  let s7 := after [Resume 0; Resume 1; Resume 0; Resume 1;
                   Resume 1; Resume 0; Resume 0] in
  text_of sample.env sample.world 1 "draw_in_progress" []
  = "A draw is in progress"
  /\ pcs s2
     = [ coordinator.Logging sample.admin (TelegramLogger.mk (Some (-200)));
         coordinator.Logging sample.admin (TelegramLogger.mk (Some (-200))) ]
  /\ lock_held (coordinator.world s2) = false
  /\ pcs s4 = [coordinator.Selecting sample.admin; coordinator.Failing]
  /\ lock_held (coordinator.world s4) = true
  /\ World.trace (coordinator.world s4)
     = [ audit; Query GetRandomActiveTicket; audit;
         Sent (MessageAnswer 1 "Error starting draw" None) ]
  /\ pcs s7 = [coordinator.Done (Ok tt); coordinator.Done (Ok tt)]
  /\ lock_held (coordinator.world s7) = false
  /\ World.trace (coordinator.world s7)
     = [ audit; Query GetRandomActiveTicket; audit;
         Sent (MessageAnswer 1 "Error starting draw" None);
         Sent (MessageAnswerPhoto 1 "file-a"
                 "[Missing translation: draw_result]"
                 (Some (helpers.lottery_inline_actions 1
                          "[Missing translation: confirm_winner]"
                          "[Missing translation: reject_ticket]"))) ].
Proof. vm_compute. repeat split; reflexivity. Qed.

(** The same race up to the refusal of the second caller. *)
Example race_in_the_logging_window :
  let s := run_ticks sample.env [Resume 0; Resume 1; Resume 0; Resume 1]
             (coordinator.arrivals sample.world
                [sample.message sample.admin; sample.message sample.admin]) in
  List.map coordinator.task_pc (coordinator.tasks s)
  = [coordinator.Selecting sample.admin; coordinator.Failing]
  /\ lock_held (coordinator.world s) = true
  /\ last (World.trace (coordinator.world s))
     = Some (Sent (MessageAnswer 1 "Error starting draw" None)).
Proof. vm_compute. repeat split; reflexivity. Qed.

(** The administrator confirms ticket 2: afterwards the draws select
    among the tickets 1 and 4 only. *)
Example draws_after_confirmation :
  let w1 := snd (bot.admin_confirm_winner sample.env
                   (callback_of sample.admin "confirm_win:2" 1) sample.world) in
  List.map (fun rnd =>
              Ticket.ticket_number <$> db.random_active_ticket rnd (World.db w1))
           [0; 1; 2; 3]%nat
  = [Some 1; Some 4; Some 1; Some 4].
Proof. reflexivity. Qed.

(** After the archive the next photo gets ticket 5, the number after the
    last one of the archived round. *)
Example numbering_continues_after_archive :
  Db.tickets
    (World.db
       (serve sample.env
          [ ReqArchive (sample.message sample.admin);
            ReqStartPhotoUpload (sample.message sample.bob);
            ReqUploadPhoto (sample.photo_message sample.bob) ]
          sample.world))
  = [Ticket.mk 5 8 None "large" "active" None].
Proof. reflexivity. Qed.

Example listing_of_alice : list_active_tickets_for_user 7 sample.store = [1; 4].
Proof. reflexivity. Qed.

Example sample_format_missing_parameter :
  fst (language.get_text sample.env 7 "your_ticket" [("ticket_number", "4")]
         sample.world)
  = Ok "Your ticket {number}".
Proof. reflexivity. Qed.

Lemma draw_is_single_flight_witness :
  lock_held sample.world = false
  /\ (coordinator.in_flight
        (coordinator.tasks
           (run_ticks sample.env
              [ Resume 0; Resume 1; Resume 0;
                Serve (ReqConfirmWinner
                         (callback_of sample.admin "confirm_win:1" 1));
                Resume 1; Resume 0 ]
              (coordinator.arrivals sample.world
                 [sample.message sample.admin; sample.message sample.admin])))
      <= 1)%nat.
Proof.
  split; [reflexivity|].
  exact (proj1 (draw_is_single_flight sample.env sample.world
                  [sample.message sample.admin; sample.message sample.admin]
                  [ Resume 0; Resume 1; Resume 0;
                    Serve (ReqConfirmWinner
                             (callback_of sample.admin "confirm_win:1" 1));
                    Resume 1; Resume 0 ]
                  eq_refl)).
Defined.

Lemma confirmed_winner_is_rejected_witness :
  bot.is_admin_user sample.env sample.admin = true
  /\ db.ticket_any_status 2 sample.store
     = Some (Ticket.mk 2 8 None "file-b" "active" None)
  /\ exists r w',
       bot.admin_confirm_winner sample.env
         (callback_of sample.admin "confirm_win:2" 1) sample.world = (r, w')
       /\ out_of_play 2 (World.db w')
       /\ others 2 (World.db w') = others 2 sample.store.
Proof.
  split; [reflexivity|]. split; [reflexivity|].
  destruct (confirmed_winner_is_rejected sample.env sample.world sample.admin
              2 1 (Ticket.mk 2 8 None "file-b" "active" None)
              eq_refl eq_refl eq_refl)
    as (r & w' & Hrun & _ & Hout & Hothers & _).
  exists r, w'. split; [exact Hrun|]. split; [exact Hout|exact Hothers].
Defined.

Lemma archive_empties_round_keeps_counter_witness :
  Message.from_user (sample.message sample.admin) = Some sample.admin
  /\ bot.is_admin_user sample.env sample.admin = true
  /\ exists r w',
       bot.admin_archive sample.env (sample.message sample.admin) sample.world
       = (r, w')
       /\ Db.tickets (World.db w') = []
       /\ fst (db.next_ticket_number (World.db w')) = 5.
Proof.
  split; [reflexivity|]. split; [reflexivity|].
  destruct (archive_empties_round_keeps_counter sample.env sample.world
              (sample.message sample.admin) sample.admin eq_refl eq_refl)
    as (r & w' & Hrun & _ & Hempty & _ & _ & Hnext).
  exists r, w'. split; [exact Hrun|]. split; [exact Hempty|exact Hnext].
Defined.

Lemma status_is_forward_only_witness :
  well_numbered sample.store
  /\ db.ticket_any_status 3 sample.store
     = Some (Ticket.mk 3 7 (Some "alice") "file-c" "rejected" (Some "blurred"))
  /\ db.update_status 3 "active" None sample.store = (false, sample.store)
  /\ db.active_ticket 3
       (World.db
          (serve sample.env
             [ ReqConfirmWinner (callback_of sample.admin "confirm_win:3" 1);
               ReqStartDraw (sample.message sample.admin);
               ReqArchive (sample.message sample.admin);
               ReqStart (sample.message sample.bob) ]
             sample.world))
     = None.
Proof.
  assert (Hwf : well_numbered sample.store).
  { split; simpl.
    - apply (bool_decide_unpack _). vm_compute. exact I.
    - repeat (apply Forall_cons; split; [simpl; lia|]). apply Forall_nil_2. }
  split; [exact Hwf|]. split; [reflexivity|].
  destruct (status_is_forward_only sample.env sample.world 3
              (Ticket.mk 3 7 (Some "alice") "file-c" "rejected" (Some "blurred"))
              [ ReqConfirmWinner (callback_of sample.admin "confirm_win:3" 1);
                ReqStartDraw (sample.message sample.admin);
                ReqArchive (sample.message sample.admin);
                ReqStart (sample.message sample.bob) ]
              Hwf eq_refl eq_refl)
    as (_ & Hguard & _ & Hnever & _).
  split; [exact Hguard|exact Hnever].
Defined.

Lemma stale_confirmation_is_harmless_witness :
  db.ticket_any_status 99 sample.store = None
  /\ bot.is_admin_user sample.env sample.admin = true
  /\ exists r w',
       bot.admin_confirm_winner sample.env
         (callback_of sample.admin "confirm_win:99" 1) sample.world = (r, w')
       /\ World.db w' = sample.store.
Proof.
  split; [reflexivity|]. split; [reflexivity|].
  destruct (proj1 (stale_confirmation_is_harmless sample.env sample.world
                     sample.admin 99 1 I) eq_refl)
    as (r & w' & Hrun & Hdb & _).
  exists r, w'. split; [exact Hrun|exact Hdb].
Defined.

Lemma malformed_ticket_number_is_refused_witness :
  decimal_integer "x2" = false
  /\ exists r w',
       bot.user_view_ticket_callback sample.env
         (CallbackQuery.mk (Some sample.alice) (Some "view_ticket:x2") 7)
         sample.world = (r, w')
       /\ World.db w' = sample.store.
Proof.
  split; [reflexivity|].
  destruct (proj2 (proj2 (malformed_ticket_number_is_refused sample.env
                            sample.world sample.alice "x2" 7 eq_refl)))
    as (r & w' & Hrun & Hdb & _).
  exists r, w'. split; [exact Hrun|exact Hdb].
Defined.

Lemma saved_language_survives_start_witness :
  Message.from_user (sample.message sample.alice) = Some sample.alice
  /\ Db.user_languages sample.store !! 7 = Some "russian"
  /\ exists r w',
       bot.handle_start_command sample.env (sample.message sample.alice)
         sample.world = (r, w')
       /\ Db.user_languages (World.db w') !! 7 = Some "russian".
Proof.
  split; [reflexivity|]. split; [reflexivity|].
  destruct (saved_language_survives_start sample.env sample.world
              (sample.message sample.alice) sample.alice eq_refl)
    as (r & w' & Hrun & Hkept & _).
  exists r, w'. split; [exact Hrun|].
  apply (Hkept "russian"); [reflexivity|discriminate].
Defined.

(** * More of the code *)

(** ** Reading the settings *)

Section Config.
Context (int : string -> option Z).

Lemma split_comma_nonempty s : config.split_comma s <> [].
Proof. destruct s as [|c s]; simpl; [discriminate|].
  destruct (Ascii.eqb c ","); [discriminate|].
  destruct (config.split_comma s); discriminate.
Qed.

Lemma split_comma_app a b :
  config.split_comma (a ++ "," ++ b)
  = (config.split_comma a ++ config.split_comma b)%list.
Proof.
  induction a as [|c a IH]; [reflexivity|].
  change (String c a ++ "," ++ b) with (String c (a ++ "," ++ b)).
  cbn [config.split_comma]. rewrite IH.
  destruct (Ascii.eqb c ","); [reflexivity|].
  pose proof (split_comma_nonempty a) as Hne.
  destruct (config.split_comma a); [contradiction|reflexivity].
Qed.

Lemma parse_parts_acc parts result :
  config.parse_parts int parts result
  = match config.parse_parts int parts [] with
    | inl e => inl e
    | inr ids => inr (result ++ ids)%list
    end.
Proof.
  revert result. induction parts as [|p parts IH]; intros result; simpl.
  - rewrite app_nil_r. reflexivity.
  - destruct (String.eqb (Py.strip p) ""); [apply IH|].
    destruct (int (Py.strip p)) as [n|]; [|reflexivity].
    rewrite IH. rewrite (IH [n]).
    destruct (config.parse_parts int parts []); [reflexivity|].
    rewrite <- app_assoc. reflexivity.
Qed.

Lemma parse_parts_app ps qs :
  config.parse_parts int (ps ++ qs) []
  = both_ids (config.parse_parts int ps []) (config.parse_parts int qs []).
Proof.
  induction ps as [|p ps IH]; simpl.
  - destruct (config.parse_parts int qs []); reflexivity.
  - destruct (String.eqb (Py.strip p) ""); [exact IH|].
    destruct (int (Py.strip p)) as [n|]; [|reflexivity].
    rewrite (parse_parts_acc (ps ++ qs)), (parse_parts_acc ps), IH.
    destruct (config.parse_parts int ps []) as [e|a]; [reflexivity|].
    destruct (config.parse_parts int qs []) as [e|b]; reflexivity.
Qed.

(** The guard [if not value] changes nothing: the loop gives the empty
    list on the empty string anyway. *)
Lemma parse_admin_ids_loop value :
  config._parse_admin_ids int value
  = config.parse_parts int (config.split_comma value) [].
Proof.
  unfold config._parse_admin_ids.
  destruct (String.eqb_spec value "") as [->|]; reflexivity.
Qed.

End Config.

Section ConfigText.

Lemma plain_char_not_space c : plain_char c = true -> Py.is_space c = false.
Proof.
  destruct c as [[|] [|] [|] [|] [|] [|] [|] [|]]; vm_compute; congruence.
Qed.

Lemma plain_char_not_comma c : plain_char c = true -> Ascii.eqb c "," = false.
Proof.
  destruct c as [[|] [|] [|] [|] [|] [|] [|] [|]]; vm_compute; congruence.
Qed.

Lemma all_digits_plain s : all_digits s = true -> plain s = true.
Proof.
  induction s as [|c s IH]; [reflexivity|]. simpl.
  intros [Hc Hs]%andb_prop. unfold plain_char. rewrite Hc, (IH Hs). reflexivity.
Qed.

Lemma decimal_integer_plain s : decimal_integer s = true -> plain s = true.
Proof.
  destruct s as [|c s]; [discriminate|]. unfold decimal_integer.
  destruct (Ascii.eqb c "-") eqn:Hc.
  - intros [_ Hs]%andb_prop. simpl. unfold plain_char.
    rewrite Hc, orb_true_r. simpl. apply all_digits_plain, Hs.
  - apply all_digits_plain.
Qed.

Lemma plain_lstrip s : plain s = true -> Py.lstrip s = s.
Proof.
  destruct s as [|c s]; [reflexivity|]. simpl.
  intros [Hc _]%andb_prop. rewrite (plain_char_not_space c Hc). reflexivity.
Qed.

Lemma plain_rstrip s : plain s = true -> Py.rstrip s = s.
Proof.
  induction s as [|c s IH]; [reflexivity|]. simpl.
  intros [Hc Hs]%andb_prop. rewrite (IH Hs).
  destruct s; [|reflexivity].
  rewrite (plain_char_not_space c Hc). reflexivity.
Qed.

Lemma plain_strip s : plain s = true -> Py.strip s = s.
Proof.
  intros H. unfold Py.strip. rewrite (plain_lstrip s H). apply plain_rstrip, H.
Qed.

Lemma plain_split_comma s : plain s = true -> config.split_comma s = [s].
Proof.
  induction s as [|c s IH]; [reflexivity|]. simpl.
  intros [Hc Hs]%andb_prop.
  rewrite (plain_char_not_comma c Hc), (IH Hs). reflexivity.
Qed.

Lemma str_int_decimal n : decimal_integer (Py.str_int n) = true.
Proof. apply parse_int_safe_decimal. exists n. apply parse_int_safe_str_int. Qed.

Lemma str_int_nonempty n : Py.str_int n <> "".
Proof.
  pose proof (str_int_decimal n) as H.
  destruct (Py.str_int n); [discriminate H|discriminate].
Qed.

End ConfigText.

(** X1.  Two [ADMIN_IDS] values joined by a comma parse to the
    numbers of the first followed by the numbers of the second, and to
    the error as soon as one of them does; in particular an empty value
    on either side, that is a leading, trailing or doubled comma, adds
    nothing. *)
Theorem admin_ids_concatenate (int : string -> option Z) (a b : string) :
  config._parse_admin_ids int (a ++ "," ++ b)
  = both_ids (config._parse_admin_ids int a) (config._parse_admin_ids int b).
Proof. rewrite !parse_admin_ids_loop, split_comma_app. apply parse_parts_app. Qed.

(** X2.  [_parse_admin_ids] reads every part between commas that is
    not blank once stripped, in order: it returns their numbers when
    [int] accepts them all, and raises its [ValueError] when [int]
    refuses one of them, wherever it stands. *)
Theorem admin_ids_are_the_parts (int : string -> option Z) (value : string) :
  config._parse_admin_ids int value
  = match mapM int (id_parts value) with
    | Some ids => inr ids
    | None =>
        inl (config.ValueError "ADMIN_IDS должен быть списком чисел, разделённых запятыми")
    end.
Proof.
  rewrite parse_admin_ids_loop. unfold id_parts.
  induction (config.split_comma value) as [|p parts IH]; [reflexivity|].
  cbn [config.parse_parts List.map List.filter].
  destruct (String.eqb (Py.strip p) ""); cbn [negb]; [exact IH|].
  cbn [mapM]. destruct (int (Py.strip p)) as [n|]; [|reflexivity].
  rewrite parse_parts_acc, IH. cbn.
  destruct (mapM int _); reflexivity.
Qed.

(** X3.  Identifiers written in decimal and joined by commas are read
    back as they were written, for every [int] that reads back what
    [str] prints. *)
Theorem admin_ids_round_trip (int : string -> option Z) (ids : list Z) :
  (forall n, int (Py.str_int n) = Some n) ->
  config._parse_admin_ids int (Py.join "," (List.map Py.str_int ids)) = inr ids.
Proof.
  intros Hint.
  assert (Hone : forall n, config._parse_admin_ids int (Py.str_int n) = inr [n]).
  { intros n. rewrite parse_admin_ids_loop.
    pose proof (decimal_integer_plain _ (str_int_decimal n)) as Hplain.
    rewrite (plain_split_comma _ Hplain). cbn [config.parse_parts].
    rewrite (plain_strip _ Hplain).
    destruct (String.eqb_spec (Py.str_int n) "") as [E|_];
      [destruct (str_int_nonempty n E)|].
    rewrite Hint. reflexivity. }
  induction ids as [|n ids IH]; [reflexivity|].
  destruct ids as [|m ids]; [apply Hone|].
  change (Py.join "," (List.map Py.str_int (n :: m :: ids)))
    with (Py.str_int n ++ "," ++ Py.join "," (List.map Py.str_int (m :: ids))).
  rewrite parse_admin_ids_loop, split_comma_app, parse_parts_app.
  rewrite <- !parse_admin_ids_loop, Hone, IH. reflexivity.
Qed.

(** X4.  Settings that load are usable and are what the environment
    says: the token is not empty, there is at least one administrator,
    the administrators are the numbers of [ADMIN_IDS] and the group chat
    is the number of [GROUP_CHAT_ID], and a channel name is absent
    rather than empty. *)
Theorem loaded_settings_are_usable (int : string -> option Z)
    (environ : gmap string string) (s : Settings.t) :
  config.load_settings int environ = inr s ->
  Settings.bot_token s <> ""
  /\ Settings.admin_ids s <> []
  /\ config._parse_admin_ids int
       (Py.strip (config.getenv environ "ADMIN_IDS" ""))
     = inr (Settings.admin_ids s)
  /\ int (Py.strip (config.getenv environ "GROUP_CHAT_ID" ""))
     = Some (Settings.group_chat_id s)
  /\ Settings.channel_username s <> Some ""
  /\ Settings.updates_channel_username s <> Some "".
Proof.
  unfold config.load_settings.
  set (token := if String.eqb (Py.strip (config.getenv environ "BOT_TOKEN" "")) ""
                then _ else _).
  destruct (String.eqb_spec token "") as [|Htoken]; [discriminate|].
  destruct (String.eqb (Py.strip (config.getenv environ "GROUP_CHAT_ID" "")) "");
    [discriminate|].
  destruct (int _) as [group|]; [|discriminate].
  destruct (config._parse_admin_ids int _) as [e|[|a admins]]; try discriminate.
  intros [= <-]. cbn.
  split; [exact Htoken|]. split; [discriminate|].
  split; [reflexivity|]. split; [reflexivity|].
  unfold config.or_none.
  split.
  - destruct (String.eqb_spec (Py.strip (config.getenv environ "CHANNEL_USERNAME" "")) "");
      [discriminate|congruence].
  - destruct (String.eqb_spec
                (Py.strip (config.getenv environ "UPDATES_CHANNEL_USERNAME" "")) "");
      [discriminate|congruence].
Qed.

(** X5.  [LOG_CHANNEL_ID] never keeps the settings from loading: with
    any value for it, [load_settings] fails exactly as it does without
    the variable, and otherwise gives the same settings, with the number
    read from the value, or no log channel when the value is blank or
    not a number. *)
Theorem log_channel_never_blocks_loading (int : string -> option Z)
    (environ : gmap string string) (v : string) :
  match config.load_settings int (<["LOG_CHANNEL_ID" := v]> environ),
        config.load_settings int (delete "LOG_CHANNEL_ID" environ) with
  | inr s, inr s0 =>
      Settings.log_channel_id s0 = None
      /\ s = with_log_channel_id
               (if String.eqb (Py.strip v) "" then None else int (Py.strip v))
               s0
  | inl e, inl e0 => e = e0
  | _, _ => False
  end.
Proof.
  unfold config.load_settings, config.getenv.
  rewrite !lookup_insert_eq, !lookup_delete_eq.
  rewrite !lookup_insert_ne, !lookup_delete_ne by discriminate.
  cbn [default].
  destruct (String.eqb (if String.eqb _ "" then _ else _) ""); [reflexivity|].
  destruct (String.eqb (Py.strip (default "" (environ !! "GROUP_CHAT_ID"))) "");
    [reflexivity|].
  destruct (int _) as [group|]; [|reflexivity].
  destruct (config._parse_admin_ids int _) as [e|[|a admins]]; try reflexivity.
  change (Py.strip "") with "". cbn [String.eqb].
  split; reflexivity.
Qed.

(** X6.  [BOT_TOKEN] comes before [TOKEN]: when [BOT_TOKEN] is set and
    not blank, [TOKEN] is not looked at; when it is missing or blank,
    the token of the settings is [TOKEN], stripped. *)
Theorem bot_token_comes_first (int : string -> option Z)
    (environ : gmap string string) :
  (Py.strip (config.getenv environ "BOT_TOKEN" "") <> "" ->
   forall v,
     config.load_settings int (<["TOKEN" := v]> environ)
     = config.load_settings int environ)
  /\ (Py.strip (config.getenv environ "BOT_TOKEN" "") = "" ->
      forall s,
        config.load_settings int environ = inr s ->
        Settings.bot_token s = Py.strip (config.getenv environ "TOKEN" "")).
Proof.
  split.
  - intros Hset v. unfold config.load_settings, config.getenv in *.
    rewrite !lookup_insert_eq, !lookup_insert_ne by discriminate.
    destruct (String.eqb_spec (Py.strip (default "" (environ !! "BOT_TOKEN"))) "");
      [contradiction|reflexivity].
  - intros Hblank s. unfold config.load_settings. rewrite Hblank.
    cbn [String.eqb].
    destruct (String.eqb (Py.strip (config.getenv environ "TOKEN" "")) "");
      [discriminate|].
    destruct (String.eqb (Py.strip (config.getenv environ "GROUP_CHAT_ID" "")) "");
      [discriminate|].
    destruct (int _) as [group|]; [|discriminate].
    destruct (config._parse_admin_ids int _) as [e|[|a admins]];
      try discriminate.
    intros [= <-]. reflexivity.
Qed.

(** ** What no handler lets out *)

Section Contained.
Context (env : Env.t).

(** What a run may end with: a normal return, or the failure of the
    transport on [o], sent last. *)
Lemma contained_by_send (m : M unit) (pre : Exn -> M unit) o w :
  (forall e w1, exists events, pre e w1 = (Ok tt, extend w1 events)) ->
  fst (try_except m (fun e => pre e ;; send env o) w) = Ok tt
  \/ (Env.transport_raises env o = true
      /\ fst (try_except m (fun e => pre e ;; send env o) w)
         = Raise TransportError
      /\ exists tr,
           World.trace (snd (try_except m (fun e => pre e ;; send env o) w))
           = (tr ++ [Sent o])%list).
Proof.
  intros Hpre. unfold try_except.
  destruct (m w) as [[[]|e] w1]; [left; reflexivity|].
  destruct (Hpre e w1) as [events Hev].
  unfold bind. rewrite Hev, send_run.
  destruct (Env.transport_raises env o); [|left; reflexivity].
  right. split; [reflexivity|]. split; [reflexivity|]. simpl. eauto.
Qed.

Lemma contained_by_reply (m : M unit) o o' w :
  Some o = Some o' ->
  fst (try_except m (fun _ => send env o) w) = Ok tt
  \/ (exists o0,
         Some o' = Some o0
         /\ Env.transport_raises env o0 = true
         /\ fst (try_except m (fun _ => send env o) w) = Raise TransportError
         /\ exists tr,
              World.trace (snd (try_except m (fun _ => send env o) w))
              = (tr ++ [Sent o0])%list).
Proof.
  intros [= <-].
  destruct (contained_by_send m (fun _ => ret tt) o w) as [Hok|Hraise].
  - intros e w1. exists []. rewrite extend_nil. reflexivity.
  - left. exact Hok.
  - right. exists o. split; [reflexivity|]. exact Hraise.
Qed.

End Contained.

(** X16.  A handler lets an exception out only when the transport fails
    on the reply of its own [except] branch: it returns normally
    otherwise, and [handle_inline_query] always does.  The exception
    that gets out is the transport's, and the failed reply is the last
    call the handler made. *)
Theorem handlers_contain_exceptions (env : Env.t) (r : Request) (w : World.t) :
  fst (handle env r w) = Ok tt
  \/ (exists o,
         last_resort r = Some o
         /\ Env.transport_raises env o = true
         /\ fst (handle env r w) = Raise TransportError
         /\ exists tr,
              World.trace (snd (handle env r w)) = (tr ++ [Sent o])%list).
Proof.
  destruct r; unfold handle, last_resort;
    try (apply contained_by_reply; reflexivity).
  - unfold bot.handle_start_command, bind at 1, bot.state_clear, modify.
    destruct (Message.from_user m) as [user|]; [|left; reflexivity].
    unfold bind at 1, logger.get_logger.
    match goal with
    | |- context [try_except ?body _ ?w0] =>
        destruct (contained_by_send env body
                    (fun e =>
                       match Memory.telegram_logger (World.mem w0) with
                       | Some l =>
                           logger.log_system_event env l "Error in start command"
                             (Some ("User " ++ Py.str_int (User.id user) ++ ": "
                                      ++ bot.exn_str e))
                       | None => ret tt
                       end)
                    (MessageReply (Message.chat_id m)
                       ("🎉 Welcome to the Lottery Bot!" ++ nl ++ nl ++
                        "Upload your photos to participate in exciting lotteries and win amazing prizes! 🏆")
                       None) w0) as [Hok|Hraise]
    end.
    + intros e w1. destruct (Memory.telegram_logger _) as [l|].
      * apply log_system_event_run.
      * exists []. rewrite extend_nil. reflexivity.
    + left. exact Hok.
    + right. eexists. split; [reflexivity|]. exact Hraise.
  - left. unfold bot.handle_inline_query, try_except.
    match goal with
    | |- context [let (_, _) := ?body w in _] =>
        destruct (body w) as [[[]|e] w1]; reflexivity
    end.
Qed.

(** ** The bot token *)

(** X17.  The handlers show at most the first ten characters of the bot
    token: with two tokens that agree on their first ten characters,
    every handler does the same in every world, to the last call
    recorded in the trace; and only [check_settings] looks at the token
    at all. *)
Theorem token_shown_up_to_ten_characters (env : Env.t) (token1 token2 : string)
    (r : Request) (w : World.t) :
  (Py.take 10 token1 = Py.take 10 token2 ->
   handle (with_bot_token token1 env) r w
   = handle (with_bot_token token2 env) r w)
  /\ ((forall m, r <> ReqCheckSettings m) ->
      handle (with_bot_token token1 env) r w
      = handle (with_bot_token token2 env) r w).
Proof.
  destruct env as [[token admins group channel name updates] file fails now fmt].
  split.
  - intros Hten. destruct r; try reflexivity.
    unfold handle, bot.check_settings, with_bot_token.
    cbn [Env.settings Settings.bot_token Settings.admin_ids
         Settings.group_chat_id Settings.log_channel_id
         Settings.channel_username Settings.updates_channel_username
         Env.language_file Env.transport_raises Env.now Env.format].
    rewrite Hten. reflexivity.
  - intros Hother. destruct r; try reflexivity.
    destruct (Hother m). reflexivity.
Qed.

(** ** The in-memory language table *)

#[global] Instance same_languages_frame : Frame same_languages.
Proof.
  split; unfold same_languages.
  - intros w. reflexivity.
  - intros w1 w2 w3 H12 H23. congruence.
  - intros w tr. reflexivity.
  - intros w f. reflexivity.
  - intros w r. reflexivity.
  - intros w t. reflexivity.
Qed.

Section KeepsLanguages.

Lemma languages_call {A} q (f : Db.t -> A * Db.t) :
  keeps same_languages (db.call q f).
Proof. intros w. rewrite call_run. reflexivity. Qed.

Lemma languages_lock_aenter : keeps same_languages utils.draw_lock_aenter.
Proof.
  intros w. unfold utils.draw_lock_aenter, same_languages.
  destruct (Memory.draw_lock_locked _); reflexivity.
Qed.

Lemma languages_lock_aexit : keeps same_languages utils.draw_lock_aexit.
Proof. intros w. reflexivity. Qed.

Lemma languages_get_random : keeps same_languages db.get_random_active_ticket.
Proof. intros w. reflexivity. Qed.

End KeepsLanguages.

Ltac languages_walk :=
  unfold db.get_next_ticket_number, db.add_ticket,
    db.get_active_tickets_by_user, db.get_active_ticket_by_number,
    db.get_ticket_by_number_any_status, db.set_ticket_status,
    db.archive_lottery, db.set_user_language, db.get_user_language;
  cbv zeta;
  repeat
    match goal with
    | |- Frame _ => apply _
    | |- forall _ : _, keeps _ _ => intro
    | |- keeps _ (db.call _ _) => apply languages_call
    | |- keeps _ utils.draw_lock_aenter => apply languages_lock_aenter
    | |- keeps _ utils.draw_lock_aexit => apply languages_lock_aexit
    | |- keeps _ db.get_random_active_ticket => apply languages_get_random
    | |- keeps _ (bind _ _) => apply keeps_bind
    | |- keeps _ (try_except _ _) => apply keeps_try_except
    | |- keeps _ (finally _ _) => apply keeps_finally
    | |- keeps _ (match ?x with _ => _ end) => destruct x
    end;
  eauto with keeps typeclass_instances.

Lemma handle_same_languages env r : keeps same_languages (handle env r).
Proof. destruct r; unfold handle; all_handlers languages_walk. Qed.

Lemma serve_same_languages env reqs w :
  same_languages w (serve env reqs w).
Proof.
  revert w. induction reqs as [|r reqs IH]; intros w; [reflexivity|].
  simpl. etransitivity; [apply (handle_same_languages env r w)|apply IH].
Qed.

(** X10.  No handler writes the language table that [get_text] reads:
    the handlers save a user's language through the database module and
    never call [set_user_language] of utils/language.py.  So the table
    is after any requests what it was before them, and from the empty
    table of a fresh process every text is looked up in English,
    whoever the user is and whatever language is saved for them. *)
Theorem handlers_never_set_the_text_language (env : Env.t)
    (reqs : list Request) (w : World.t) :
  let w' := serve env reqs w in
  Memory._user_languages (World.mem w') = Memory._user_languages (World.mem w)
  /\ (Memory._user_languages (World.mem w) = ∅ ->
      forall user_id key,
        chosen_text env w' user_id key
        = language.entry (translations_of env w') "english" key).
Proof.
  intros w'. pose proof (serve_same_languages env reqs w) as Hsame.
  unfold same_languages in Hsame. fold w' in Hsame.
  split; [exact Hsame|].
  intros Hempty user_id key. unfold chosen_text.
  rewrite Hsame, Hempty, lookup_empty. cbn [default].
  change language.DEFAULT_LANGUAGE with "english".
  destruct (language.entry _ "english" key); reflexivity.
Qed.

(** ** Steps that only talk *)

Lemma hushed_extend w events : hushed (extend w events) = hushed w.
Proof. reflexivity. Qed.

Lemma hushed_translations w t : hushed (language.set_translations t w) = hushed w.
Proof. reflexivity. Qed.

#[global] Instance only_talked_talk : Talk only_talked.
Proof.
  split; unfold only_talked.
  - intros w. reflexivity.
  - intros w1 w2 w3 H12 H23. congruence.
  - intros w tr. reflexivity.
  - intros w t. reflexivity.
Qed.

#[global] Instance same_fsm_talk : Talk same_fsm.
Proof.
  split; unfold same_fsm.
  - intros w. reflexivity.
  - intros w1 w2 w3 H12 H23. congruence.
  - intros w tr. reflexivity.
  - intros w t. reflexivity.
Qed.

Lemma only_talked_db w w' : only_talked w w' -> World.db w' = World.db w.
Proof. intros H. apply (f_equal World.db) in H. exact H. Qed.

Lemma only_talked_fsm w w' : only_talked w w' -> World.fsm w' = World.fsm w.
Proof. intros H. apply (f_equal World.fsm) in H. exact H. Qed.

Lemma only_talked_lock w w' : only_talked w w' -> lock_held w' = lock_held w.
Proof.
  intros H.
  apply (f_equal (fun w => Memory.draw_lock_locked (World.mem w))) in H.
  exact H.
Qed.

Section Talks.
Context (env : Env.t) (R : relation World.t) `{!Talk R}.

#[local] Existing Instance talk_refl.
#[local] Existing Instance talk_trans.

Lemma talk_ret {A} (a : A) : keeps R (ret a).
Proof. intros w. reflexivity. Qed.

Lemma talk_raise {A} e : keeps R (@raise A e).
Proof. intros w. reflexivity. Qed.

Lemma talk_bind {A B} (m : M A) (k : A -> M B) :
  keeps R m -> (forall a, keeps R (k a)) -> keeps R (bind m k).
Proof.
  intros Hm Hk w. unfold bind. specialize (Hm w).
  destruct (m w) as [[a|e] w1]; simpl in *; [|exact Hm].
  etransitivity; [exact Hm | apply Hk].
Qed.

Lemma talk_try_except {A} (m : M A) (h : Exn -> M A) :
  keeps R m -> (forall e, keeps R (h e)) -> keeps R (try_except m h).
Proof.
  intros Hm Hh w. unfold try_except. specialize (Hm w).
  destruct (m w) as [[a|e] w1]; simpl in *; [exact Hm|].
  etransitivity; [exact Hm | apply Hh].
Qed.

Lemma talk_extend {A} (m : M A) :
  (forall w, exists events, snd (m w) = extend w events) -> keeps R m.
Proof. intros H w. destruct (H w) as [events ->]. apply talk_trace. Qed.

Lemma talk_loaded w : R w (loaded env w).
Proof. apply talk_translations. Qed.

Lemma talk_send o : keeps R (send env o).
Proof. intros w. rewrite send_run. apply talk_trace. Qed.

Lemma talk_get_text uid key kwargs :
  keeps R (language.get_text env uid key kwargs).
Proof. intros w. rewrite get_text_run. apply talk_loaded. Qed.

Lemma talk_get_user_lang code : keeps R (language.get_user_lang env code).
Proof.
  intros w. unfold language.get_user_lang.
  destruct code as [code|]; [|reflexivity].
  destruct (String.eqb code ""); [reflexivity|].
  destruct (language.mapping_lookup _); [|reflexivity].
  unfold bind. rewrite load_translations_run.
  destruct (_ !! _); apply talk_loaded.
Qed.

Lemma talk_get_logger : keeps R logger.get_logger.
Proof. intros w. reflexivity. Qed.

Lemma talk_log_user lg user action lang info :
  keeps R (bot.log_user env lg user action lang info).
Proof.
  apply talk_extend. intros w.
  destruct (log_user_run env lg user action lang info w) as [events ->]. eauto.
Qed.

Lemma talk_log_admin lg user action target reason :
  keeps R (bot.log_admin env lg user action target reason).
Proof.
  destruct lg as [l|]; [|apply talk_ret]. apply talk_extend.
  intros w. unfold bot.log_admin.
  destruct (log_admin_action_run env l (Some user) action target reason w)
    as [events ->]. eauto.
Qed.

Lemma talk_log_system l event details :
  keeps R (logger.log_system_event env l event details).
Proof.
  apply talk_extend. intros w.
  destruct (log_system_event_run env l event details w) as [events ->]. eauto.
Qed.

Lemma talk_index {A} (xs : list A) i : keeps R (index xs i).
Proof. intros w. unfold index. destruct (_ !! _); reflexivity. Qed.

Lemma talk_state_get_state chat : keeps R (bot.state_get_state chat).
Proof. intros w. reflexivity. Qed.

(** A query reads the store and leaves it alone. *)
Lemma talk_query {A} q (f : Db.t -> A) :
  keeps R (db.call q (fun d => (f d, d))).
Proof.
  intros w. rewrite call_run. cbn [fst snd].
  replace (World.with_db (World.db w) (extend w [Query q]))
    with (extend w [Query q]) by (destruct w; reflexivity).
  apply talk_trace.
Qed.

End Talks.

Lemma fsm_call {A} q (f : Db.t -> A * Db.t) : keeps same_fsm (db.call q f).
Proof. intros w. rewrite call_run. reflexivity. Qed.

Create HintDb talks.

#[local] Hint Resolve talk_ret talk_raise talk_send talk_get_text
  talk_get_user_lang talk_get_logger talk_log_user talk_log_admin
  talk_log_system talk_index talk_state_get_state : talks.

Ltac talk_walk :=
  unfold db.get_active_tickets_by_user, db.get_active_ticket_by_number,
    db.get_ticket_by_number_any_status, db.get_user_language;
  cbv zeta;
  repeat
    match goal with
    | |- Talk _ => apply _
    | |- forall _ : _, keeps _ _ => intro
    | |- keeps _ (db.call _ (fun d => (_, d))) => apply talk_query
    | |- keeps same_fsm (db.call _ _) => apply fsm_call
    | |- keeps _ (bind _ _) => apply talk_bind
    | |- keeps _ (try_except _ _) => apply talk_try_except
    | |- keeps _ (match ?x with _ => _ end) => destruct x
    end;
  eauto with talks typeclass_instances.

(** Running past a step that returns. *)
Lemma bind_ok {A B} (m : M A) (k : A -> M B) w a w1 :
  m w = (Ok a, w1) -> bind m k w = k a w1.
Proof. intros H. unfold bind. rewrite H. reflexivity. Qed.

Lemma try_bind_ok {A B} (m : M A) (k : A -> M B) h w a w1 :
  m w = (Ok a, w1) -> try_except (bind m k) h w = try_except (k a) h w1.
Proof. intros H. unfold try_except, bind. rewrite H. reflexivity. Qed.

(** ** Uploading a photo *)

Lemma largest_first_maximum p ps :
  exists i,
    (p :: ps) !! i = Some (bot.largest p ps)
    /\ (forall q, q ∈ p :: ps -> bot.size_of q <= bot.size_of (bot.largest p ps))
    /\ (forall j q, (j < i)%nat -> (p :: ps) !! j = Some q ->
                    bot.size_of q < bot.size_of (bot.largest p ps)).
Proof.
  revert p. induction ps as [|p' ps IH]; intros p.
  - exists 0%nat. split; [reflexivity|]. split.
    + intros q Hq. apply list_elem_of_singleton in Hq as ->. simpl. lia.
    + intros j q Hj. lia.
  - cbn [bot.largest].
    destruct (Z.ltb_spec (bot.size_of p) (bot.size_of p')) as [Hlt|Hge].
    + destruct (IH p') as (i & Hi & Hmax & Hfirst).
      exists (S i). split; [exact Hi|]. split.
      * intros q Hq. apply elem_of_cons in Hq as [->|Hq]; [|apply Hmax, Hq].
        specialize (Hmax p' ltac:(left)). lia.
      * intros [|j] q Hj Hq.
        -- injection Hq as <-. specialize (Hmax p' ltac:(left)). lia.
        -- apply (Hfirst j q); [lia|exact Hq].
    + destruct (IH p) as (i & Hi & Hmax & Hfirst).
      assert (Hp' : bot.size_of p' <= bot.size_of (bot.largest p ps)).
      { specialize (Hmax p ltac:(left)). lia. }
      destruct i as [|i].
      * exists 0%nat. split; [exact Hi|]. split.
        -- intros q Hq. apply elem_of_cons in Hq as [->|Hq];
             [apply Hmax; left|].
           apply elem_of_cons in Hq as [->|Hq]; [exact Hp'|].
           apply Hmax. right. exact Hq.
        -- intros j q Hj. lia.
      * exists (S (S i)). split; [exact Hi|]. split.
        -- intros q Hq. apply elem_of_cons in Hq as [->|Hq];
             [apply Hmax; left|].
           apply elem_of_cons in Hq as [->|Hq]; [exact Hp'|].
           apply Hmax. right. exact Hq.
        -- intros [|[|j]] q Hj Hq.
           ++ apply (Hfirst 0%nat q); [lia|exact Hq].
           ++ injection Hq as <-.
              specialize (Hfirst 0%nat p ltac:(lia) eq_refl). lia.
           ++ apply (Hfirst (S j) q); [lia|exact Hq].
Qed.

(** X20.  Of the sizes of a photo the bot keeps the largest, the first
    one among those of the greatest size, a size that is not given
    counting as zero. *)
Theorem largest_photo_is_first_of_greatest_size (p : PhotoSize.t)
    (ps : list PhotoSize.t) :
  exists i,
    (p :: ps) !! i = Some (bot.largest p ps)
    /\ (forall q, q ∈ p :: ps ->
                  default 0 (PhotoSize.file_size q)
                  <= default 0 (PhotoSize.file_size (bot.largest p ps)))
    /\ (forall j q, (j < i)%nat -> (p :: ps) !! j = Some q ->
                    default 0 (PhotoSize.file_size q)
                    < default 0 (PhotoSize.file_size (bot.largest p ps))).
Proof.
  assert (Hsize : forall q, default 0 (PhotoSize.file_size q) = bot.size_of q).
  { intros q. unfold bot.size_of. destruct (PhotoSize.file_size q); reflexivity. }
  destruct (largest_first_maximum p ps) as (i & Hi & Hmax & Hfirst).
  exists i. split; [exact Hi|]. split.
  - intros q Hq. rewrite !Hsize. apply Hmax, Hq.
  - intros j q Hj Hq. rewrite !Hsize. apply (Hfirst j q Hj Hq).
Qed.

Section Upload.
Context (env : Env.t).

Lemma fsm_lock_aenter : keeps same_fsm utils.draw_lock_aenter.
Proof.
  intros w. unfold utils.draw_lock_aenter, same_fsm.
  destruct (Memory.draw_lock_locked _); reflexivity.
Qed.

Lemma fsm_finally {A} (m : M A) (f : M unit) :
  keeps same_fsm m -> keeps same_fsm f -> keeps same_fsm (finally m f).
Proof.
  intros Hm Hf w. unfold finally. specialize (Hm w).
  destruct (m w) as [r w1]. specialize (Hf w1).
  destruct (f w1) as [[[]|e] w2]; unfold same_fsm in *; simpl in *; congruence.
Qed.

Lemma fsm_lock_aexit : keeps same_fsm utils.draw_lock_aexit.
Proof. intros w. reflexivity. Qed.

Lemma fsm_get_random : keeps same_fsm db.get_random_active_ticket.
Proof. intros w. reflexivity. Qed.

Lemma fsm_lock_locked : keeps same_fsm utils.draw_lock_locked.
Proof. intros w. reflexivity. Qed.

End Upload.

Ltac fsm_walk :=
  unfold db.get_next_ticket_number, db.add_ticket,
    db.get_active_tickets_by_user, db.get_active_ticket_by_number,
    db.get_ticket_by_number_any_status, db.set_ticket_status,
    db.archive_lottery, db.set_user_language, db.get_user_language;
  cbv zeta;
  repeat
    match goal with
    | |- Talk _ => apply _
    | |- forall _ : _, keeps _ _ => intro
    | |- keeps same_fsm (db.call _ _) => apply fsm_call
    | |- keeps _ utils.draw_lock_aenter => apply fsm_lock_aenter
    | |- keeps _ utils.draw_lock_aexit => apply fsm_lock_aexit
    | |- keeps _ utils.draw_lock_locked => apply fsm_lock_locked
    | |- keeps _ db.get_random_active_ticket => apply fsm_get_random
    | |- keeps _ (bind _ _) => apply talk_bind
    | |- keeps _ (try_except _ _) => apply talk_try_except
    | |- keeps _ (finally _ _) => apply fsm_finally
    | |- keeps _ (match ?x with _ => _ end) => destruct x
    end;
  eauto with talks typeclass_instances.

Section Conversation.
Context (env : Env.t).

(** The handlers outside the upload conversation leave the conversation
    states alone. *)
Lemma handle_same_fsm r :
  moves_conversation r = false -> keeps same_fsm (handle env r).
Proof.
  destruct r; try discriminate; intros _; unfold handle;
    all_handlers fsm_walk.
Qed.

(** [/start] clears the state of its chat and touches no other. *)
Lemma start_clears message w :
  World.fsm (snd (bot.handle_start_command env message w))
  = delete (Message.chat_id message) (World.fsm w).
Proof.
  unfold bot.handle_start_command.
  rewrite (bind_ok _ _ w tt
             (World.with_fsm (delete (Message.chat_id message) (World.fsm w)) w))
    by reflexivity.
  match goal with
  | |- World.fsm (snd (?rest ?w0)) = _ =>
      assert (Hk : keeps same_fsm rest) by fsm_walk;
      exact (Hk w0)
  end.
Qed.

(** The upload button sets the state of its chat. *)
Lemma press_sets message user w :
  Message.from_user message = Some user ->
  hushed (snd (bot.start_photo_upload env message w))
  = hushed (World.with_fsm
              (<[Message.chat_id message := WaitingForPhoto]> (World.fsm w)) w).
Proof.
  intros Huser. unfold bot.start_photo_upload. rewrite Huser.
  rewrite (try_bind_ok _ _ _ w _ w) by reflexivity.
  destruct (log_user_run env (Memory.telegram_logger (World.mem w)) user
              "start_photo_upload" None None w) as [logged Hlog].
  rewrite (try_bind_ok _ _ _ w tt _ Hlog).
  rewrite (try_bind_ok _ _ _ _ tt
             (World.with_fsm
                (<[Message.chat_id message := WaitingForPhoto]>
                   (World.fsm (extend w logged))) (extend w logged)))
    by reflexivity.
  match goal with
  | |- hushed (snd (?rest ?w0)) = _ =>
      assert (Hk : keeps only_talked rest) by talk_walk;
      rewrite (Hk w0)
  end.
  reflexivity.
Qed.

(** A photo outside the upload conversation is ignored. *)
Lemma photo_ignored message w :
  World.fsm w !! Message.chat_id message <> Some WaitingForPhoto ->
  bot.handle_upload_photo env message w = (Ok tt, w).
Proof.
  intros Hstate. unfold bot.handle_upload_photo.
  destruct (Message.from_user message) as [user|]; [|reflexivity].
  unfold try_except, bind, bot.state_get_state.
  destruct (World.fsm w !! Message.chat_id message) as [[| | | |]|];
    try reflexivity.
  contradiction.
Qed.

(** A photo inside it becomes a ticket. *)
Lemma photo_issued message user p ps w :
  Message.from_user message = Some user ->
  Message.photo message = p :: ps ->
  World.fsm w !! Message.chat_id message = Some WaitingForPhoto ->
  hushed (snd (bot.handle_upload_photo env message w))
  = hushed (World.with_fsm (delete (Message.chat_id message) (World.fsm w))
              (World.with_db (issued (World.db w) user p ps) w)).
Proof.
  intros Huser Hphoto Hstate. unfold bot.handle_upload_photo.
  rewrite Huser.
  rewrite (try_bind_ok _ _ _ w (Some WaitingForPhoto) w)
    by (unfold bot.state_get_state; rewrite Hstate; reflexivity).
  rewrite Hphoto.
  unfold db.get_next_ticket_number, db.add_ticket.
  erewrite try_bind_ok by apply call_run.
  erewrite try_bind_ok by apply call_run.
  erewrite try_bind_ok by reflexivity.
  match goal with
  | |- hushed (snd (?rest ?w0)) = _ =>
      assert (Hk : keeps only_talked rest) by talk_walk;
      rewrite (Hk w0)
  end.
  reflexivity.
Qed.

End Conversation.

Section Flows.
Context (env : Env.t).

Lemma handle_same_store r :
  writes_store r = false -> keeps (on_db eq) (handle env r).
Proof.
  destruct r; try discriminate; intros _; unfold handle;
    all_handlers keeps_walk.
Qed.

Lemma hushed_db w w' : hushed w' = hushed w -> World.db w' = World.db w.
Proof. apply only_talked_db. Qed.

Lemma hushed_fsm w w' : hushed w' = hushed w -> World.fsm w' = World.fsm w.
Proof. apply only_talked_fsm. Qed.

End Flows.

(** X21.  A photo sent while the chat waits for one becomes exactly one
    ticket, whatever the transport does with the messages that follow:
    the ticket gets the next number, belongs to the sender, is active
    and carries the largest size of the photo; the counter moves by
    one; the wait is over, so that the same photo sent again is
    ignored; and the new number is in the sender's listing. *)
Theorem photo_becomes_one_ticket (env : Env.t) (w : World.t)
    (message : Message.t) (user : User.t) (p : PhotoSize.t)
    (ps : list PhotoSize.t) :
  Message.from_user message = Some user ->
  Message.photo message = p :: ps ->
  World.fsm w !! Message.chat_id message = Some WaitingForPhoto ->
  let w' := snd (bot.handle_upload_photo env message w) in
  Db.tickets (World.db w')
  = (Db.tickets (World.db w) ++ [ticket_for (World.db w) user p ps])%list
  /\ Db.last_ticket_number (World.db w') = Db.last_ticket_number (World.db w) + 1
  /\ Db.archived (World.db w') = Db.archived (World.db w)
  /\ World.fsm w' = delete (Message.chat_id message) (World.fsm w)
  /\ (Db.last_ticket_number (World.db w) + 1)
       ∈ list_active_tickets_for_user (User.id user) (World.db w')
  /\ bot.handle_upload_photo env message w' = (Ok tt, w').
Proof.
  intros Huser Hphoto Hstate w'.
  pose proof (photo_issued env message user p ps w Huser Hphoto Hstate) as Hrun.
  fold w' in Hrun.
  pose proof (hushed_db _ _ Hrun) as Hdb. cbn in Hdb.
  pose proof (hushed_fsm _ _ Hrun) as Hfsm. cbn in Hfsm.
  rewrite Hdb, Hfsm. repeat split.
  - apply listing_elem_of. exists (ticket_for (World.db w) user p ps).
    split; [|repeat split]. cbn. apply elem_of_app. right. left.
  - apply photo_ignored. rewrite Hfsm, lookup_delete_eq. discriminate.
Qed.

(** X22.  One press of the upload button is good for one ticket: from
    any world, the button followed by a photo of the same user in the
    same chat adds that one ticket to the store, and a photo that
    follows without another press changes nothing at all. *)
Theorem one_press_one_ticket (env : Env.t) (w : World.t)
    (press photo : Message.t) (user : User.t) (p : PhotoSize.t)
    (ps : list PhotoSize.t) :
  Message.from_user press = Some user ->
  Message.from_user photo = Some user ->
  Message.chat_id press = Message.chat_id photo ->
  Message.photo photo = p :: ps ->
  let w' := serve env [ReqStartPhotoUpload press; ReqUploadPhoto photo] w in
  World.db w' = issued (World.db w) user p ps
  /\ serve env [ReqUploadPhoto photo] w' = w'.
Proof.
  intros Hpress Hphoto Hchat Hsizes w'.
  pose proof (press_sets env press user w Hpress) as Hrun1.
  set (w1 := snd (bot.start_photo_upload env press w)) in *.
  pose proof (hushed_db _ _ Hrun1) as Hdb1. cbn in Hdb1.
  pose proof (hushed_fsm _ _ Hrun1) as Hfsm1. cbn in Hfsm1.
  assert (Hwait : World.fsm w1 !! Message.chat_id photo = Some WaitingForPhoto).
  { rewrite Hfsm1, Hchat. apply lookup_insert_eq. }
  pose proof (photo_issued env photo user p ps w1 Hphoto Hsizes Hwait) as Hrun2.
  subst w'. cbn [serve fold_left handle]. fold w1.
  set (w2 := snd (bot.handle_upload_photo env photo w1)) in *.
  pose proof (hushed_db _ _ Hrun2) as Hdb2. cbn in Hdb2.
  pose proof (hushed_fsm _ _ Hrun2) as Hfsm2. cbn in Hfsm2.
  split; [rewrite Hdb2, Hdb1; reflexivity|].
  rewrite photo_ignored; [reflexivity|].
  rewrite Hfsm2, lookup_delete_eq. discriminate.
Qed.

(** X23.  [/start] ends a pending upload and the menu does not: after
    the upload button, a photo that comes after the user's [/start] is
    ignored, while a photo that comes after the menu still becomes a
    ticket. *)
Theorem start_ends_upload_menu_does_not (env : Env.t) (w : World.t)
    (press start menu photo : Message.t) (user : User.t) (p : PhotoSize.t)
    (ps : list PhotoSize.t) :
  Message.from_user press = Some user ->
  Message.from_user start = Some user ->
  Message.from_user photo = Some user ->
  Message.chat_id press = Message.chat_id photo ->
  Message.chat_id start = Message.chat_id photo ->
  Message.photo photo = p :: ps ->
  (let w' := serve env [ReqStartPhotoUpload press; ReqStart start] w in
   handle env (ReqUploadPhoto photo) w' = (Ok tt, w'))
  /\ World.db (serve env [ReqStartPhotoUpload press; ReqMenu menu;
                          ReqUploadPhoto photo] w)
     = issued (World.db w) user p ps.
Proof.
  intros Hpress _ Hphoto Hchat Hstart Hsizes.
  pose proof (press_sets env press user w Hpress) as Hrun1.
  set (w1 := snd (bot.start_photo_upload env press w)) in *.
  pose proof (hushed_db _ _ Hrun1) as Hdb1. cbn in Hdb1.
  pose proof (hushed_fsm _ _ Hrun1) as Hfsm1. cbn in Hfsm1.
  split.
  - cbn [serve fold_left handle]. fold w1.
    apply photo_ignored. rewrite start_clears, Hstart, lookup_delete_eq.
    discriminate.
  - cbn [serve fold_left handle]. fold w1.
    set (w2 := snd (bot.start_menu env menu w1)).
    assert (Hfsm2 : World.fsm w2 = World.fsm w1).
    { apply (handle_same_fsm env (ReqMenu menu) eq_refl w1). }
    assert (Hdb2 : World.db w2 = World.db w1).
    { symmetry. apply (handle_same_store env (ReqMenu menu) eq_refl w1). }
    assert (Hwait : World.fsm w2 !! Message.chat_id photo = Some WaitingForPhoto).
    { rewrite Hfsm2, Hfsm1, Hchat. apply lookup_insert_eq. }
    pose proof (photo_issued env photo user p ps w2 Hphoto Hsizes Hwait) as Hrun3.
    pose proof (hushed_db _ _ Hrun3) as Hdb3. cbn in Hdb3.
    rewrite Hdb3, Hdb2, Hdb1. reflexivity.
Qed.

(** X18.  Seven of the eleven handlers only read the store: whatever the
    request and the world, listing or viewing tickets, drawing, the
    menu, the settings, the upload button and an inline query leave
    every ticket, the archive, the counter and the saved languages as
    they were.  And only [/start], the upload button and a photo change
    a conversation state. *)
Theorem store_and_states_change_only_where_meant (env : Env.t) (r : Request)
    (w : World.t) :
  (writes_store r = false -> World.db (snd (handle env r w)) = World.db w)
  /\ (moves_conversation r = false ->
      World.fsm (snd (handle env r w)) = World.fsm w).
Proof.
  split.
  - intros Hr. symmetry. apply (handle_same_store env r Hr w).
  - intros Hr. apply (handle_same_fsm env r Hr w).
Qed.

(** ** Where the audit messages go *)

Section AuditChannel.
Context (env : Env.t).

Lemma log_user_action_message l user action lang info w :
  exists events,
    logger.log_user_action env l user action lang info w
    = (Ok tt, extend w events)
    /\ one_log_message l (bool_decide (is_Some user)) events.
Proof.
  unfold logger.log_user_action, one_log_message, log_channel.
  destruct user as [user|].
  - unfold bind, attr, ret.
    destruct (TelegramLogger.log_channel_id l) as [channel|].
    + destruct (channel =? 0).
      * exists []. rewrite extend_nil. split; reflexivity.
      * eexists. unfold try_except at 1. rewrite guarded_send_run.
        split; [reflexivity|]. cbn. eauto.
    + exists []. rewrite extend_nil. split; reflexivity.
  - exists []. rewrite extend_nil. split; [reflexivity|].
    destruct (TelegramLogger.log_channel_id l) as [channel|]; [|reflexivity].
    destruct (channel =? 0); reflexivity.
Qed.

Lemma log_system_event_message l event details w :
  exists events,
    logger.log_system_event env l event details w = (Ok tt, extend w events)
    /\ one_log_message l true events.
Proof.
  unfold logger.log_system_event, one_log_message, log_channel.
  destruct (TelegramLogger.log_channel_id l) as [channel|].
  - destruct (channel =? 0).
    + exists []. rewrite extend_nil. split; reflexivity.
    + eexists. unfold try_except at 1. rewrite guarded_send_run.
      split; [reflexivity|]. eauto.
  - exists []. rewrite extend_nil. split; reflexivity.
Qed.

(** The audit call of a handler: at most one message, to the log
    channel. *)
Lemma log_user_message lg user action lang info w :
  exists events,
    bot.log_user env lg user action lang info w = (Ok tt, extend w events)
    /\ audit_message lg events.
Proof.
  destruct lg as [l|]; simpl.
  - destruct (log_user_action_message l (Some user) action lang info w)
      as (events & Hrun & Hone).
    exists events. split; [exact Hrun|exact Hone].
  - exists []. rewrite extend_nil. split; reflexivity.
Qed.

End AuditChannel.

(** X11.  An audit call sends at most one message and only to the log
    channel: exactly one when a channel is set and is not zero and, for
    an action, a user is handed over; nothing at all otherwise, so that
    the world is then left as it was. *)
Theorem audit_goes_to_the_log_channel_only (env : Env.t)
    (l : TelegramLogger.t) (user : option User.t) (action event : string)
    (lang info target reason details : option string) (w : World.t) :
  (exists events,
      logger.log_user_action env l user action lang info w
      = (Ok tt, extend w events)
      /\ one_log_message l (bool_decide (is_Some user)) events)
  /\ (exists events,
         logger.log_admin_action env l user action target reason w
         = (Ok tt, extend w events)
         /\ one_log_message l (bool_decide (is_Some user)) events)
  /\ (exists events,
         logger.log_system_event env l event details w
         = (Ok tt, extend w events)
         /\ one_log_message l true events)
  /\ (log_channel l = None ->
      logger.log_user_action env l user action lang info w = (Ok tt, w)
      /\ logger.log_admin_action env l user action target reason w = (Ok tt, w)
      /\ logger.log_system_event env l event details w = (Ok tt, w)).
Proof.
  assert (Hadmin : exists events,
             logger.log_admin_action env l user action target reason w
             = (Ok tt, extend w events)
             /\ one_log_message l (bool_decide (is_Some user)) events).
  { unfold logger.log_admin_action. apply log_user_action_message. }
  split; [apply log_user_action_message|].
  split; [exact Hadmin|].
  split; [apply log_system_event_message|].
  intros Hnone.
  destruct (log_user_action_message env l user action lang info w)
    as (ev1 & -> & H1).
  destruct Hadmin as (ev2 & -> & H2).
  destruct (log_system_event_message env l event details w)
    as (ev3 & -> & H3).
  unfold one_log_message in *. rewrite Hnone in *. subst.
  rewrite extend_nil. repeat split.
Qed.

(** ** What a handler says *)

Section Says.
Context (env : Env.t) (d : Db.t) (P : Event -> Prop).

Lemma says_quiet {A} (m : M A) :
  (forall w, World.trace (snd (m w)) = World.trace w
             /\ World.db (snd (m w)) = World.db w) ->
  says d P m.
Proof.
  intros H w Hd. exists []. rewrite app_nil_r. destruct (H w) as [Ht Hdb].
  split; [exact Ht|]. split; [constructor|]. rewrite Hdb. exact Hd.
Qed.

Lemma says_ret {A} (a : A) : says d P (ret a).
Proof. apply says_quiet. intros w. split; reflexivity. Qed.

Lemma says_raise {A} e : says d P (@raise A e).
Proof. apply says_quiet. intros w. split; reflexivity. Qed.

Lemma says_bind {A B} (m : M A) (k : A -> M B) :
  says d P m -> (forall a, says d P (k a)) -> says d P (bind m k).
Proof.
  intros Hm Hk w Hd. unfold bind.
  destruct (Hm w Hd) as (ev1 & Ht1 & HP1 & Hd1).
  destruct (m w) as [[a|e] w1]; simpl in *; [|eauto].
  destruct (Hk a w1 Hd1) as (ev2 & Ht2 & HP2 & Hd2).
  exists (ev1 ++ ev2)%list. rewrite Ht2, Ht1, app_assoc.
  split; [reflexivity|]. split; [|exact Hd2].
  apply Forall_app. split; assumption.
Qed.

Lemma says_try_except {A} (m : M A) (h : Exn -> M A) :
  says d P m -> (forall e, says d P (h e)) -> says d P (try_except m h).
Proof.
  intros Hm Hh w Hd. unfold try_except.
  destruct (Hm w Hd) as (ev1 & Ht1 & HP1 & Hd1).
  destruct (m w) as [[a|e] w1]; simpl in *; [eauto|].
  destruct (Hh e w1 Hd1) as (ev2 & Ht2 & HP2 & Hd2).
  exists (ev1 ++ ev2)%list. rewrite Ht2, Ht1, app_assoc.
  split; [reflexivity|]. split; [|exact Hd2].
  apply Forall_app. split; assumption.
Qed.

Lemma says_send o : P (Sent o) -> says d P (send env o).
Proof.
  intros Ho w Hd. exists [Sent o]. rewrite send_run.
  split; [reflexivity|]. split; [|exact Hd].
  constructor; [exact Ho|constructor].
Qed.

(** A query, and what follows it on the answer the store gives. *)
Lemma says_query {A B} q (f : Db.t -> A) (k : A -> M B) :
  P (Query q) -> says d P (k (f d)) ->
  says d P (bind (db.call q (fun d => (f d, d))) k).
Proof.
  intros Hq Hk w Hd. unfold bind. rewrite call_run. cbn [fst snd].
  rewrite Hd.
  destruct (Hk (World.with_db d (extend w [Query q])) eq_refl)
    as (events & Ht & HP & Hdb).
  exists (Query q :: events). rewrite Ht. cbn.
  rewrite <- app_assoc. split; [reflexivity|]. split; [|exact Hdb].
  constructor; assumption.
Qed.

Lemma says_get_text uid key kwargs :
  says d P (language.get_text env uid key kwargs).
Proof.
  apply says_quiet. intros w. rewrite get_text_run. split; reflexivity.
Qed.

Lemma says_get_logger : says d P logger.get_logger.
Proof. apply says_quiet. intros w. split; reflexivity. Qed.

Lemma says_index {A} (xs : list A) i : says d P (index xs i).
Proof.
  apply says_quiet. intros w. unfold index.
  destruct (_ !! _); split; reflexivity.
Qed.

(** The audit says what it says to a channel of the bot. *)
Lemma says_log_user lg user action lang info :
  (forall channel text, P (Sent (BotSendMessage channel text))) ->
  says d P (bot.log_user env lg user action lang info).
Proof.
  intros Hlog w Hd. destruct lg as [l|]; [|apply says_ret, Hd].
  unfold bot.log_user.
  destruct (log_user_action_message env l (Some user) action lang info w)
    as (events & -> & Hev).
  exists events. split; [reflexivity|]. split; [|exact Hd].
  unfold one_log_message in Hev.
  destruct (log_channel l) as [channel|]; [|subst; constructor].
  destruct (bool_decide _); [|subst; constructor].
  destruct Hev as [text ->]. constructor; [apply Hlog|constructor].
Qed.

End Says.

Ltac says_walk :=
  cbv zeta;
  repeat
    match goal with
    | |- forall _ : _, says _ _ _ => intro
    | |- says _ _ (bind (db.call _ _) _) => apply says_query
    | |- says _ _ (bind _ _) => apply says_bind
    | |- says _ _ (try_except _ _) => apply says_try_except
    | |- says _ _ (send _ _) => apply says_send
    | |- says _ _ (bot.log_user _ _ _ _ _ _) => apply says_log_user
    | |- says _ _ (match ?x with _ => _ end) => destruct x eqn:?
    end;
  auto using says_ret, says_raise, says_get_text, says_get_logger, says_index.

(** X25.  A ticket's photo is shown to its owner only: whatever the
    callback carries, every photo [user_view_ticket_callback] sends is
    the photo of a ticket that is active and belongs to the caller, and
    the store is only read. *)
Theorem photos_are_shown_to_their_owner_only (env : Env.t) (w : World.t)
    (callback : CallbackQuery.t) (user : User.t) :
  CallbackQuery.from_user callback = Some user ->
  let w' := snd (bot.user_view_ticket_callback env callback w) in
  World.db w' = World.db w
  /\ exists events,
       World.trace w' = (World.trace w ++ events)%list
       /\ Forall (own_photo (World.db w) (User.id user)) events.
Proof.
  intros Huser w'.
  assert (H : says (World.db w) (own_photo (World.db w) (User.id user))
                (bot.user_view_ticket_callback env callback)).
  { unfold bot.user_view_ticket_callback. rewrite Huser.
    unfold db.get_active_ticket_by_number.
    says_walk; try exact I; try (intros; exact I).
    cbn. 
    match goal with
    | Hfind : db.active_ticket _ _ = Some ?tk |- _ =>
        apply List.find_some in Hfind as [Hin Hok];
        apply andb_prop in Hok as [_ Hactive];
        exists tk
    end.
    split; [apply list_elem_of_In; assumption|].
    split.
    { match goal with
      | Hown : negb (_ =? _) = false |- _ =>
          apply negb_false_iff, Z.eqb_eq in Hown; exact Hown
      end. }
    split; [|reflexivity].
    apply String.eqb_eq. exact Hactive. }
  destruct (H w eq_refl) as (events & Ht & HP & Hdb).
  split; [exact Hdb|]. exists events. split; assumption.
Qed.

Section Viewing.
Context (env : Env.t).

(** In a well-numbered store a listed number is the number of one row,
    and that is the row the lookup by number gives. *)
Lemma listed_ticket_found d u n :
  well_numbered d ->
  n ∈ list_active_tickets_for_user u d ->
  exists tk,
    db.active_ticket n d = Some tk
    /\ tk ∈ Db.tickets d
    /\ Ticket.ticket_number tk = n
    /\ Ticket.user_id tk = u.
Proof.
  intros Hwell Hlisted.
  apply listing_elem_of in Hlisted as (tk & Hin & Hn & Hu & Hs).
  assert (Hhas : db.has_number n tk = true)
    by (unfold db.has_number; apply Z.eqb_eq, Hn).
  assert (Hact : db.is_active tk = true)
    by (unfold db.is_active; apply String.eqb_eq, Hs).
  destruct (db.ticket_any_status n d) as [tk0|] eqn:Hany.
  2:{ unfold db.ticket_any_status in Hany.
      rewrite (List.find_none _ _ Hany tk) in Hhas; [discriminate|].
      apply list_elem_of_In, Hin. }
  destruct (well_numbered_found d n tk0 Hwell Hany) as [_ Hone].
  rewrite Forall_forall in Hone.
  pose proof (Hone tk Hin Hn) as ->.
  destruct (db.active_ticket n d) as [tk'|] eqn:Hfound.
  - unfold db.active_ticket in Hfound.
    apply List.find_some in Hfound as [Hin' Hok].
    apply andb_prop in Hok as [Hn' _].
    unfold db.has_number in Hn'. apply Z.eqb_eq in Hn'.
    apply list_elem_of_In in Hin'.
    pose proof (Hone tk' Hin' Hn') as ->.
    exists tk0. repeat split; assumption.
  - unfold db.active_ticket in Hfound.
    pose proof (List.find_none _ _ Hfound tk0) as Hnot. cbv beta in Hnot.
    rewrite Hhas, Hact in Hnot. discriminate Hnot.
    apply list_elem_of_In, Hin.
Qed.

(** The handler up to the parsed number. *)
Lemma view_parsed user n chat w :
  bot.user_view_ticket_callback env
    (callback_of user ("view_ticket:" ++ Py.str_int n) chat) w
  = try_except
      (let! ticket := db.get_active_ticket_by_number n in
       match ticket with
       | None =>
           let! not_found_text :=
             language.get_text env (User.id user) "ticket_not_found" [] in
           send env (CallbackAnswer (Some not_found_text) true)
       | Some tk =>
           if negb (Ticket.user_id tk =? User.id user) then
             let! no_access_text :=
               language.get_text env (User.id user) "no_access_ticket" [] in
             send env (CallbackAnswer (Some no_access_text) true)
           else
             let! lg := logger.get_logger in
             bot.log_user env lg user "view_ticket" None
               (Some ("Ticket #" ++ Py.str_int n)) ;;
             let! ticket_text :=
               language.get_text env (User.id user) "your_ticket"
                 [("ticket_number", Py.str_int n)] in
             send env (MessageAnswerPhoto chat (Ticket.file_id tk) ticket_text
                         None) ;;
             send env (CallbackAnswer None false)
       end)
      (fun _ => send env (CallbackAnswer (Some "Error viewing ticket") false))
      w.
Proof.
  unfold bot.user_view_ticket_callback, callback_of.
  cbn [CallbackQuery.from_user CallbackQuery.chat_id].
  rewrite data_view, split_view.
  unfold index. simpl lookup.
  cbv beta iota delta [bind ret try_except].
  rewrite parse_int_safe_str_int. reflexivity.
Qed.

End Viewing.

(** X26.  Every ticket in a user's listing can be viewed by that
    user: in a well-numbered store, the button of a listed number makes
    [user_view_ticket_callback] look the ticket up once, make its audit
    call, which sends at most one message and only to the log channel,
    and send the photo of the ticket once to the chat of the callback,
    with the your-ticket text for that number; then it answers the
    callback, with the error text when the photo could not be sent; it
    calls nothing else, and the store is only read. *)
Theorem listed_ticket_is_shown_to_its_owner (env : Env.t) (w : World.t)
    (user : User.t) (n chat : Z) :
  well_numbered (World.db w) ->
  n ∈ list_active_tickets_for_user (User.id user) (World.db w) ->
  exists tk logged r w',
    tk ∈ Db.tickets (World.db w)
    /\ Ticket.ticket_number tk = n
    /\ Ticket.user_id tk = User.id user
    /\ bot.user_view_ticket_callback env
         (callback_of user ("view_ticket:" ++ Py.str_int n) chat) w
       = (r, w')
    /\ World.db w' = World.db w
    /\ audit_message (Memory.telegram_logger (World.mem w)) logged
    /\ let photo :=
         MessageAnswerPhoto chat (Ticket.file_id tk)
           (text_of env w (User.id user) "your_ticket"
              [("ticket_number", Py.str_int n)])
           None in
       let failed := CallbackAnswer (Some "Error viewing ticket") false in
       World.trace w'
       = (World.trace w
          ++ Query (GetActiveTicketByNumber n)
             :: logged
             ++ Sent photo
                :: (if Env.transport_raises env photo then [Sent failed]
                    else answered env (CallbackAnswer None false) failed))%list.
Proof.
  intros Hwell Hlisted.
  destruct (listed_ticket_found (World.db w) (User.id user) n Hwell Hlisted)
    as (tk & Hfound & Hin & Hn & Hu).
  exists tk.
  rewrite view_parsed.
  unfold db.get_active_ticket_by_number.
  erewrite try_bind_ok by apply call_run.
  cbn [fst snd]. rewrite Hfound.
  replace (Ticket.user_id tk =? User.id user) with true
    by (symmetry; apply Z.eqb_eq, Hu).
  cbn [negb].
  erewrite try_bind_ok by reflexivity.
  set (w1 := World.with_db (World.db w)
               (extend w [Query (GetActiveTicketByNumber n)])).
  destruct (log_user_message env (Memory.telegram_logger (World.mem w1)) user
              "view_ticket" None (Some ("Ticket #" ++ Py.str_int n)) w1)
    as (logged & Hlog & Haudit).
  erewrite try_bind_ok by exact Hlog.
  erewrite try_bind_ok by apply get_text_run.
  rewrite (text_of_mem env (extend w1 logged) w) by reflexivity.
  set (photo := MessageAnswerPhoto chat (Ticket.file_id tk) _ None).
  set (failed := CallbackAnswer (Some "Error viewing ticket") false).
  set (w2 := loaded env (extend w1 logged)).
  exists logged.
  destruct (Env.transport_raises env photo) eqn:Hphoto.
  - unfold try_except, bind. rewrite send_run, Hphoto.
    rewrite send_run. eexists _, _.
    split; [exact Hin|]. split; [exact Hn|]. split; [exact Hu|].
    split; [reflexivity|]. split; [reflexivity|]. split; [exact Haudit|].
    cbn. rewrite <- !app_assoc. reflexivity.
  - destruct (final_answer_run env (CallbackAnswer None false) failed
                (extend w2 [Sent photo])) as [r Hr].
    exists r. eexists.
    split; [exact Hin|]. split; [exact Hn|]. split; [exact Hu|].
    split; [|split; [|split]].
    + etransitivity; [|exact Hr].
      unfold try_except, bind. rewrite send_run, Hphoto. reflexivity.
    + reflexivity.
    + exact Haudit.
    + cbn. rewrite <- !app_assoc. reflexivity.
Qed.

(** ** Who may give the administrator's commands *)

(** X28.  The guard [if not user or not is_admin(...)] of the three
    administrator commands.  A user who is not an administrator and
    asks for a draw, for the archive or for the settings is answered
    with the insufficient-rights text: nothing is logged, the database
    is not called, and the store, the lock and the conversation states
    stay as they were.  A message without a sender does not get that
    text: the guard holds, the refusal cannot read the sender's
    identifier, and the command answers with the error text of its
    [except] branch, again without touching anything. *)
Theorem admin_commands_refuse_others (env : Env.t) (w : World.t)
    (message : Message.t) :
  let chat := Message.chat_id message in
  let failed_draw := MessageAnswer chat "Error starting draw" None in
  let failed_archive := MessageAnswer chat "Error archiving lottery" None in
  let failed_settings := MessageAnswer chat "Error checking settings" None in
  (forall user,
      Message.from_user message = Some user ->
      bot.is_admin_user env user = false ->
      let refusal :=
        MessageAnswer chat
          (text_of env w (User.id user) "insufficient_rights" []) None in
      (exists r,
          bot.admin_start_draw env message w
          = (r, extend (loaded env w) (answered env refusal failed_draw)))
      /\ (exists r,
             bot.admin_archive env message w
             = (r, extend (loaded env w) (answered env refusal failed_archive)))
      /\ (exists r,
             bot.check_settings env message w
             = (r, extend (loaded env w)
                     (answered env refusal failed_settings))))
  /\ (Message.from_user message = None ->
      (exists r,
          bot.admin_start_draw env message w
          = (r, extend w [Sent failed_draw]))
      /\ (exists r,
             bot.admin_archive env message w
             = (r, extend w [Sent failed_archive]))
      /\ (exists r,
             bot.check_settings env message w
             = (r, extend w [Sent failed_settings]))).
Proof.
  intros chat failed_draw failed_archive failed_settings.
  split.
  - intros user Huser Hother refusal.
    split; [|split].
    + unfold bot.admin_start_draw. rewrite Huser, Hother. cbn [negb].
      apply (text_then_answer_run env (User.id user) "insufficient_rights" []
               (fun t => MessageAnswer chat t None)).
    + unfold bot.admin_archive. rewrite Huser, Hother. cbn [negb].
      apply (text_then_answer_run env (User.id user) "insufficient_rights" []
               (fun t => MessageAnswer chat t None)).
    + unfold bot.check_settings. rewrite Huser, Hother. cbn [negb].
      apply (text_then_answer_run env (User.id user) "insufficient_rights" []
               (fun t => MessageAnswer chat t None)).
  - intros Hnone.
    unfold bot.admin_start_draw, bot.admin_archive, bot.check_settings.
    rewrite Hnone.
    repeat split; unfold try_except, raise; rewrite send_run; eauto.
Qed.

(** ** Announcing the winner *)


(** ** Keyboards *)

Section Rows.
Context {A : Type}.

Lemma rows_of_two_concat (xs : list A) : concat (helpers.rows_of_two xs) = xs.
Proof.
  induction xs as [xs IH] using (induction_ltof1 _ (@length A)).
  unfold ltof in IH.
  destruct xs as [|a [|b rest]]; [reflexivity|reflexivity|].
  cbn [helpers.rows_of_two concat app]. rewrite IH by (simpl; lia).
  reflexivity.
Qed.

Lemma rows_of_two_lookup (xs : list A) (k : nat) :
  helpers.rows_of_two xs !! k
  = if decide (2 * k < length xs)%nat then Some (take 2 (drop (2 * k) xs))
    else None.
Proof.
  revert xs. induction k as [|k IH]; intros xs.
  - destruct xs as [|a [|b rest]]; reflexivity.
  - destruct xs as [|a [|b rest]]; [reflexivity|reflexivity|].
    cbn [helpers.rows_of_two lookup list_lookup]. rewrite IH.
    replace (2 * S k)%nat with (S (S (2 * k))) by lia.
    cbn [drop length].
    destruct (decide (2 * k < length rest)%nat),
             (decide (S (S (2 * k)) < S (S (length rest)))%nat);
      try reflexivity; lia.
Qed.

Lemma rows_of_two_length (xs : list A) :
  length (helpers.rows_of_two xs) = ((length xs + 1) / 2)%nat.
Proof.
  induction xs as [xs IH] using (induction_ltof1 _ (@length A)).
  unfold ltof in IH.
  destruct xs as [|a [|b rest]]; [reflexivity|reflexivity|].
  cbn [helpers.rows_of_two length]. rewrite IH by (simpl; lia).
  replace (S (S (length rest)) + 1)%nat with (length rest + 1 + 1 * 2)%nat
    by lia.
  rewrite Nat.div_add by lia. lia.
Qed.

End Rows.

(** X12.  The tickets keyboard has one button per ticket number, in the
    order given, two to a row: row [k] holds the buttons of the numbers
    at positions [2k] and [2k+1], the last row holding one button when
    the count is odd; so there are half as many rows as numbers,
    rounded up, and none when there is no number. *)
Theorem ticket_buttons_two_to_a_row (ticket_numbers : list Z) :
  exists rows,
    helpers.user_tickets_inline_keyboard ticket_numbers
    = InlineKeyboardMarkup rows
    /\ concat rows = List.map helpers.ticket_button ticket_numbers
    /\ length rows = ((length ticket_numbers + 1) / 2)%nat
    /\ forall k,
         rows !! k
         = if decide (2 * k < length ticket_numbers)%nat
           then Some (List.map helpers.ticket_button
                        (take 2 (drop (2 * k) ticket_numbers)))
           else None.
Proof.
  eexists. split; [reflexivity|].
  split; [apply rows_of_two_concat|].
  split; [rewrite rows_of_two_length, length_map; reflexivity|].
  intros k. rewrite rows_of_two_lookup, length_map.
  destruct (decide _); [|reflexivity].
  rewrite !map_is_fmap, fmap_take, fmap_drop. reflexivity.
Qed.

Lemma lstrip_at_clean name : Py.startswith (Py.lstrip_at name) "@" = false.
Proof.
  induction name as [|c name IH]; [reflexivity|].
  cbn [Py.lstrip_at]. destruct (Ascii.eqb c "@") eqn:Hc; [exact IH|].
  cbn [Py.startswith]. rewrite Hc. reflexivity.
Qed.

(** [lstrip('@')] takes the at-signs in front of the name away and
    nothing else. *)
Lemma lstrip_at_signs name :
  exists k, name = at_signs k ++ Py.lstrip_at name.
Proof.
  induction name as [|c name [k IH]]; [exists 0%nat; reflexivity|].
  cbn [Py.lstrip_at]. destruct (Ascii.eqb_spec c "@") as [->|_].
  - exists (S k). cbn [at_signs]. change (String "@" ?a ++ ?b)
      with (String "@" (a ++ b)). rewrite <- IH. reflexivity.
  - exists 0%nat. reflexivity.
Qed.

Lemma welcome_row_link name text :
  Forall2
    (fun row channel =>
       exists k rest,
         fst channel = at_signs k ++ rest
         /\ Py.startswith rest "@" = false
         /\ row = [ {| button_text := snd channel;
                       button_target := Url ("https://t.me/" ++ rest) |} ])
    (helpers.welcome_row name text) (named [(name, text)]).
Proof.
  unfold helpers.welcome_row, named. cbn [omap list_omap fst snd].
  destruct name as [n|]; [|constructor].
  destruct (String.eqb n ""); [constructor|].
  constructor; [|constructor].
  destruct (lstrip_at_signs n) as [k Hk].
  exists k, (Py.lstrip_at n).
  split; [exact Hk|]. split; [apply lstrip_at_clean|reflexivity].
Qed.

Lemma welcome_row_at name text :
  name <> "" ->
  helpers.welcome_row (Some ("@" ++ name)) text
  = helpers.welcome_row (Some name) text.
Proof.
  intros Hname. unfold helpers.welcome_row.
  destruct (String.eqb_spec name "") as [|_]; [contradiction|].
  reflexivity.
Qed.

(** X13.  The welcome keyboard has one row of one button for each
    channel name that is set and not empty, the channel to add first
    and the updates channel second; the button of a channel carries the
    text given for it and opens [https://t.me/] followed by the name of
    that channel without the at-signs in front of it; and a name gives
    the same keyboard with an at-sign in front of it as without, for
    either channel. *)
Theorem welcome_keyboard_links (channel_username updates_channel_username
    : option string) (add_me_text updates_text : string) :
  exists rows,
    helpers.get_welcome_inline_keyboard channel_username
      updates_channel_username add_me_text updates_text
    = InlineKeyboardMarkup rows
    /\ length rows
       = (Nat.b2n (Py.truthy_str channel_username)
          + Nat.b2n (Py.truthy_str updates_channel_username))%nat
    /\ Forall2
         (fun row channel =>
            exists k rest,
              fst channel = at_signs k ++ rest
              /\ Py.startswith rest "@" = false
              /\ row = [ {| button_text := snd channel;
                            button_target := Url ("https://t.me/" ++ rest) |} ])
         rows
         (named [ (channel_username, add_me_text);
                  (updates_channel_username, updates_text) ])
    /\ (forall name,
           name <> "" ->
           helpers.get_welcome_inline_keyboard (Some ("@" ++ name))
             updates_channel_username add_me_text updates_text
           = helpers.get_welcome_inline_keyboard (Some name)
               updates_channel_username add_me_text updates_text)
    /\ (forall name,
           name <> "" ->
           helpers.get_welcome_inline_keyboard channel_username
             (Some ("@" ++ name)) add_me_text updates_text
           = helpers.get_welcome_inline_keyboard channel_username
               (Some name) add_me_text updates_text).
Proof.
  eexists. split; [reflexivity|]. split; [|split; [|split]].
  - rewrite length_app. f_equal.
    + unfold helpers.welcome_row, Py.truthy_str.
      destruct channel_username as [n|]; [|reflexivity].
      destruct (String.eqb n ""); reflexivity.
    + unfold helpers.welcome_row, Py.truthy_str.
      destruct updates_channel_username as [n|]; [|reflexivity].
      destruct (String.eqb n ""); reflexivity.
  - change [ (channel_username, add_me_text);
             (updates_channel_username, updates_text) ]
      with ([(channel_username, add_me_text)]
            ++ [(updates_channel_username, updates_text)])%list.
    unfold named. rewrite omap_app.
    apply Forall2_app; apply welcome_row_link.
  - intros name Hname. unfold helpers.get_welcome_inline_keyboard.
    rewrite (welcome_row_at name add_me_text Hname). reflexivity.
  - intros name Hname. unfold helpers.get_welcome_inline_keyboard.
    rewrite (welcome_row_at name updates_text Hname). reflexivity.
Qed.

(** X14.  What the buttons carry, the handlers read back: the payload
    of the confirm button of ticket [n] passes the prefix test of
    [admin_confirm_winner] and its part after the colon parses to [n];
    the payload of the button of ticket [n] in the tickets keyboard
    passes the test of [user_view_ticket_callback] and parses to [n]. *)
Theorem buttons_are_read_back (n : Z) (user : option User.t) (chat : Z)
    (confirm_text reject_text : string) :
  (exists payload other,
      helpers.lottery_inline_actions n confirm_text reject_text
      = InlineKeyboardMarkup
          [[ {| button_text := confirm_text;
                button_target := CallbackData payload |}; other ]]
      /\ bot.data_with_prefix (CallbackQuery.mk user (Some payload) chat)
           "confirm_win:"
         = Some payload
      /\ utils.parse_int_safe <$> Py.split_colon_once payload !! 1%nat
         = Some (Some n))
  /\ (exists payload,
         button_target (helpers.ticket_button n) = CallbackData payload
         /\ bot.data_with_prefix (CallbackQuery.mk user (Some payload) chat)
              "view_ticket:"
            = Some payload
         /\ utils.parse_int_safe <$> Py.split_colon_once payload !! 1%nat
            = Some (Some n)).
Proof.
  split.
  - eexists _, _. split; [reflexivity|]. split; [reflexivity|].
    rewrite split_confirm. cbn. rewrite parse_int_safe_str_int. reflexivity.
  - eexists. split; [reflexivity|]. split; [reflexivity|].
    rewrite split_view. cbn. rewrite parse_int_safe_str_int. reflexivity.
Qed.

(** ** The reject button *)

(** X15.  The reject button of a draw is handled by nothing: its
    payload passes the filter of neither callback handler registered in
    [main], whereas the payload of the confirm button goes to
    [admin_confirm_winner]; and [admin_confirm_winner] itself, were it
    given the reject payload by an administrator, returns without an
    answer and leaves the world as it is. *)
Theorem reject_button_is_not_handled (env : Env.t) (w : World.t)
    (user : User.t) (n chat : Z) (confirm_text reject_text : string) :
  exists confirm_payload reject_payload,
    helpers.lottery_inline_actions n confirm_text reject_text
    = InlineKeyboardMarkup
        [[ {| button_text := confirm_text;
              button_target := CallbackData confirm_payload |};
           {| button_text := reject_text;
              button_target := CallbackData reject_payload |} ]]
    /\ route_callback (callback_of user reject_payload chat) = None
    /\ route_callback (callback_of user confirm_payload chat)
       = Some (ReqConfirmWinner (callback_of user confirm_payload chat))
    /\ (bot.is_admin_user env user = true ->
        bot.admin_confirm_winner env (callback_of user reject_payload chat) w
        = (Ok tt, w)).
Proof.
  eexists _, _. split; [reflexivity|].
  split; [reflexivity|]. split; [reflexivity|].
  intros Hadmin. unfold bot.admin_confirm_winner, callback_of.
  cbn [CallbackQuery.from_user]. rewrite Hadmin. reflexivity.
Qed.

(** ** The draw *)

Section Drawing.
Context (env : Env.t) (d : Db.t) (P : Event -> Prop).

Lemma says_finally {A} (m : M A) (f : M unit) :
  says d P m -> says d P f -> says d P (finally m f).
Proof.
  intros Hm Hf w Hd. unfold finally.
  destruct (Hm w Hd) as (ev1 & Ht1 & HP1 & Hd1).
  destruct (m w) as [r w1]; simpl in *.
  destruct (Hf w1 Hd1) as (ev2 & Ht2 & HP2 & Hd2).
  destruct (f w1) as [[[]|e] w2]; simpl in *;
    (exists (ev1 ++ ev2)%list; rewrite Ht2, Ht1, app_assoc;
     split; [reflexivity|]; split; [|exact Hd2];
     apply Forall_app; split; assumption).
Qed.

Lemma says_lock_locked : says d P utils.draw_lock_locked.
Proof. apply says_quiet. intros w. split; reflexivity. Qed.

Lemma says_lock_aenter : says d P utils.draw_lock_aenter.
Proof.
  apply says_quiet. intros w. unfold utils.draw_lock_aenter.
  destruct (Memory.draw_lock_locked _); split; reflexivity.
Qed.

Lemma says_lock_aexit : says d P utils.draw_lock_aexit.
Proof. apply says_quiet. intros w. split; reflexivity. Qed.

Lemma says_log_admin lg user action target reason :
  (forall channel text, P (Sent (BotSendMessage channel text))) ->
  says d P (bot.log_admin env lg user action target reason).
Proof.
  intros Hlog w Hd. destruct lg as [l|]; [|apply says_ret, Hd].
  unfold bot.log_admin, logger.log_admin_action.
  match goal with
  | |- context [logger.log_user_action env l ?u ?a ?lang ?info w] =>
      destruct (log_user_action_message env l u a lang info w)
        as (events & -> & Hev)
  end.
  exists events. split; [reflexivity|]. split; [|exact Hd].
  unfold one_log_message in Hev.
  destruct (log_channel l) as [channel|]; [|subst; constructor].
  destruct (bool_decide _); [|subst; constructor].
  destruct Hev as [text ->]. constructor; [apply Hlog|constructor].
Qed.

(** The selection, and what follows it on the ticket it gives. *)
Lemma says_selection {B} (k : option Ticket.t -> M B) :
  P (Query GetRandomActiveTicket) ->
  (forall r, says d P (k (db.random_active_ticket r d))) ->
  says d P (bind db.get_random_active_ticket k).
Proof.
  intros Hq Hk w Hd.
  unfold bind, db.get_random_active_ticket, db.select_random_active_ticket.
  unfold bind. rewrite emit_run.
  change (World.db (extend w [Query GetRandomActiveTicket])) with (World.db w).
  rewrite Hd.
  match goal with
  | |- context [k (db.random_active_ticket ?r d) ?w1] =>
      destruct (Hk r w1 Hd) as (events & Ht & HP & Hdb)
  end.
  exists (Query GetRandomActiveTicket :: events). rewrite Ht. cbn.
  rewrite <- app_assoc. split; [reflexivity|]. split; [|exact Hdb].
  constructor; assumption.
Qed.

End Drawing.

Lemma random_active_ticket_active r d tk :
  db.random_active_ticket r d = Some tk ->
  tk ∈ Db.tickets d /\ Ticket.status tk = "active".
Proof.
  unfold db.random_active_ticket. intros H.
  apply list_elem_of_lookup_2, list_elem_of_In, filter_In in H as [Hin Hact].
  split; [apply list_elem_of_In, Hin|].
  apply String.eqb_eq, Hact.
Qed.

(** X27.  A draw only presents what is in play: whoever asks and
    whatever the random number, every photo [admin_start_draw] sends is
    the photo of a ticket of the store that is active, under the
    buttons that carry that ticket's number; the store is only read,
    and the lock is afterwards as it was before, whether the draw ends
    normally or in its [except] branch. *)
Theorem draw_presents_an_active_ticket (env : Env.t) (w : World.t)
    (message : Message.t) :
  let w' := snd (bot.admin_start_draw env message w) in
  World.db w' = World.db w
  /\ lock_held w' = lock_held w
  /\ exists events,
       World.trace w' = (World.trace w ++ events)%list
       /\ Forall (drawn_photo (World.db w)) events.
Proof.
  intros w'.
  assert (H : says (World.db w) (drawn_photo (World.db w))
                (bot.admin_start_draw env message)).
  { unfold bot.admin_start_draw. cbv zeta.
    repeat
      match goal with
      | |- forall _ : _, says _ _ _ => intro
      | |- says _ _ (bind db.get_random_active_ticket _) =>
          apply says_selection
      | |- says _ _ (bind _ _) => apply says_bind
      | |- says _ _ (try_except _ _) => apply says_try_except
      | |- says _ _ (finally _ _) => apply says_finally
      | |- says _ _ (send _ _) => apply says_send
      | |- says _ _ (bot.log_admin _ _ _ _ _ _) => apply says_log_admin
      | |- says _ _ (match ?x with _ => _ end) => destruct x eqn:?
      end;
      auto using says_ret, says_raise, says_get_text, says_get_logger,
        says_lock_locked, says_lock_aenter, says_lock_aexit;
      try exact I; try (intros; exact I).
    cbn.
    match goal with
    | Hsel : db.random_active_ticket _ _ = Some ?tk |- _ =>
        apply random_active_ticket_active in Hsel as [Hin Hact];
        exists tk
    end.
    eexists _, _. repeat split; eassumption. }
  destruct (H w eq_refl) as (events & Ht & HP & Hdb).
  split; [exact Hdb|]. split; [|eauto].
  apply (admin_start_draw_same_lock env message w).
Qed.

(** ** Languages *)

Section Languages.
Context (env : Env.t).

Lemma lower_ascii_idem c : Py.lower_ascii (Py.lower_ascii c) = Py.lower_ascii c.
Proof.
  destruct c as [[|] [|] [|] [|] [|] [|] [|] [|]]; reflexivity.
Qed.

Lemma lower_idem s : Py.lower (Py.lower s) = Py.lower s.
Proof.
  induction s as [|c s IH]; [reflexivity|].
  cbn [Py.lower]. rewrite lower_ascii_idem, IH. reflexivity.
Qed.

Lemma lower_empty s : String.eqb (Py.lower s) "" = String.eqb s "".
Proof. destruct s; reflexivity. Qed.

Lemma mapping_lookup_key code lang :
  language.mapping_lookup code = Some lang -> lang ∈ language_keys.
Proof.
  unfold language.mapping_lookup. intros H.
  apply fmap_Some in H as [kv [Hfind ->]].
  apply find_some in Hfind as [Hin _].
  unfold language.LANGUAGE_MAPPING in Hin. simpl in Hin.
  unfold language_keys.
  repeat (destruct Hin as [<-|Hin]; [set_solver|]).
  contradiction.
Qed.

Lemma detected_language_cases w code :
  detected_language env w code = "english"
  \/ exists c,
       code = Some c
       /\ language.mapping_lookup (Py.lower c)
          = Some (detected_language env w code)
       /\ is_Some (translations_of env w !! detected_language env w code).
Proof.
  unfold detected_language, language.get_user_lang.
  destruct code as [c|]; [|left; reflexivity].
  destruct (String.eqb c ""); [left; reflexivity|].
  destruct (language.mapping_lookup (Py.lower c)) as [lang|] eqn:Hmap;
    [|left; reflexivity].
  unfold bind. rewrite load_translations_run.
  destruct (translations_of env w !! lang) as [table|] eqn:Htable;
    [|left; reflexivity].
  right. exists c. cbn. rewrite Htable. eauto.
Qed.

End Languages.

(** X7.  [get_user_lang] always gives one of the five language keys,
    and gives English unless the locale hint, in any letter case, is
    one of the mapped codes and the translations have a table for its
    language.  So the key it gives is an available language, as
    [is_language_available] tells, whenever English is one; when
    English is not, the key it gives may have no table, its docstring
    notwithstanding. *)
Theorem detected_language_is_a_known_key (env : Env.t) (w : World.t)
    (language_code : option string) :
  let detected := detected_language env w language_code in
  (exists w', language.get_user_lang env language_code w = (Ok detected, w'))
  /\ detected ∈ language_keys
  /\ (detected = "english"
      \/ exists code,
           language_code = Some code
           /\ language.mapping_lookup (Py.lower code) = Some detected
           /\ fst (is_language_available env detected w) = Ok true)
  /\ (fst (is_language_available env "english" w) = Ok true ->
      fst (is_language_available env detected w) = Ok true)
  /\ detected_language env w (Py.lower <$> language_code) = detected.
Proof.
  intros detected.
  assert (Havailable : forall lang,
             fst (is_language_available env lang w) = Ok true
             <-> is_Some (translations_of env w !! lang)).
  { intros lang. unfold is_language_available, bind.
    rewrite load_translations_run. cbn [fst ret].
    split.
    - intros [= H]. apply bool_decide_eq_true in H. exact H.
    - intros H. f_equal. apply bool_decide_eq_true. exact H. }
  pose proof (detected_language_cases env w language_code) as Hcases.
  fold detected in Hcases.
  split.
  { destruct (get_user_lang_run env language_code w) as (w' & Hrun & _).
    exists w'. exact Hrun. }
  split.
  { destruct Hcases as [Heq|(c & _ & Hmap & _)].
    - rewrite Heq. apply list_elem_of_here.
    - eapply mapping_lookup_key, Hmap. }
  split.
  { destruct Hcases as [Henglish|(c & Hcode & Hmap & Htable)]; [left; exact Henglish|].
    right. exists c. split; [exact Hcode|]. split; [exact Hmap|].
    apply (proj2 (Havailable _)). exact Htable. }
  split.
  { intros Henglish.
    destruct Hcases as [Heq|(c & _ & _ & Htable)].
    - rewrite Heq. exact Henglish.
    - apply (proj2 (Havailable _)). exact Htable. }
  subst detected. unfold detected_language, language.get_user_lang.
  destruct language_code as [c|]; [|reflexivity].
  cbn [fmap option_fmap option_map]. rewrite lower_empty, lower_idem.
  reflexivity.
Qed.

(** X8.  The translations are read once: after a first call of
    [load_translations], whatever it found, a later call gives the same
    table and leaves the world as it is, even when the file has
    changed, appeared or disappeared in between; so a file that was
    missing or malformed at the first call leaves the bot with the
    minimal English table for good. *)
Theorem translations_are_read_once (env later : Env.t) (w : World.t) :
  let first := language.load_translations env w in
  language.load_translations later (snd first) = first
  /\ translations_of later (snd first) = translations_of env w
  /\ (Memory._translations (World.mem w) = None ->
      Env.language_file env <> FileNotFoundError ->
      Env.language_file env <> JSONDecodeError ->
      exists t, Env.language_file env = FileJson t /\ fst first = Ok t)
  /\ (Memory._translations (World.mem w) = None ->
      Env.language_file env = FileNotFoundError ->
      fst first = Ok language.fallback_not_found)
  /\ (Memory._translations (World.mem w) = None ->
      Env.language_file env = JSONDecodeError ->
      fst first = Ok language.fallback_bad_json).
Proof.
  intros first. subst first. rewrite (load_translations_run env w).
  cbn [fst snd].
  split; [|split; [|split; [|split]]].
  - rewrite (load_translations_run later (loaded env w)). reflexivity.
  - reflexivity.
  - intros Hnone Hfound Hjson. unfold translations_of. rewrite Hnone.
    destruct (Env.language_file env) as [t| |]; [eauto|contradiction..].
  - intros Hnone Hfile. unfold translations_of. rewrite Hnone, Hfile.
    reflexivity.
  - intros Hnone Hfile. unfold translations_of. rewrite Hnone, Hfile.
    reflexivity.
Qed.

(** X9.  The in-memory language table: a language set for a user is
    the one [get_user_language] gives back for that user and the one
    [get_text] takes the text from when its table has the key; the
    other users keep theirs; and a user for whom none was set has
    English. *)
Theorem language_set_is_language_used (env : Env.t) (w : World.t)
    (user_id : Z) (lang key : string) (kwargs : list (string * string)) :
  let w1 := snd (language.set_user_language user_id lang w) in
  language.get_user_language user_id w1 = (Ok lang, w1)
  /\ (forall other,
         other <> user_id ->
         fst (language.get_user_language other w1)
         = fst (language.get_user_language other w))
  /\ (forall text,
         language.entry (translations_of env w) lang key = Some text ->
         fst (language.get_text env user_id key kwargs w1)
         = Ok match Env.format env text kwargs with
              | Ok out => out
              | Raise _ => text
              end)
  /\ (Memory._user_languages (World.mem w) !! user_id = None ->
      fst (language.get_user_language user_id w) = Ok "english").
Proof.
  intros w1. subst w1.
  unfold language.set_user_language, modify, language.get_user_language.
  cbn [fst snd World.mem World.with_mem Memory._user_languages].
  split; [rewrite lookup_insert_eq; reflexivity|].
  split.
  { intros other Hother. rewrite lookup_insert_ne by congruence. reflexivity. }
  split.
  { intros text Hentry. rewrite get_text_rendered. cbn [fst].
    unfold rendered, chosen_text.
    cbn [World.mem World.with_mem Memory._user_languages].
    rewrite lookup_insert_eq. cbn [default].
    change (translations_of env (World.with_mem _ w))
      with (translations_of env w).
    unfold id. rewrite Hentry. reflexivity. }
  intros Hnone. rewrite Hnone. reflexivity.
Qed.

(** ** Inline queries *)

(** X30.  An inline query is always answered, once and with a cache
    time of 300: with the one fixed article when the query is blank
    once stripped, with that article and a second one made from the
    stripped query otherwise.  Before the answer the handler makes its
    audit call, which sends at most one message and only to the log
    channel; it calls nothing else.  The handler always returns
    normally, even when the answer fails, and leaves the store, the lock
    and the conversation states as they were. *)
Theorem inline_query_is_answered_once (env : Env.t) (w : World.t)
    (inline_query : InlineQuery.t) :
  let query := Py.strip (InlineQuery.query inline_query) in
  exists logged results,
    bot.handle_inline_query env inline_query w
    = (Ok tt,
       extend w (logged ++ [Sent (InlineQueryAnswer results 300)]))
    /\ audit_message (Memory.telegram_logger (World.mem w)) logged
    /\ List.map article_id results
       = "lottery_info"
         :: (if String.eqb query "" then [] else ["search_result"])
    /\ (forall article,
           article ∈ results ->
           article_id article = "search_result" ->
           article_title article = "ğŸ” Search: " ++ query).
Proof.
  intros query. unfold bot.handle_inline_query. fold query.
  destruct (log_user_message env (Memory.telegram_logger (World.mem w))
              (InlineQuery.from_user inline_query) "inline_query" None
              (Some ("Query: '" ++ query ++ "'")) w)
    as (logged & Hlog & Haudit).
  exists logged.
  erewrite try_bind_ok by reflexivity.
  erewrite try_bind_ok by exact Hlog.
  cbv zeta. unfold try_except at 1. rewrite send_run, extend_extend.
  eexists. split.
  { destruct (Env.transport_raises env _); reflexivity. }
  split; [exact Haudit|].
  destruct (String.eqb query ""); cbn.
  - split; [reflexivity|].
    intros article ->%list_elem_of_singleton [=].
  - split; [reflexivity|].
    intros article [->| ->%list_elem_of_singleton]%elem_of_cons; [intros [=]|].
    reflexivity.
Qed.

(** ** The lock after a request *)

(** X19.  The draw lock is never left held: a draw releases the lock
    however it ends, when the presentation fails as when it succeeds,
    and no other handler takes it; so every request served as a whole
    leaves the lock as it found it, and after any requests that start
    with the lock free the lock is free. *)
Theorem draw_lock_is_always_released (env : Env.t) (reqs : list Request)
    (w : World.t) :
  lock_held (serve env reqs w) = lock_held w.
Proof.
  revert w. induction reqs as [|r reqs IH]; intros w; [reflexivity|].
  cbn [serve fold_left]. change (fold_left _ reqs ?x) with (serve env reqs x).
  rewrite IH. apply (handle_same_lock env r w).
Qed.

(** ** Between the test of the lock and the entry *)

Section Window.
Context (env : Env.t).

Import coordinator.

Lemma logged_entry message user l w :
  exists logged,
    one_log_message l true logged
    /\ resume env message (Logging user l) w
       = if lock_held w then failing message (extend w logged)
         else (Selecting user,
               extend (utils.set_draw_lock true (extend w logged))
                 [Query GetRandomActiveTicket]).
Proof.
  destruct (log_user_action_message env l (Some user) "[ADMIN] start_draw"
              None None w) as (logged & Hlog & Hone).
  exists logged. split; [exact Hone|].
  unfold resume, segment, bind.
  change (logger.log_admin_action env l (Some user) "start_draw" None None w)
    with (logger.log_user_action env l (Some user) "[ADMIN] start_draw"
            None None w).
  rewrite Hlog, enter_run.
  change (lock_held (extend w logged)) with (lock_held w).
  destruct (lock_held w); reflexivity.
Qed.

(** Where a logger is in place, the handler awaits between the test of
    the lock and the entry.  Two attempts of administrators interleaved
    there both pass the test; the first one to go on takes the lock,
    and the other one is answered with the error text. *)
Lemma draw_window (w0 : World.t) (m1 m2 : Message.t) (a b : User.t)
    (l : TelegramLogger.t) :
  lock_held w0 = false ->
  Memory.telegram_logger (World.mem w0) = Some l ->
  Message.from_user m1 = Some a -> bot.is_admin_user env a = true ->
  Message.from_user m2 = Some b -> bot.is_admin_user env b = true ->
  let s := run_ticks env [Resume 0; Resume 1; Resume 0; Resume 1]
             (arrivals w0 [m1; m2]) in
  exists log1 log2,
    one_log_message l true log1
    /\ one_log_message l true log2
    /\ tasks s = [ {| task_message := m1; task_pc := Selecting a |};
                   {| task_message := m2; task_pc := Failing |} ]
    /\ lock_held (world s) = true
    /\ World.trace (world s)
       = (World.trace w0
          ++ log1 ++ Query GetRandomActiveTicket
             :: log2 ++ [Sent (error_reply m2)])%list.
Proof.
  intros Hfree Hlg Ha Hadmin_a Hb Hadmin_b s.
  destruct (logged_entry m1 a l w0) as (log1 & Hone1 & Hentry1).
  rewrite Hfree in Hentry1.
  set (w3 := extend (utils.set_draw_lock true (extend w0 log1))
               [Query GetRandomActiveTicket]) in Hentry1.
  destruct (logged_entry m2 b l w3) as (log2 & Hone2 & Hentry2).
  change (lock_held w3) with true in Hentry2. cbv iota in Hentry2.
  exists log1, log2. split; [exact Hone1|]. split; [exact Hone2|].
  assert (Hs : s = {| world := snd (failing m2 (extend w3 log2));
                      tasks := [ {| task_message := m1;
                                    task_pc := Selecting a |};
                                 {| task_message := m2;
                                    task_pc := Failing |} ] |}).
  { subst s. unfold run_ticks, arrivals. cbn [fold_left tick List.map].
    set (t1 := {| task_message := m1; task_pc := Start |}).
    set (t2 := {| task_message := m2; task_pc := Start |}).
    set (t1' := {| task_message := m1; task_pc := Logging a l |}).
    set (t2' := {| task_message := m2; task_pc := Logging b l |}).
    rewrite (sys_step_lookup env 0 {| world := w0; tasks := [t1; t2] |} t1
               eq_refl).
    cbn [tasks world task_message task_pc t1].
    rewrite resume_start, Ha, Hadmin_a, Hfree, Hlg.
    cbn [negb fst snd list_insert insert]. fold t1'.
    rewrite (sys_step_lookup env 1 {| world := w0; tasks := [t1'; t2] |} t2
               eq_refl).
    cbn [tasks world task_message task_pc t2].
    rewrite resume_start, Hb, Hadmin_b, Hfree, Hlg.
    cbn [negb fst snd list_insert insert]. fold t2'.
    rewrite (sys_step_lookup env 0 {| world := w0; tasks := [t1'; t2'] |} t1'
               eq_refl).
    cbn [tasks world task_message task_pc t1']. rewrite Hentry1.
    cbn [fst snd list_insert insert].
    rewrite (sys_step_lookup env 1
               {| world := w3;
                  tasks := [ {| task_message := m1; task_pc := Selecting a |};
                             t2' ] |} t2' eq_refl).
    cbn [tasks world task_message task_pc t2']. rewrite Hentry2.
    reflexivity. }
  rewrite Hs. cbn [world tasks].
  split; [reflexivity|]. split; [reflexivity|].
  cbn. rewrite <- !app_assoc. reflexivity.
Qed.

End Window.

(** ** The tickets of a user *)

(** X24.  [handle_my_tickets] shows a user their own active tickets:
    after its audit call, which sends at most one message and only to
    the log channel, it asks the store once, and answers with the
    no-tickets text when the listing is empty, otherwise with the count
    of the listing and a keyboard that has one button per listed number,
    in ascending order of the numbers; it calls nothing else, and the
    store is only read. *)
Theorem my_tickets_shows_own_active_tickets (env : Env.t) (w : World.t)
    (message : Message.t) (user : User.t) :
  Message.from_user message = Some user ->
  let uid := User.id user in
  let chat := Message.chat_id message in
  let numbers := list_active_tickets_for_user uid (World.db w) in
  let shown :=
    match numbers with
    | [] => MessageAnswer chat (text_of env w uid "no_tickets" []) None
    | _ =>
        MessageAnswer chat
          (text_of env w uid "your_tickets"
             [("count", Py.str_int (Z.of_nat (length numbers)))])
          (Some (helpers.user_tickets_inline_keyboard numbers))
    end in
  Sorted Z.le numbers
  /\ (exists rows,
         helpers.user_tickets_inline_keyboard numbers
         = InlineKeyboardMarkup rows
         /\ concat rows = List.map helpers.ticket_button numbers)
  /\ exists r w' logged,
       bot.handle_my_tickets env message w = (r, w')
       /\ World.db w' = World.db w
       /\ audit_message (Memory.telegram_logger (World.mem w)) logged
       /\ World.trace w'
          = (World.trace w ++ logged
             ++ Query (GetActiveTicketsByUser uid)
                :: answered env shown
                     (MessageAnswer chat "Error retrieving tickets" None))%list.
Proof.
  intros Huser uid chat numbers shown.
  split; [apply listing_sorted|].
  split; [eexists; split; [reflexivity|apply rows_of_two_concat]|].
  destruct (log_user_message env (Memory.telegram_logger (World.mem w)) user
              "view_my_tickets" None None w) as (logged & Hlog & Haudit).
  destruct (my_tickets_shows_listing env message user w logged Huser Hlog)
    as (r & w' & Hrun & Hdb & Htrace).
  exists r, w', logged. repeat split; assumption.
Qed.

(** ** The properties on the sample data *)

Example sample_settings :
  config.load_settings fixture.int fixture.environ
  = inr (Settings.mk "123456:ABC-DEF" [1; 2; 3] (-100) None None None).
Proof. vm_compute. reflexivity. Qed.

Example sample_admin_ids_error :
  config._parse_admin_ids fixture.int "1,two,3"
  = inl (config.ValueError "ADMIN_IDS должен быть списком чисел, разделённых запятыми").
Proof. vm_compute. reflexivity. Qed.

Lemma sample_store_well_numbered : well_numbered sample.store.
Proof.
  split; simpl.
  - apply (bool_decide_unpack _). vm_compute. exact I.
  - repeat (apply Forall_cons; split; [simpl; lia|]). apply Forall_nil_2.
Qed.

Lemma admin_ids_round_trip_witness :
  (forall n, fixture.int (Py.str_int n) = Some n)
  /\ config._parse_admin_ids fixture.int "1,-2,30" = inr [1; -2; 30].
Proof.
  split; [exact parse_int_safe_str_int|].
  exact (admin_ids_round_trip fixture.int [1; -2; 30] parse_int_safe_str_int).
Defined.

Lemma loaded_settings_are_usable_witness :
  config.load_settings fixture.int fixture.environ
  = inr (Settings.mk "123456:ABC-DEF" [1; 2; 3] (-100) None None None)
  /\ config._parse_admin_ids fixture.int "1, 2,,3" = inr [1; 2; 3].
Proof.
  split; [exact sample_settings|].
  exact (proj1 (proj2 (proj2
           (loaded_settings_are_usable fixture.int fixture.environ
              (Settings.mk "123456:ABC-DEF" [1; 2; 3] (-100) None None None)
              sample_settings)))).
Defined.

Lemma photo_becomes_one_ticket_witness :
  Message.from_user (sample.photo_message sample.bob) = Some sample.bob
  /\ World.fsm fixture.waiting !! 8 = Some WaitingForPhoto
  /\ Db.tickets
       (World.db
          (snd (bot.handle_upload_photo sample.env
                  (sample.photo_message sample.bob) fixture.waiting)))
     = (Db.tickets sample.store
        ++ [Ticket.mk 5 8 None "large" "active" None])%list.
Proof.
  split; [reflexivity|]. split; [reflexivity|].
  exact (proj1 (photo_becomes_one_ticket sample.env fixture.waiting
                  (sample.photo_message sample.bob) sample.bob
                  (PhotoSize.mk "small" (Some 10))
                  [PhotoSize.mk "large" (Some 90); PhotoSize.mk "other" None]
                  eq_refl eq_refl eq_refl)).
Defined.

Lemma one_press_one_ticket_witness :
  Message.from_user (sample.message sample.bob) = Some sample.bob
  /\ Message.chat_id (sample.message sample.bob)
     = Message.chat_id (sample.photo_message sample.bob)
  /\ Db.tickets
       (World.db
          (serve sample.env
             [ ReqStartPhotoUpload (sample.message sample.bob);
               ReqUploadPhoto (sample.photo_message sample.bob) ]
             sample.world))
     = (Db.tickets sample.store
        ++ [Ticket.mk 5 8 None "large" "active" None])%list.
Proof.
  split; [reflexivity|]. split; [reflexivity|].
  exact (f_equal Db.tickets
           (proj1 (one_press_one_ticket sample.env sample.world
                     (sample.message sample.bob)
                     (sample.photo_message sample.bob) sample.bob
                     (PhotoSize.mk "small" (Some 10))
                     [PhotoSize.mk "large" (Some 90); PhotoSize.mk "other" None]
                     eq_refl eq_refl eq_refl eq_refl))).
Defined.

Lemma start_ends_upload_menu_does_not_witness :
  Message.from_user (sample.message sample.bob) = Some sample.bob
  /\ Db.tickets
       (World.db
          (serve sample.env
             [ ReqStartPhotoUpload (sample.message sample.bob);
               ReqStart (sample.message sample.bob);
               ReqUploadPhoto (sample.photo_message sample.bob) ]
             sample.world))
     = Db.tickets sample.store
  /\ Db.tickets
       (World.db
          (serve sample.env
             [ ReqStartPhotoUpload (sample.message sample.bob);
               ReqMenu (sample.message sample.bob);
               ReqUploadPhoto (sample.photo_message sample.bob) ]
             sample.world))
     = (Db.tickets sample.store
        ++ [Ticket.mk 5 8 None "large" "active" None])%list.
Proof.
  split; [reflexivity|].
  destruct (start_ends_upload_menu_does_not sample.env sample.world
              (sample.message sample.bob) (sample.message sample.bob)
              (sample.message sample.bob) (sample.photo_message sample.bob)
              sample.bob (PhotoSize.mk "small" (Some 10))
              [PhotoSize.mk "large" (Some 90); PhotoSize.mk "other" None]
              eq_refl eq_refl eq_refl eq_refl eq_refl eq_refl)
    as [Hignored Hissued].
  split.
  - cbv zeta in Hignored. cbn [serve fold_left] in *.
    change (handle sample.env (ReqUploadPhoto ?m) ?x)
      with (bot.handle_upload_photo sample.env m x) in Hignored.
    cbn [handle] in *. rewrite Hignored. reflexivity.
  - exact (f_equal Db.tickets Hissued).
Defined.

Lemma photos_are_shown_to_their_owner_only_witness :
  CallbackQuery.from_user (callback_of sample.bob "view_ticket:1" 8)
  = Some sample.bob
  /\ Forall (own_photo sample.store 8)
       (drop (length (World.trace sample.world))
          (World.trace
             (snd (bot.user_view_ticket_callback sample.env
                     (callback_of sample.bob "view_ticket:1" 8)
                     sample.world)))).
Proof.
  split; [reflexivity|].
  destruct (photos_are_shown_to_their_owner_only sample.env sample.world
              (callback_of sample.bob "view_ticket:1" 8) sample.bob eq_refl)
    as (_ & events & Htrace & Hown).
  rewrite Htrace, drop_app_length. exact Hown.
Defined.

Lemma listed_ticket_is_shown_to_its_owner_witness :
  well_numbered sample.store
  /\ 4 ∈ list_active_tickets_for_user 7 sample.store
  /\ exists caption,
       Sent (MessageAnswerPhoto 7 "file-d" caption None)
         ∈ World.trace
             (snd (bot.user_view_ticket_callback sample.env
                     (callback_of sample.alice "view_ticket:4" 7)
                     sample.world)).
Proof.
  assert (Hlisted : 4 ∈ list_active_tickets_for_user 7 sample.store).
  { apply (bool_decide_unpack _). vm_compute. exact I. }
  split; [exact sample_store_well_numbered|]. split; [exact Hlisted|].
  destruct (listed_ticket_is_shown_to_its_owner sample.env sample.world
              sample.alice 4 7 sample_store_well_numbered Hlisted)
    as (tk & logged & r & w' & Hin & Hn & _ & Hrun & _ & _ & Htrace).
  assert (Hfile : Ticket.file_id tk = "file-d").
  { cbn in Hin. repeat (apply elem_of_cons in Hin as [->|Hin]);
      try discriminate Hn; [reflexivity|].
    apply elem_of_nil in Hin as []. }
  cbv zeta in Htrace. change (bot.user_view_ticket_callback _ _ _) with
    (bot.user_view_ticket_callback sample.env
       (callback_of sample.alice ("view_ticket:" ++ Py.str_int 4) 7)
       sample.world).
  rewrite Hrun. cbn [snd]. rewrite Htrace, Hfile.
  eexists. apply elem_of_app. right. right.
  apply elem_of_app. right. left.
Defined.


Lemma my_tickets_shows_own_active_tickets_witness :
  Message.from_user (sample.message sample.alice) = Some sample.alice
  /\ exists r w' logged,
       bot.handle_my_tickets sample.env (sample.message sample.alice)
         sample.world = (r, w')
       /\ audit_message (Some (TelegramLogger.mk (Some (-200)))) logged
       /\ World.trace w'
          = (logged
             ++ [ Query (GetActiveTicketsByUser 7);
                  Sent (MessageAnswer 7 "[Missing translation: your_tickets]"
                          (Some (helpers.user_tickets_inline_keyboard [1; 4]))) ])%list.
Proof.
  split; [reflexivity|].
  destruct (my_tickets_shows_own_active_tickets sample.env sample.world
              (sample.message sample.alice) sample.alice eq_refl)
    as (_ & _ & r & w' & logged & Hrun & _ & Haudit & Htrace).
  exists r, w', logged. split; [exact Hrun|]. split; [exact Haudit|].
  exact Htrace.
Defined.

